(** * Savu: data with darks and flats

    A shallow embedding of
    [savu/data/data_structures/data_types/data_plus_darks_and_flats.py]
    (classes [DataWithDarksAndFlats], [ImageKey] and [NoImageKey]) and the
    properties of its index resolution, run segmentation, slice-list
    reduction and dark/flat accessors. *)

From stdpp Require Import base numbers list sorting strings gmap.
From Stdlib Require Import ZArith Lia QArith.

Local Open Scope Z_scope.

(** ** Exceptions and fallible computations *)

Inductive exn : Type :=
| AttributeError
| IndexError
| TypeError
| ValueError.

Inductive result (A : Type) : Type :=
| Ok (a : A)
| Raise (e : exn).
Arguments Ok {A} a.
Arguments Raise {A} e.

Definition bind {A B : Type} (m : result A) (k : A -> result B) : result B :=
  match m with
  | Ok a => k a
  | Raise e => Raise e
  end.

Notation "'let*' x ':=' m 'in' k" := (bind m (fun x => k))
  (at level 10, x name, m at level 100, k at level 200).

Fixpoint mapM {A B : Type} (f : A -> result B) (l : list A) : result (list B) :=
  match l with
  | [] => Ok []
  | x :: l' =>
      let* y := f x in
      let* ys := mapM f l' in
      Ok (y :: ys)
  end.

(** ** numpy integer arrays

    One-dimensional [intp] arrays are lists of [Z].  Element arithmetic is
    64-bit two's complement; positions produced by [np.where] and lengths are
    below the length of an array held in memory, so arithmetic on them is
    exact. *)

Definition int64_wrap (z : Z) : Z := (z + 2 ^ 63) `mod` 2 ^ 64 - 2 ^ 63.

(** [np.diff(a)]: [a[1:] - a[:-1]] *)
Fixpoint np_diff (a : list Z) : list Z :=
  match a with
  | x :: (y :: _) as tl => int64_wrap (y - x) :: np_diff tl
  | _ => []
  end.

(** [np.where(mask)[0]]: the positions of the true entries, ascending. *)
Fixpoint where_from (i : Z) (mask : list bool) : list Z :=
  match mask with
  | [] => []
  | b :: mask' =>
      if b then i :: where_from (i + 1) mask' else where_from (i + 1) mask'
  end.

Definition np_where (mask : list bool) : list Z := where_from 0 mask.

(** [a[i]] for an integer [i]: negative indices count from the end, anything
    outside [-len, len) raises [IndexError]. *)
Definition np_item {A : Type} (a : list A) (i : Z) : result A :=
  let n := Z.of_nat (length a) in
  if (- n <=? i) && (i <? n) then
    match a !! Z.to_nat (if i <? 0 then i + n else i) with
    | Some x => Ok x
    | None => Raise IndexError
    end
  else Raise IndexError.

(** [a[idx]] for a sequence of integers [idx] (fancy indexing). *)
Definition np_take {A : Type} (a : list A) (idx : list Z) : result (list A) :=
  mapM (np_item a) idx.

(** ** Slices *)

Record pyslice : Type := Slice {
  sl_start : option Z;
  sl_stop : option Z;
  sl_step : option Z
}.

(** [slice(None)] *)
Definition slice_all : pyslice := Slice None None None.

(** [slice.indices(len)] *)
Definition slice_indices (len : Z) (s : pyslice) : result (Z * Z * Z) :=
  let step := default 1 (sl_step s) in
  if step =? 0 then Raise ValueError else
  let lower := if step <? 0 then -1 else 0 in
  let upper := if step <? 0 then len - 1 else len in
  let clamp (x : Z) :=
    let x' := if x <? 0 then x + len else x in
    if x' <? lower then lower else Z.min x' upper in
  let start :=
    match sl_start s with
    | None => if step <? 0 then upper else lower
    | Some x => clamp x
    end in
  let stop :=
    match sl_stop s with
    | None => if step <? 0 then lower else upper
    | Some x => clamp x
    end in
  Ok (start, stop, step).

(** [range(start, stop, step)] for [step <> 0] *)
Definition py_range (start stop step : Z) : list Z :=
  let count :=
    if 0 <? step then (stop - start + step - 1) / step
    else (start - stop - step - 1) / (- step) in
  map (fun k => start + Z.of_nat k * step) (seq 0 (Z.to_nat count)).

(** The positions along an axis of length [len] that a slice selects. *)
Definition slice_positions (len : nat) (s : pyslice) : result (list Z) :=
  let* r := slice_indices (Z.of_nat len) s in
  let '(start, stop, step) := r in
  Ok (py_range start stop step).

(** [a[s]] for a slice [s] of a one-dimensional array. *)
Definition np_slice {A : Type} (a : list A) (s : pyslice) : result (list A) :=
  let* pos := slice_positions (length a) s in
  np_take a pos.

(** ** The run segmenter: [DataWithDarksAndFlats._get_start_end_idx] *)

Definition _get_start_end_idx (index : list Z)
  : result (list Z * list Z * list Z * list Z) :=
  let start :=
    0 :: map (fun i => i + 1) (np_where (map (fun d => 1 <? d) (np_diff index))) in
  let end_ :=
    map (fun i => i - 1) (tail start ++ [Z.of_nat (length index)]) in
  let* start_entry := np_take index start in
  let* end_entry := np_take index end_ in
  Ok (start, end_, start_entry, end_entry).

(** ** Python lists and control flow *)

(** [l[i] = x] for a dimension number [i]: [IndexError] out of range. *)
Definition py_setitem {A : Type} (l : list A) (i : nat) (x : A) : result (list A) :=
  if (i <? length l)%nat then Ok (<[i := x]> l) else Raise IndexError.

(** [del l[i]]: [IndexError] out of range. *)
Definition py_del {A : Type} (l : list A) (i : nat) : result (list A) :=
  if (i <? length l)%nat then Ok (delete i l) else Raise IndexError.

(** The order of [sorted(..., reverse=True)] on dimension numbers. *)
Definition descending (a b : nat) : Prop := (b <= a)%nat.

#[export] Instance descending_dec : RelDecision descending :=
  fun a b => Nat.le_dec b a.

(** A [for] loop whose body may raise. *)
Fixpoint for_each {A S : Type} (body : S -> A -> result S) (xs : list A) (s : S)
  : result S :=
  match xs with
  | [] => Ok s
  | x :: xs' =>
      let* s' := body s x in
      for_each body xs' s'
  end.

(** [try: body except: handler] with a bare [except]. *)
Definition try_except {A : Type} (body : result A) (handler : result A) : result A :=
  match body with
  | Ok a => Ok a
  | Raise _ => handler
  end.

(** ** Attribute resolution

    Inside a class body an identifier that starts with two underscores and
    does not end with two is rewritten to [_Class__name], both where a
    method is defined and where it is looked up on [self]. *)

Definition ends_with (suffix s : string) : bool :=
  String.eqb
    (String.substring (String.length s - String.length suffix)
       (String.length suffix) s)
    suffix
  && (String.length suffix <=? String.length s)%nat.

Definition mangle (cls name : string) : string :=
  if String.prefix "__" name && negb (ends_with "__" name)
  then String.append "_" (String.append cls name)
  else name.

(** The names bound by [def] in the body of each class, as written. *)
Definition defs_DataWithDarksAndFlats : list string :=
  [ "__init__"; "_copy_base"; "get_image_key"; "_get_image_key_data_shape";
    "_getitem_imagekey"; "_getitem_noimagekey"; "__setitem__";
    "get_dark_flat_slice_list"; "_set_scale"; "set_flat_scale";
    "set_dark_scale"; "get_shape"; "dark_mean"; "flat_mean"; "_calc_mean";
    "get_index"; "__get_preview_index"; "__get_reduced_index";
    "_get_start_end_idx"; "__get_data"; "dark_image_key_data";
    "flat_image_key_data"; "update_dark"; "update_flat" ].

Definition defs_ImageKey : list string :=
  [ "__init__"; "__getitem__"; "_copy"; "__ignore_image_key_entries"; "dark";
    "flat"; "_set_dark_and_flat" ].

Definition defs_NoImageKey : list string :=
  [ "__init__"; "__getitem__"; "_copy"; "_set_flat_path"; "_set_dark_path";
    "get_shape"; "dark"; "flat"; "_set_dark_and_flat" ].

(** The attributes the constructors set on the instance. *)
Definition instance_attributes : list string :=
  [ "data_obj"; "fscale"; "dscale"; "flat_updated"; "dark_updated";
    "image_key"; "data"; "proj_dim"; "dark_flat_slice_list"; "shape"; "nDims";
    "_getitem"; "dark_path"; "flat_path"; "orig_image_key"; "flat_image_key";
    "dark_image_key" ].

(** Every name an instance of [ImageKey] or [NoImageKey] resolves through
    the classes of this file.  Their base [BaseType] is defined elsewhere;
    a name of the form [_DataWithDarksAndFlats__x] can only come from a
    [def __x] in the body of [DataWithDarksAndFlats], so the base class
    adds none of them. *)
Definition namespace : list string :=
  instance_attributes
  ++ map (mangle "ImageKey") defs_ImageKey
  ++ map (mangle "NoImageKey") defs_NoImageKey
  ++ map (mangle "DataWithDarksAndFlats") defs_DataWithDarksAndFlats.

Definition hasattr (ns : list string) (name : string) : bool :=
  existsb (String.eqb name) ns.

(** ** Numbers and n-dimensional arrays

    Pixel values and scale factors are numpy and Python numbers; their
    arithmetic is kept behind an interface. *)

Class Numeric (num : Type) : Type := {
  num_one : num;                  (* the integer literal [1] *)
  num_float : num -> num;         (* [float(x)] *)
  num_mul : num -> num -> num;    (* [x * s] *)
  num_truth : num -> bool;        (* [bool(x)] *)
  num_mean32 : list num -> num    (* mean of the values, [astype(np.float32)] *)
}.

(** An array is its shape and its elements in C order. *)
Record ndarray (num : Type) : Type := NdArray {
  nd_shape : list nat;
  nd_buf : list num
}.
Arguments NdArray {num} nd_shape nd_buf.
Arguments nd_shape {num} n.
Arguments nd_buf {num} n.

(** [count] consecutive pieces of [size] elements. *)
Fixpoint chunks {A : Type} (size count : nat) (l : list A) : list (list A) :=
  match count with
  | O => []
  | S count' => take size l :: chunks size count' (drop size l)
  end.

Definition product (l : list nat) : nat := foldr Nat.mul 1%nat l.

Section Arrays.
Context {num : Type} `{Numeric num}.

Definition nd_ndim (a : ndarray num) : nat := length (nd_shape a).

Definition axis_len (d : nat) (a : ndarray num) : nat :=
  default 0%nat (nd_shape a !! d).

Definition axis_inner (d : nat) (a : ndarray num) : nat :=
  product (drop (S d) (nd_shape a)).

(** The array seen along axis [d]: for every index before [d], the
    sub-arrays at the positions of axis [d]. *)
Definition axis_rows (d : nat) (a : ndarray num) : list (list (list num)) :=
  let n := axis_len d a in
  let inner := axis_inner d a in
  map (chunks inner n)
      (chunks (n * inner) (product (take d (nd_shape a))) (nd_buf a)).

(** [a[:, ..., pos, ...]] with the integer sequence [pos] at axis [d]. *)
Definition take_axis (d : nat) (pos : list Z) (a : ndarray num)
  : result (ndarray num) :=
  if (d <? nd_ndim a)%nat then
    let* blocks := mapM (fun rows => np_take rows pos) (axis_rows d a) in
    Ok (NdArray (<[d := length pos]> (nd_shape a))
                (concat (map (fun b => concat b) blocks)))
  else Raise IndexError.

(** [a[sl]] for a sequence of slices, one per leading axis. *)
Fixpoint apply_slices (d : nat) (sl : list pyslice) (a : ndarray num)
  : result (ndarray num) :=
  match sl with
  | [] => Ok a
  | s :: sl' =>
      match nd_shape a !! d with
      | None => Raise IndexError
      | Some n =>
          let* pos := slice_positions n s in
          let* a' := take_axis d pos a in
          apply_slices (S d) sl' a'
      end
  end.

Definition nd_getitem (a : ndarray num) (sl : list pyslice)
  : result (ndarray num) :=
  apply_slices 0 sl a.

(** [a * s] for a scalar [s]. *)
Definition nd_scale (a : ndarray num) (s : num) : ndarray num :=
  NdArray (nd_shape a) (map (fun x => num_mul x s) (nd_buf a)).

(** [a.mean(d).astype(np.float32)] *)
Definition nd_mean32 (d : nat) (a : ndarray num) : result (ndarray num) :=
  if (d <? nd_ndim a)%nat then
    Ok (NdArray (delete d (nd_shape a))
          (concat
             (map (fun rows =>
                     map (fun i => num_mean32 (omap (fun r => r !! i) rows))
                         (seq 0 (axis_inner d a)))
                  (axis_rows d a))))
  else Raise ValueError.

(** [bool(a)]: ambiguous for more than one element. *)
Definition nd_truth (a : ndarray num) : result bool :=
  match nd_buf a with
  | [] => Ok false
  | [x] => Ok (num_truth x)
  | _ => Raise ValueError
  end.
End Arrays.

(** ** The dataset view *)

Section View.
Context {num : Type} `{Numeric num}.

(** The parent dataset object.  Its class is not among these sources; the
    view reads the array, the outcome of the preview lookup
    [get_preview()._get_preview_slice_list()] (a fresh slice list, or the
    exception raised when there is none), the axis-label lookup, and
    writes the metadata store. *)
Record DataObj : Type := mkDataObj {
  do_data : ndarray num;
  preview_slice_list : result (list pyslice);
  find_axis_label_dimension : string -> nat;
  meta_data : gmap string (ndarray num)
}.

Definition set_meta_data (d : DataObj) (key : string) (value : ndarray num)
  : DataObj :=
  mkDataObj (do_data d) (preview_slice_list d) (find_axis_label_dimension d)
            (<[key := value]> (meta_data d)).

(** [flat_updated] and [dark_updated]: [False] or the frame supplied. *)
Inductive override : Type :=
| NotUpdated
| Updated (frame : ndarray num).

(** [flat_image_key] and [dark_image_key]: [False] or a label array. *)
Inductive ref_key : Type :=
| NoKey
| Key (labels : list Z).

Record View : Type := mkView {
  data_obj : DataObj;
  fscale : num;
  dscale : num;
  flat_updated : override;
  dark_updated : override;
  image_key : option (list Z);
  data : ndarray num;
  proj_dim : nat;
  dark_flat_slice_list : option (list pyslice);
  shape : list nat;
  nDims : nat;
  dark_path : option (ndarray num);
  flat_path : option (ndarray num);
  orig_image_key : option (list Z);
  flat_image_key : ref_key;
  dark_image_key : ref_key
}.

Definition with_data_obj (v : View) (d : DataObj) : View :=
  mkView d (fscale v) (dscale v) (flat_updated v) (dark_updated v)
    (image_key v) (data v) (proj_dim v) (dark_flat_slice_list v) (shape v)
    (nDims v) (dark_path v) (flat_path v) (orig_image_key v)
    (flat_image_key v) (dark_image_key v).

Definition with_fscale (v : View) (s : num) : View :=
  mkView (data_obj v) s (dscale v) (flat_updated v) (dark_updated v)
    (image_key v) (data v) (proj_dim v) (dark_flat_slice_list v) (shape v)
    (nDims v) (dark_path v) (flat_path v) (orig_image_key v)
    (flat_image_key v) (dark_image_key v).

Definition with_dscale (v : View) (s : num) : View :=
  mkView (data_obj v) (fscale v) s (flat_updated v) (dark_updated v)
    (image_key v) (data v) (proj_dim v) (dark_flat_slice_list v) (shape v)
    (nDims v) (dark_path v) (flat_path v) (orig_image_key v)
    (flat_image_key v) (dark_image_key v).

Definition with_flat_updated (v : View) (o : override) : View :=
  mkView (data_obj v) (fscale v) (dscale v) o (dark_updated v)
    (image_key v) (data v) (proj_dim v) (dark_flat_slice_list v) (shape v)
    (nDims v) (dark_path v) (flat_path v) (orig_image_key v)
    (flat_image_key v) (dark_image_key v).

Definition with_dark_updated (v : View) (o : override) : View :=
  mkView (data_obj v) (fscale v) (dscale v) (flat_updated v) o
    (image_key v) (data v) (proj_dim v) (dark_flat_slice_list v) (shape v)
    (nDims v) (dark_path v) (flat_path v) (orig_image_key v)
    (flat_image_key v) (dark_image_key v).

Definition with_image_key (v : View) (k : option (list Z)) : View :=
  mkView (data_obj v) (fscale v) (dscale v) (flat_updated v) (dark_updated v)
    k (data v) (proj_dim v) (dark_flat_slice_list v) (shape v)
    (nDims v) (dark_path v) (flat_path v) (orig_image_key v)
    (flat_image_key v) (dark_image_key v).

Definition with_dark_flat_slice_list (v : View) (sl : option (list pyslice))
  : View :=
  mkView (data_obj v) (fscale v) (dscale v) (flat_updated v) (dark_updated v)
    (image_key v) (data v) (proj_dim v) sl (shape v)
    (nDims v) (dark_path v) (flat_path v) (orig_image_key v)
    (flat_image_key v) (dark_image_key v).

Definition with_shape (v : View) (sh : list nat) : View :=
  mkView (data_obj v) (fscale v) (dscale v) (flat_updated v) (dark_updated v)
    (image_key v) (data v) (proj_dim v) (dark_flat_slice_list v) sh
    (length sh) (dark_path v) (flat_path v) (orig_image_key v)
    (flat_image_key v) (dark_image_key v).

Definition with_flat_path (v : View) (p : option (ndarray num)) (k : ref_key)
  : View :=
  mkView (data_obj v) (fscale v) (dscale v) (flat_updated v) (dark_updated v)
    (image_key v) (data v) (proj_dim v) (dark_flat_slice_list v) (shape v)
    (nDims v) (dark_path v) p (orig_image_key v) k (dark_image_key v).

Definition with_dark_path (v : View) (p : option (ndarray num)) (k : ref_key)
  : View :=
  mkView (data_obj v) (fscale v) (dscale v) (flat_updated v) (dark_updated v)
    (image_key v) (data v) (proj_dim v) (dark_flat_slice_list v) (shape v)
    (nDims v) p (flat_path v) (orig_image_key v) (flat_image_key v) k.

(** *** [DataWithDarksAndFlats] *)

(** [DataWithDarksAndFlats.__init__] *)
Definition base_init (d : DataObj) (proj : nat) (key : option (list Z)) : View :=
  mkView d num_one num_one NotUpdated NotUpdated key (do_data d) proj None
    [] 0%nat None None None NoKey NoKey.

(** [np.where(self.image_key == key)[0]]; comparing [None] with a number
    is [False], whose [np.where] is empty. *)
Definition where_key (key_array : option (list Z)) (key : Z) : list Z :=
  match key_array with
  | Some labels => np_where (map (fun l => l =? key) labels)
  | None => []
  end.

(** An array used where an integer is required. *)
Definition as_index (a : list Z) : result Z :=
  match a with
  | [i] => Ok i
  | _ => Raise TypeError
  end.

(** [__get_reduced_index]; [ns] is the namespace in which the attribute
    [self.__get_start_end_idx] is looked up. *)
Definition __get_reduced_index (ns : list string) (v : View) (key : Z)
    (slice_list : pyslice) : result (list Z) :=
  let* data_entries := np_slice (where_key (image_key v) 0) slice_list in
  if key =? 0 then Ok data_entries else
  let index := where_key (image_key v) key in
  if hasattr ns (mangle "DataWithDarksAndFlats" "__get_start_end_idx") then
    let* segs := _get_start_end_idx index in
    let '(start_idx, end_idx, start_entry, end_entry) := segs in
    let* first := np_item data_entries 0 in
    let* i := np_item (np_where (map (fun p => p <? first) index)) (-1) in
    let* val := np_item index i in
    let* si := as_index (np_where (map (fun e => e =? val) end_entry)) in
    let* start := np_item start_idx si in
    let* last := np_item data_entries (-1) in
    let* j := np_item (np_where (map (fun p => last <? p) index)) 0 in
    let* val2 := np_item index j in
    let* ei := as_index (np_where (map (fun e => e =? val2) end_entry)) in
    let* end_ := np_item end_idx ei in
    np_slice index (Slice (Some start) (Some (end_ + 1)) None)
  else Raise AttributeError.

(** [__get_preview_index] *)
Definition __get_preview_index (v : View) (key : Z) : result (list Z) :=
  try_except
    (let* slices := preview_slice_list (data_obj v) in
     let* slice_list := np_item slices (Z.of_nat (proj_dim v)) in
     __get_reduced_index namespace v key slice_list)
    (Ok (where_key (image_key v) key)).

(** [get_index] *)
Definition get_index (v : View) (key : Z) (full : bool) : result (list Z) :=
  if full then Ok (where_key (image_key v) key)
  else __get_preview_index v key.

(** [_get_image_key_data_shape] *)
Definition _get_image_key_data_shape (v : View) : result (list nat) :=
  let* data_idx := get_index v 0 false in
  py_setitem (nd_shape (data v)) (proj_dim v) (length data_idx).

(** [get_dark_flat_slice_list] *)
Definition get_dark_flat_slice_list (v : View) : result (list pyslice) :=
  let* slice_list := preview_slice_list (data_obj v) in
  let remove_dim := find_axis_label_dimension (data_obj v) "rotation_angle" in
  let* slice_list := py_setitem slice_list remove_dim slice_all in
  if (3 <? length slice_list)%nat then
    let idx := seq 0 (length slice_list) in
    let detX := find_axis_label_dimension (data_obj v) "detector_x" in
    let detY := find_axis_label_dimension (data_obj v) "detector_y" in
    let remove : gset nat :=
      list_to_set idx ∖ list_to_set [remove_dim; detX; detY] in
    for_each py_del (merge_sort descending (elements remove))
             slice_list
  else Ok slice_list.

(** [set_flat_scale], [set_dark_scale] *)
Definition set_flat_scale (v : View) (s : num) : View :=
  with_fscale v (num_float s).

Definition set_dark_scale (v : View) (s : num) : View :=
  with_dscale v (num_float s).

(** [_calc_mean] *)
Definition _calc_mean (v : View) (d : ndarray num) : result (ndarray num) :=
  if (nd_ndim d =? 2)%nat then Ok d else nd_mean32 (proj_dim v) d.

(** [__get_data] *)
Definition __get_data (v : View) (key : Z) : result (ndarray num) :=
  let* idx := get_index v key false in
  if negb (proj_dim v <? nDims v)%nat then Raise IndexError else
  if negb (nDims v <=? nd_ndim (data v))%nat then Raise IndexError else
  let* d := take_axis (proj_dim v) idx (data v) in
  match dark_flat_slice_list v with
  | None => Raise TypeError
  | Some sl =>
      let* sl' :=
        if (nd_ndim d =? 2)%nat
        then py_del sl (find_axis_label_dimension (data_obj v) "rotation_angle")
        else Ok sl in
      nd_getitem d sl'
  end.

(** [dark_image_key_data], [flat_image_key_data] *)
Definition dark_image_key_data (v : View) : result (ndarray num) :=
  let* d := __get_data v 2 in
  Ok (nd_scale d (dscale v)).

Definition flat_image_key_data (v : View) : result (ndarray num) :=
  let* d := __get_data v 1 in
  Ok (nd_scale d (fscale v)).

(** [update_dark], [update_flat]: the state after the call and whether it
    returned or raised. *)
Definition update_dark (v : View) (d : ndarray num) : View * result unit :=
  let v1 := with_dscale (with_dark_updated v (Updated d)) num_one in
  match _calc_mean v1 d with
  | Ok m => (with_data_obj v1 (set_meta_data (data_obj v1) "dark" m), Ok tt)
  | Raise e => (v1, Raise e)
  end.

Definition update_flat (v : View) (d : ndarray num) : View * result unit :=
  let v1 := with_fscale (with_flat_updated v (Updated d)) num_one in
  match _calc_mean v1 d with
  | Ok m => (with_data_obj v1 (set_meta_data (data_obj v1) "flat" m), Ok tt)
  | Raise e => (v1, Raise e)
  end.
(** *** The two variants of the view *)

(** The [ignore] argument of [ImageKey]: [None], one batch number or a
    list of them. *)
Inductive ignore_arg : Type :=
| IgnoreNone
| IgnoreOne (batch : Z)
| IgnoreList (batches : list Z).

(** [if ignore:] *)
Definition ignore_truth (ignore : ignore_arg) : bool :=
  match ignore with
  | IgnoreNone => false
  | IgnoreOne b => negb (b =? 0)
  | IgnoreList bs => negb (length bs =? 0)%nat
  end.

(** [labels[start:stop] = x] *)
Definition assign_slice (labels : list Z) (start stop : Z) (x : Z)
  : result (list Z) :=
  let* pos :=
    slice_positions (length labels) (Slice (Some start) (Some stop) None) in
  Ok (foldr (fun p l => <[Z.to_nat p := x]> l) labels pos).

(** The body of the loop of [__ignore_image_key_entries]. *)
Definition ignore_batch (start end_ : list Z) (v : View) (batch : Z)
  : result View :=
  let* s := np_item start (batch - 1) in
  let* e := np_item end_ (batch - 1) in
  match image_key v with
  | None => Raise TypeError
  | Some labels =>
      let* labels' := assign_slice labels s (e + 1) 3 in
      Ok (with_image_key v (Some labels'))
  end.

(** [ImageKey.__ignore_image_key_entries] *)
Definition __ignore_image_key_entries (v : View) (ignore : ignore_arg)
  : result View :=
  let* idx := get_index v 1 false in
  let* segs := _get_start_end_idx idx in
  let '(_, _, start, end_) := segs in
  match ignore with
  | IgnoreNone => Raise TypeError
  | IgnoreOne b => for_each (ignore_batch start end_) [b] v
  | IgnoreList bs => for_each (ignore_batch start end_) bs v
  end.

(** [ImageKey.__init__] *)
Definition ImageKey_init (d : DataObj) (key : list Z) (proj : nat)
    (ignore : ignore_arg) : result View :=
  let v := base_init d proj (Some key) in
  let* sh := _get_image_key_data_shape v in
  let v := with_shape v sh in
  if ignore_truth ignore then __ignore_image_key_entries v ignore else Ok v.

(** [ImageKey.dark], [ImageKey.flat] *)
Definition ImageKey_dark (v : View) : result (ndarray num) :=
  match dark_updated v with
  | NotUpdated => dark_image_key_data v
  | Updated frame =>
      let* t := nd_truth frame in
      if t then Ok frame else dark_image_key_data v
  end.

Definition ImageKey_flat (v : View) : result (ndarray num) :=
  match flat_updated v with
  | NotUpdated => flat_image_key_data v
  | Updated frame =>
      let* t := nd_truth frame in
      if t then Ok frame else flat_image_key_data v
  end.

(** [dark_mean], [flat_mean] on an [ImageKey] *)
Definition ImageKey_dark_mean (v : View) : result (ndarray num) :=
  let* d := ImageKey_dark v in
  _calc_mean v d.

Definition ImageKey_flat_mean (v : View) : result (ndarray num) :=
  let* d := ImageKey_flat v in
  _calc_mean v d.

(** One of the two conditional publications of [_set_dark_and_flat]. *)
Definition publish_mean (name : string) (label : Z)
    (mean : View -> result (ndarray num)) (v : View) : View * result unit :=
  match get_index v label false with
  | Raise e => (v, Raise e)
  | Ok idx =>
      if (length idx =? 0)%nat then (v, Ok tt)
      else match mean v with
           | Ok m => (with_data_obj v (set_meta_data (data_obj v) name m), Ok tt)
           | Raise e => (v, Raise e)
           end
  end.

(** [ImageKey._set_dark_and_flat] *)
Definition ImageKey_set_dark_and_flat (v : View) : View * result unit :=
  match get_dark_flat_slice_list v with
  | Raise e => (v, Raise e)
  | Ok sl =>
      let v1 := with_dark_flat_slice_list v (Some sl) in
      match publish_mean "dark" 2 ImageKey_dark_mean v1 with
      | (v2, Ok _) => publish_mean "flat" 1 ImageKey_flat_mean v2
      | (v2, Raise e) => (v2, Raise e)
      end
  end.

(** [NoImageKey.__init__] *)
Definition NoImageKey_init (d : DataObj) (key : option (list Z)) (proj : nat)
  : result View :=
  let v := base_init d proj key in
  let v :=
    mkView (data_obj v) (fscale v) (dscale v) (flat_updated v)
      (dark_updated v) (image_key v) (data v) (proj_dim v)
      (dark_flat_slice_list v) (shape v) (nDims v) None None key NoKey NoKey in
  let* sh :=
    match image_key v with
    | Some _ => _get_image_key_data_shape v
    | None => Ok (nd_shape (do_data d))
    end in
  Ok (with_shape v sh).

(** [NoImageKey._set_flat_path], [NoImageKey._set_dark_path] *)
Definition _set_flat_path (v : View) (path : ndarray num) (imagekey : ref_key)
  : View :=
  with_flat_path v (Some path) imagekey.

Definition _set_dark_path (v : View) (path : ndarray num) (imagekey : ref_key)
  : View :=
  with_dark_path v (Some path) imagekey.

(** [path[self.dark_flat_slice_list]]: indexing [None] fails, indexing
    with [None] adds a leading axis of length one. *)
Definition path_getitem (path : option (ndarray num))
    (sl : option (list pyslice)) : result (ndarray num) :=
  match path with
  | None => Raise TypeError
  | Some p =>
      match sl with
      | None => Ok (NdArray (1%nat :: nd_shape p) (nd_buf p))
      | Some sl => nd_getitem p sl
      end
  end.

(** The part of [NoImageKey.dark] after the override test. *)
Definition NoImageKey_dark_computed (v : View) : View * result (ndarray num) :=
  match dark_image_key v with
  | Key labels =>
      let v1 := with_image_key v (Some labels) in
      match dark_image_key_data v1 with
      | Ok dark => (with_image_key v1 (orig_image_key v1), Ok dark)
      | Raise e => (v1, Raise e)
      end
  | NoKey =>
      (v, let* d := path_getitem (dark_path v) (dark_flat_slice_list v) in
          Ok (nd_scale d (dscale v)))
  end.

(** [NoImageKey.dark] *)
Definition NoImageKey_dark (v : View) : View * result (ndarray num) :=
  match dark_updated v with
  | NotUpdated => NoImageKey_dark_computed v
  | Updated frame =>
      match nd_truth frame with
      | Raise e => (v, Raise e)
      | Ok true => (v, Ok frame)
      | Ok false => NoImageKey_dark_computed v
      end
  end.

(** The part of [NoImageKey.flat] after the override test. *)
Definition NoImageKey_flat_computed (v : View) : View * result (ndarray num) :=
  match flat_image_key v with
  | Key labels =>
      let v1 := with_image_key v (Some labels) in
      match flat_image_key_data v1 with
      | Ok flat => (with_image_key v1 (orig_image_key v1), Ok flat)
      | Raise e => (v1, Raise e)
      end
  | NoKey =>
      (v, let* d := path_getitem (flat_path v) (dark_flat_slice_list v) in
          Ok (nd_scale d (fscale v)))
  end.

(** [NoImageKey.flat]: the override branch is [self.flat_updated()], a
    call of the stored array, which is not callable. *)
Definition NoImageKey_flat (v : View) : View * result (ndarray num) :=
  match flat_updated v with
  | NotUpdated => NoImageKey_flat_computed v
  | Updated frame =>
      match nd_truth frame with
      | Raise e => (v, Raise e)
      | Ok true => (v, Raise TypeError)
      | Ok false => NoImageKey_flat_computed v
      end
  end.
End View.

Arguments DataObj num : clear implicits.
Arguments View num : clear implicits.
Arguments override num : clear implicits.

(** Exact rational arithmetic as an instance for concrete evaluations. *)
#[export] Instance Q_Numeric : Numeric Q := {
  num_one := 1%Q;
  num_float := fun x => x;
  num_mul := fun x s => Qred (x * s);
  num_truth := fun x => negb (Qeq_bool x 0);
  num_mean32 := fun l =>
    Qred (foldr Qplus 0%Q l / inject_Z (Z.of_nat (length l)))
}.

(** ** Concrete data *)

Definition axes_0_1_2 (name : string) : nat :=
  if String.eqb name "rotation_angle" then 0%nat
  else if String.eqb name "detector_y" then 1%nat
  else 2%nat.

(** Eleven 1x1 frames with the values 0 to 10; the frame at position [p]
    holds the value [p]. *)
Definition frames11 : ndarray Q :=
  NdArray [11; 1; 1]%nat (map (fun p => inject_Z (Z.of_nat p)) (seq 0 11)).

(** flat,data,data,data,flat,dark,dark,flat,data,data,flat *)
Definition labels11 : list Z := [1; 0; 0; 0; 1; 2; 2; 1; 0; 0; 1].

(** A preview selecting the logical data positions 1 and 2. *)
Definition preview_1_3 : list pyslice :=
  [Slice (Some 1) (Some 3) (Some 1); slice_all; slice_all].

Definition dataset11 : DataObj Q :=
  mkDataObj frames11 (Ok preview_1_3) axes_0_1_2 ∅.

Definition dataset11_no_preview : DataObj Q :=
  mkDataObj frames11 (Raise AttributeError) axes_0_1_2 ∅.

(** ** Specification vocabulary *)

(** Positions of frames: non-negative values of a signed 64-bit array. *)
Definition positions (index : list Z) : Prop :=
  Forall (fun p => 0 <= p < 2 ^ 63) index.

(** A break sits at index [i] when the positions at [i - 1] and [i] differ
    by more than one. *)
Definition is_break (index : list Z) (i : Z) : Prop :=
  exists x y,
    0 < i /\ index !! Z.to_nat (i - 1) = Some x /\ index !! Z.to_nat i = Some y
    /\ 1 < y - x.

(** [start], [end_] are the first and last indices of the maximal runs of
    [index], in order, and [start_entry], [end_entry] the positions found
    there. *)
Definition maximal_runs (index start end_ start_entry end_entry : list Z)
  : Prop :=
  StronglySorted Z.lt start
  /\ (forall i, i ∈ start <-> i = 0 \/ is_break index i)
  /\ length end_ = length start
  /\ (forall j e, end_ !! j = Some e ->
        start !! S j = Some (e + 1)
        \/ (S j = length start /\ e = Z.of_nat (length index) - 1))
  /\ length start_entry = length start
  /\ (forall j s, start !! j = Some s -> start_entry !! j = index !! Z.to_nat s)
  /\ length end_entry = length end_
  /\ (forall j e, end_ !! j = Some e -> end_entry !! j = index !! Z.to_nat e).

(** The indices after which the segmenter sees a gap, and the two index
    lists it builds from them. *)
Definition breaks (index : list Z) : list Z :=
  np_where (map (fun d => 1 <? d) (np_diff index)).

Definition run_starts (index : list Z) : list Z :=
  0 :: map (fun i => i + 1) (breaks index).

Definition run_ends (index : list Z) : list Z :=
  map (fun i => i - 1) (tail (run_starts index) ++ [Z.of_nat (length index)]).

(** A single contiguous block: no two neighbours differ by more than one. *)
Definition contiguous (index : list Z) : Prop :=
  forall i x y, index !! i = Some x -> index !! S i = Some y -> y - x <= 1.

(** The label of the frame at position [p], if there is one. *)
Definition label_at (key_array : option (list Z)) (p : Z) : option Z :=
  match key_array with
  | Some labels => if 0 <=? p then labels !! Z.to_nat p else None
  | None => None
  end.

(** The labels the data model defines: data, flat, dark, ignored. *)
Definition defined_labels (labels : list Z) : Prop :=
  Forall (fun l => 0 <= l <= 3) labels.

(** The lookup at the head of [__get_preview_index]:
    [get_preview()._get_preview_slice_list()[self.proj_dim]]. *)
Definition preview_lookup {num : Type} (v : View num) : result pyslice :=
  let* slices := preview_slice_list (data_obj v) in
  np_item slices (Z.of_nat (proj_dim v)).

(** The views that [ImageKey] builds on the concrete data. *)
Definition view11 : View Q :=
  with_shape (base_init dataset11 0 (Some labels11)) [2; 1; 1]%nat.

Definition view11_no_preview : View Q :=
  with_shape (base_init dataset11_no_preview 0 (Some labels11)) [5; 1; 1]%nat.

(** The entries of [l] whose index, counted from [i], satisfies [P]. *)
Fixpoint filter_index {A : Type} (P : nat -> bool) (i : nat) (l : list A)
  : list A :=
  match l with
  | [] => []
  | x :: l' =>
      if P i then x :: filter_index P (S i) l' else filter_index P (S i) l'
  end.

(** The entries of a slice list at the dimensions [dims], in ascending
    order of dimension. *)
Definition keep_dims {A : Type} (dims : list nat) (l : list A) : list A :=
  filter_index (fun i => bool_decide (i ∈ dims)) 0 l.

(** A five-dimensional dataset with rotation angle, detector x and
    detector y at the dimensions 0, 2 and 3. *)
Definition axes_0_2_3 (name : string) : nat :=
  if String.eqb name "rotation_angle" then 0%nat
  else if String.eqb name "detector_x" then 2%nat
  else 3%nat.

Definition preview5 : list pyslice :=
  map (fun k => Slice (Some 0) (Some (Z.of_nat k)) (Some 1)) (seq 1 5).

Definition dataset5 : DataObj Q :=
  mkDataObj (NdArray [1; 1; 1; 1; 1]%nat [0%Q]) (Ok preview5) axes_0_2_3 ∅.

Definition view5 : View Q :=
  with_shape (base_init dataset5 0 None) [1; 1; 1; 1; 1]%nat.

(** Run number [b] (counted from 1) of [index] consists of the consecutive
    positions [s] to [e]. *)
Definition run_spans (index : list Z) (b s e : Z) : Prop :=
  exists i_s i_e,
    run_starts index !! Z.to_nat (b - 1) = Some i_s
    /\ run_ends index !! Z.to_nat (b - 1) = Some i_e
    /\ index !! Z.to_nat i_s = Some s
    /\ index !! Z.to_nat i_e = Some e
    /\ forall p, s <= p <= e
                 <-> exists i, i_s <= i <= i_e /\ index !! Z.to_nat i = Some p.

(** What [__get_data] extracts once the positions [idx] are known. *)
Definition frames_at {num : Type} `{Numeric num} (v : View num) (idx : list Z)
  : result (ndarray num) :=
  if negb (proj_dim v <? nDims v)%nat then Raise IndexError else
  if negb (nDims v <=? nd_ndim (data v))%nat then Raise IndexError else
  let* d := take_axis (proj_dim v) idx (data v) in
  match dark_flat_slice_list v with
  | None => Raise TypeError
  | Some sl =>
      let* sl' :=
        if (nd_ndim d =? 2)%nat
        then py_del sl (find_axis_label_dimension (data_obj v) "rotation_angle")
        else Ok sl in
      nd_getitem d sl'
  end.

(** The mean reduction as the specification words it: averaged over the
    projection axis when the frame has more than two dimensions, the frame
    itself otherwise.  To be compared with [_calc_mean]. *)
Definition calc_mean_as_specified {num : Type} `{Numeric num}
    (v : View num) (d : ndarray num) : result (ndarray num) :=
  if (2 <? nd_ndim d)%nat then nd_mean32 (proj_dim v) d else Ok d.

(** [dark()] and [flat()] without an override as the specification words
    them: the frames of the label, averaged across the projection axis
    whenever more than one frame is present, cast, and multiplied by the
    scale factor.  To be compared with [ImageKey_dark], [ImageKey_flat]. *)
Definition calibration_as_specified {num : Type} `{Numeric num}
    (v : View num) (key : Z) (scale : num) : result (ndarray num) :=
  let* frames := __get_data v key in
  let* reduced :=
    if (1 <? axis_len (proj_dim v) frames)%nat
    then nd_mean32 (proj_dim v) frames
    else Ok frames in
  Ok (nd_scale reduced scale).

(** [view11] after [_set_dark_and_flat], which caches the slice list. *)
Definition view11_ready : View Q := fst (ImageKey_set_dark_and_flat view11).

(** Override frames: a 1x1 frame, a 1x1 frame of zero and a stack of two
    1x1 frames. *)
Definition frame5 : ndarray Q := NdArray [1; 1]%nat [5%Q].
Definition frame0 : ndarray Q := NdArray [1; 1]%nat [0%Q].
Definition stack57 : ndarray Q := NdArray [2; 1; 1]%nat [5%Q; 7%Q].

(** A dataset of three 1x1 data frames whose darks and flats are separate
    arrays, and its [NoImageKey] view with both paths set and the slice
    list cached. *)
Definition dataset_ext : DataObj Q :=
  mkDataObj (NdArray [3; 1; 1]%nat [10%Q; 20%Q; 30%Q])
            (Ok [slice_all; slice_all; slice_all]) axes_0_1_2 ∅.

Definition view_ext0 : View Q :=
  with_shape (base_init dataset_ext 0 None) [3; 1; 1]%nat.

Definition view_ext : View Q :=
  with_dark_flat_slice_list
    (_set_dark_path
       (_set_flat_path view_ext0 (NdArray [1; 1; 1]%nat [8%Q]) NoKey)
       (NdArray [1; 1; 1]%nat [1%Q]) NoKey)
    (Some [slice_all; slice_all; slice_all]).

(** ** Logical indexing and the reconstruction padding *)

(** An entry of the index tuple that [_getitem_imagekey] hands to the
    array: a slice, or the list of physical positions it puts at the
    projection axis. *)
Inductive index_entry : Type :=
| ISlice (s : pyslice)
| IList (pos : list Z).

Section Indexing.
Context {num : Type} `{Numeric num}.

(** [a[tuple(index)]] for slices and at most one list of positions. *)
Fixpoint apply_index (d : nat) (index : list index_entry) (a : ndarray num)
  : result (ndarray num) :=
  match index with
  | [] => Ok a
  | entry :: index' =>
      match nd_shape a !! d with
      | None => Raise IndexError
      | Some n =>
          let* pos :=
            match entry with
            | ISlice s => slice_positions n s
            | IList pos => Ok pos
            end in
          let* a' := take_axis d pos a in
          apply_index (S d) index' a'
      end
  end.

(** [_getitem_imagekey], which [ImageKey.__getitem__] calls, for an index
    tuple [idx] of slices. *)
Definition _getitem_imagekey (v : View num) (idx : list pyslice)
  : result (ndarray num) :=
  let* data_idx := get_index v 0 true in
  let* s := np_item idx (Z.of_nat (proj_dim v)) in
  let* pos := np_slice data_idx s in
  let* index := py_setitem (map ISlice idx) (proj_dim v) (IList pos) in
  apply_index 0 index (data v).
End Indexing.

(** [AstraRecon.reconstruct]: the widths [(plow, phigh)] by which the
    sinogram of [width] columns is padded, for an integer centre of
    rotation [ctr].  [mid = width / 2.0] is a half-integer that binary64
    holds exactly, and Python compares an integer with it exactly, so
    [ctr > mid] is [width < 2 * ctr]. *)
Definition reconstruct_pad (width ctr : Z) : Z * Z :=
  let pad := 50 in
  let alen := ctr in
  let blen := width - ctr in
  if width <? 2 * ctr
  then (pad, (alen - blen) + pad)
  else ((blen - alen) + pad, pad).

(** The frames a list of ignore batches names: position [p] lies in the
    run of some batch of [bs]. *)
Definition in_ignored_run (index : list Z) (bs : list Z) (p : Z) : Prop :=
  exists b s e, b ∈ bs /\ run_spans index b s e /\ s <= p <= e.

(** A [NoImageKey] view whose darks carry labels, before any slice list
    is cached. *)
Definition view_ext_keyed : View Q :=
  _set_dark_path view_ext0 (NdArray [1; 1; 1]%nat [1%Q]) (Key [2; 0; 0]).

(** [view11] under a preview whose slice for the projection axis has the
    step 0. *)
Definition view11_zero_step : View Q :=
  with_data_obj view11
    (mkDataObj frames11
       (Ok [Slice (Some 1) (Some 3) (Some 0); slice_all; slice_all])
       axes_0_1_2 ∅).

(** ** Views over other arrays *)

(** The view with [self.data] bound to another array. *)
Definition with_data {num : Type} (v : View num) (a : ndarray num)
  : View num :=
  mkView (data_obj v) (fscale v) (dscale v) (flat_updated v) (dark_updated v)
    (image_key v) a (proj_dim v) (dark_flat_slice_list v) (shape v)
    (nDims v) (dark_path v) (flat_path v) (orig_image_key v)
    (flat_image_key v) (dark_image_key v).

(** Two arrays of one shape that hold the same sub-arrays at every position
    of axis [d] outside [s] to [e]; at the positions [s] to [e] they may
    differ in any way. *)
Definition agree_outside {num : Type} (d : nat) (s e : Z)
    (a a' : ndarray num) : Prop :=
  nd_shape a = nd_shape a'
  /\ Forall2 (fun rows rows' =>
                length rows = length rows'
                /\ forall n : nat, ~ (s <= Z.of_nat n <= e) ->
                     rows !! n = rows' !! n)
       (axis_rows d a) (axis_rows d a').

(** A buffer with one element for every index of the shape. *)
Definition nd_wf {num : Type} (a : ndarray num) : Prop :=
  length (nd_buf a) = product (nd_shape a).

(** [taken] is [a] with, along axis [d], the sub-arrays of [a] at the
    positions [pos], in the order of [pos]: its buffer is, for every index
    before [d], the sub-arrays at those positions one after the other. *)
Definition reads_at {num : Type} (d : nat) (pos : list Z)
    (a taken : ndarray num) : Prop :=
  nd_shape taken = <[d := length pos]> (nd_shape a)
  /\ exists blocks,
       nd_buf taken = concat (map (fun b => concat b) blocks)
       /\ Forall2 (fun rows block =>
                     length block = length pos
                     /\ forall j p, pos !! j = Some p ->
                          block !! j = rows !! Z.to_nat p)
            (axis_rows d a) blocks.

(** [view_ext_keyed] with the slice list cached. *)
Definition view_ext_keyed_ready : View Q :=
  with_dark_flat_slice_list view_ext_keyed
    (Some [slice_all; slice_all; slice_all]).

(** [dataset11] viewed with the second batch of flats ignored, after
    [_set_dark_and_flat]. *)
Definition view11_ignored : View Q :=
  fst (ImageKey_set_dark_and_flat
         (with_image_key view11 (Some [1; 0; 0; 0; 3; 2; 2; 1; 0; 0; 1]))).

(** [frames11] with the frame at position 4 replaced by the value 99. *)
Definition frames11_other : ndarray Q :=
  NdArray [11; 1; 1]%nat (<[4%nat := inject_Z 99]> (nd_buf frames11)).

(** * Properties *)

(** ** Fallible computations *)

Lemma mapM_Ok {A B : Type} (f : A -> result B) (l : list A) (g : A -> B) :
  Forall (fun x => f x = Ok (g x)) l -> mapM f l = Ok (map g l).
Proof.
  induction 1 as [|x l Hx _ IH]; simpl; [done|].
  by rewrite Hx, IH.
Qed.

Lemma np_item_Ok {A : Type} (a : list A) (i : Z) (x : A) :
  0 <= i -> a !! Z.to_nat i = Some x -> np_item a i = Ok x.
Proof.
  intros Hi Hx. unfold np_item.
  assert (Z.to_nat i < length a)%nat by (eapply lookup_lt_Some; eauto).
  assert (Hb : (- Z.of_nat (length a) <=? i) && (i <? Z.of_nat (length a)) = true).
  { apply andb_true_intro; split; [apply Z.leb_le|apply Z.ltb_lt]; lia. }
  rewrite Hb.
  assert (Hn : (i <? 0) = false) by (apply Z.ltb_ge; lia).
  by rewrite Hn, Hx.
Qed.

Lemma np_item_out_of_range {A : Type} (a : list A) (i : Z) :
  Z.of_nat (length a) <= i -> np_item a i = Raise IndexError.
Proof.
  intros Hi. unfold np_item.
  assert (Hb : (i <? Z.of_nat (length a)) = false) by (apply Z.ltb_ge; lia).
  by rewrite Hb, andb_false_r.
Qed.

Lemma np_take_Ok {A : Type} (a : list A) (idx : list Z) :
  Forall (fun i => 0 <= i < Z.of_nat (length a)) idx ->
  exists vals,
    np_take a idx = Ok vals
    /\ length vals = length idx
    /\ forall j i, idx !! j = Some i -> vals !! j = a !! Z.to_nat i.
Proof.
  induction 1 as [|i idx Hi _ IH].
  - exists []. by repeat split.
  - destruct IH as (vals & Hvals & Hlen & Hlook).
    destruct (lookup_lt_is_Some_2 a (Z.to_nat i)) as [x Hx]; [lia|].
    exists (x :: vals). unfold np_take in *. simpl.
    rewrite (np_item_Ok a i x) by (done || lia). simpl. rewrite Hvals. simpl.
    repeat split; [by rewrite Hlen|].
    intros [|j] i'; simpl; [intros [= <-]; done|apply Hlook].
Qed.

(** ** [np.where] and [np.diff] *)

Lemma elem_of_where_from (k : Z) (mask : list bool) (i : Z) :
  i ∈ where_from k mask
  <-> exists j : nat, mask !! j = Some true /\ i = k + Z.of_nat j.
Proof.
  revert k. induction mask as [|b mask IH]; intros k; simpl.
  - split; [by intros ?%elem_of_nil|by intros (j & ? & _)].
  - assert (Htl : i ∈ where_from (k + 1) mask
                  <-> exists j : nat, mask !! j = Some true /\ i = k + Z.of_nat (S j)).
    { rewrite IH. split; intros (j & ? & ->); exists j; split; (done || lia). }
    destruct b.
    + rewrite elem_of_cons, Htl. split.
      * intros [->|(j & ? & ->)]; [exists 0%nat|exists (S j)]; split; (done || lia).
      * intros ([|j] & Hj & ->); [left; lia|right; exists j; done].
    + rewrite Htl. split.
      * intros (j & ? & ->). exists (S j). done.
      * intros ([|j] & Hj & ->); [done|exists j; done].
Qed.

Lemma where_from_sorted (k : Z) (mask : list bool) :
  StronglySorted Z.lt (where_from k mask).
Proof.
  revert k. induction mask as [|b mask IH]; intros k; simpl; [constructor|].
  destruct b; [|apply IH].
  constructor; [apply IH|].
  apply Forall_forall. intros i (j & _ & ->)%elem_of_where_from. lia.
Qed.

Lemma elem_of_np_where (mask : list bool) (i : Z) :
  i ∈ np_where mask <-> 0 <= i /\ mask !! Z.to_nat i = Some true.
Proof.
  unfold np_where. rewrite elem_of_where_from. split.
  - intros (j & Hj & ->). split; [lia|]. by rewrite Z.add_0_l, Nat2Z.id.
  - intros [Hi Hm]. exists (Z.to_nat i). split; [done|lia].
Qed.

Lemma np_diff_lookup (a : list Z) (j : nat) :
  np_diff a !! j
  = match a !! j, a !! S j with
    | Some x, Some y => Some (int64_wrap (y - x))
    | _, _ => None
    end.
Proof.
  revert j. induction a as [|x [|y a] IH]; intros j.
  - done.
  - by destruct j as [|[|j]].
  - destruct j as [|j]; [done|].
    change (np_diff (x :: y :: a) !! S j) with (np_diff (y :: a) !! j).
    rewrite IH. done.
Qed.

Lemma int64_wrap_small (z : Z) : - 2 ^ 63 <= z < 2 ^ 63 -> int64_wrap z = z.
Proof.
  intros Hz. unfold int64_wrap. rewrite Z.mod_small by lia. lia.
Qed.

(** ** The run segmenter *)

Lemma segmenter_eq (index : list Z) :
  _get_start_end_idx index
  = (let* start_entry := np_take index (run_starts index) in
     let* end_entry := np_take index (run_ends index) in
     Ok (run_starts index, run_ends index, start_entry, end_entry)).
Proof. reflexivity. Qed.

Lemma map_fmap {A B : Type} (f : A -> B) (l : list A) : map f l = f <$> l.
Proof. reflexivity. Qed.

Lemma elem_of_breaks (index : list Z) (w : Z) :
  w ∈ breaks index
  <-> exists x y,
        0 <= w /\ index !! Z.to_nat w = Some x
        /\ index !! S (Z.to_nat w) = Some y /\ 1 < int64_wrap (y - x).
Proof.
  unfold breaks. rewrite elem_of_np_where, map_fmap, list_lookup_fmap.
  rewrite np_diff_lookup. split.
  - intros [Hw Hm].
    destruct (index !! Z.to_nat w) as [x|]; [|done].
    destruct (index !! S (Z.to_nat w)) as [y|]; [|done].
    simpl in Hm. injection Hm as Hm. apply Z.ltb_lt in Hm. by exists x, y.
  - intros (x & y & Hw & -> & -> & Hd). split; [done|].
    simpl. f_equal. by apply Z.ltb_lt.
Qed.

Lemma breaks_sorted (index : list Z) : StronglySorted Z.lt (breaks index).
Proof. apply where_from_sorted. Qed.

Lemma breaks_bound (index : list Z) :
  Forall (fun w => 0 <= w < Z.of_nat (length index) - 1) (breaks index).
Proof.
  apply Forall_forall. intros w (x & y & Hw & _ & Hy & _)%elem_of_breaks.
  apply lookup_lt_Some in Hy. lia.
Qed.

Lemma run_ends_eq (index : list Z) :
  run_ends index = breaks index ++ [Z.of_nat (length index) - 1].
Proof.
  unfold run_ends, run_starts. simpl. rewrite map_app, map_map. simpl.
  f_equal. rewrite <- (map_id (breaks index)) at 2.
  apply map_ext. intros; lia.
Qed.

Lemma run_starts_sorted (index : list Z) : StronglySorted Z.lt (run_starts index).
Proof.
  unfold run_starts. constructor.
  - generalize (breaks_sorted index).
    induction 1 as [|w ws _ IH Hw]; simpl; constructor; [done|].
    rewrite map_fmap. apply Forall_fmap. eapply Forall_impl; [exact Hw|].
    simpl. intros; lia.
  - rewrite map_fmap. apply Forall_fmap.
    eapply Forall_impl; [apply breaks_bound|]. simpl. intros; lia.
Qed.

(** Without any assumption on the values: a start is index 0 or follows a
    pair whose 64-bit difference exceeds one. *)
Lemma elem_of_run_starts (index : list Z) (i : Z) :
  i ∈ run_starts index
  <-> i = 0
      \/ exists x y,
           0 < i /\ index !! Z.to_nat (i - 1) = Some x
           /\ index !! Z.to_nat i = Some y /\ 1 < int64_wrap (y - x).
Proof.
  unfold run_starts. rewrite elem_of_cons, map_fmap, list_elem_of_fmap.
  split; (intros [->|Hi]; [by left|right]).
  - destruct Hi as (w & -> & (x & y & Hw & Hx & Hy & Hd)%elem_of_breaks).
    exists x, y. replace (w + 1 - 1) with w by lia.
    replace (Z.to_nat (w + 1)) with (S (Z.to_nat w)) by lia.
    repeat split; (done || lia).
  - destruct Hi as (x & y & Hi & Hx & Hy & Hd).
    exists (i - 1). split; [lia|]. apply elem_of_breaks. exists x, y.
    replace (S (Z.to_nat (i - 1))) with (Z.to_nat i) by lia.
    repeat split; (done || lia).
Qed.

Lemma run_starts_bound (index : list Z) :
  index <> [] ->
  Forall (fun i => 0 <= i < Z.of_nat (length index)) (run_starts index).
Proof.
  intros Hne. unfold run_starts. constructor.
  - destruct index; [done|]. simpl. lia.
  - rewrite map_fmap. apply Forall_fmap.
    eapply Forall_impl; [apply breaks_bound|]. simpl. intros; lia.
Qed.

Lemma run_ends_bound (index : list Z) :
  index <> [] ->
  Forall (fun i => 0 <= i < Z.of_nat (length index)) (run_ends index).
Proof.
  intros Hne. rewrite run_ends_eq. apply Forall_app. split.
  - eapply Forall_impl; [apply breaks_bound|]. simpl. intros; lia.
  - constructor; [|constructor]. destruct index; [done|]. simpl. lia.
Qed.

Lemma run_ends_lookup (index : list Z) (j : nat) (e : Z) :
  run_ends index !! j = Some e ->
  run_starts index !! S j = Some (e + 1)
  \/ (S j = length (run_starts index) /\ e = Z.of_nat (length index) - 1).
Proof.
  rewrite run_ends_eq. unfold run_starts. simpl.
  intros [Hj|[Hj He]]%lookup_app_Some.
  - left. by rewrite map_fmap, list_lookup_fmap, Hj.
  - right. rewrite length_map.
    destruct (j - length (breaks index))%nat as [|k] eqn:Hk; [|done].
    injection He as <-. split; lia.
Qed.

(** The segmenter returns on every non-empty input, with the index lists
    [run_starts] and [run_ends] and the values found at them. *)
Lemma segmenter_Ok (index : list Z) :
  index <> [] ->
  exists start_entry end_entry,
    _get_start_end_idx index
    = Ok (run_starts index, run_ends index, start_entry, end_entry)
    /\ length start_entry = length (run_starts index)
    /\ (forall j s, run_starts index !! j = Some s ->
          start_entry !! j = index !! Z.to_nat s)
    /\ length end_entry = length (run_ends index)
    /\ (forall j e, run_ends index !! j = Some e ->
          end_entry !! j = index !! Z.to_nat e).
Proof.
  intros Hne.
  destruct (np_take_Ok index _ (run_starts_bound index Hne))
    as (se & Hse & Hlse & Hs).
  destruct (np_take_Ok index _ (run_ends_bound index Hne))
    as (ee & Hee & Hlee & He).
  exists se, ee. rewrite segmenter_eq, Hse. simpl. rewrite Hee. simpl.
  done.
Qed.

Lemma positions_diff_exact (index : list Z) (i j : nat) (x y : Z) :
  positions index -> index !! i = Some x -> index !! j = Some y ->
  int64_wrap (y - x) = y - x.
Proof.
  intros Hp Hx Hy.
  pose proof (Forall_lookup_1 _ _ _ _ Hp Hx) as Hx'.
  pose proof (Forall_lookup_1 _ _ _ _ Hp Hy) as Hy'.
  simpl in *. apply int64_wrap_small. lia.
Qed.

Lemma segmenter_maximal_runs (index : list Z) :
  index <> [] -> positions index ->
  exists start end_ start_entry end_entry,
    _get_start_end_idx index = Ok (start, end_, start_entry, end_entry)
    /\ maximal_runs index start end_ start_entry end_entry.
Proof.
  intros Hne Hp.
  destruct (segmenter_Ok index Hne) as (se & ee & Heq & Hlse & Hs & Hlee & He).
  exists (run_starts index), (run_ends index), se, ee. split; [done|].
  unfold maximal_runs. split_and!; try done.
  - apply run_starts_sorted.
  - intros i. rewrite elem_of_run_starts. unfold is_break.
    split; (intros [->|(x & y & Hi & Hx & Hy & Hd)]; [by left|right]);
      exists x, y; repeat split; try done.
    + by rewrite <- (positions_diff_exact index _ _ x y Hp Hx Hy).
    + by rewrite (positions_diff_exact index _ _ x y Hp Hx Hy).
  - rewrite run_ends_eq. unfold run_starts. simpl.
    rewrite length_app, length_map. simpl. lia.
  - apply run_ends_lookup.
Qed.

Lemma contiguous_breaks_nil (index : list Z) :
  positions index -> contiguous index -> breaks index = [].
Proof.
  intros Hp Hc. destruct (breaks index) as [|w ws] eqn:Hb; [done|].
  assert (Hw : w ∈ breaks index) by (rewrite Hb; left).
  apply elem_of_breaks in Hw as (x & y & _ & Hx & Hy & Hd).
  rewrite (positions_diff_exact index _ _ x y Hp Hx Hy) in Hd.
  specialize (Hc _ _ _ Hx Hy). lia.
Qed.

(** C5: on every non-empty sorted sequence of positions the run segmenter
    returns the start and end indices of the maximal contiguous runs, with
    a break exactly where two neighbouring positions differ by more than
    one, and the positions found at those indices; a single contiguous
    block gives exactly one run, and [0,1,2,5,6,9] gives the three runs
    with the value pairs (0,2), (5,6) and (9,9). *)
Theorem segmenter_returns_maximal_runs (index : list Z) :
  index <> [] -> Sorted Z.le index -> positions index ->
  (exists start end_ start_entry end_entry,
     _get_start_end_idx index = Ok (start, end_, start_entry, end_entry)
     /\ maximal_runs index start end_ start_entry end_entry
     /\ (contiguous index ->
         start = [0] /\ end_ = [Z.of_nat (length index) - 1]
         /\ length start_entry = 1%nat /\ length end_entry = 1%nat))
  /\ _get_start_end_idx [0; 1; 2; 5; 6; 9]
     = Ok ([0; 3; 5], [2; 4; 5], [0; 5; 9], [2; 6; 9]).
Proof.
  intros Hne _ Hp. split; [|reflexivity].
  destruct (segmenter_Ok index Hne) as (se & ee & Heq & Hlse & Hs & Hlee & He).
  destruct (segmenter_maximal_runs index Hne Hp)
    as (start & end_ & se' & ee' & Heq' & Hruns).
  rewrite Heq in Heq'. injection Heq' as <- <- <- <-.
  exists (run_starts index), (run_ends index), se, ee.
  split_and!; try done.
  intros Hc. rewrite run_ends_eq in *. unfold run_starts in *.
  rewrite (contiguous_breaks_nil index Hp Hc) in *. simpl in *. done.
Qed.

Lemma segmenter_returns_maximal_runs_witness :
  ([3; 4; 7] <> [] /\ Sorted Z.le [3; 4; 7] /\ positions [3; 4; 7])
  /\ exists start end_ start_entry end_entry,
       _get_start_end_idx [3; 4; 7] = Ok (start, end_, start_entry, end_entry)
       /\ maximal_runs [3; 4; 7] start end_ start_entry end_entry.
Proof.
  assert (H1 : [3; 4; 7] <> []) by discriminate.
  assert (H2 : Sorted Z.le [3; 4; 7]) by (repeat constructor; lia).
  assert (H3 : positions [3; 4; 7]) by (repeat constructor; lia).
  split; [done|].
  destruct (segmenter_returns_maximal_runs [3; 4; 7] H1 H2 H3)
    as [(start & end_ & se & ee & Heq & Hruns & _) _].
  by exists start, end_, se, ee.
Defined.

(** C10: the run segmenter fails with an index error on the empty
    sequence, and on every non-empty sorted sequence it returns at least
    one run, the first starting at index 0 and the last ending at the final
    element. *)
Theorem segmenter_needs_non_empty_input (index : list Z) :
  index <> [] -> Sorted Z.le index ->
  _get_start_end_idx [] = Raise IndexError
  /\ exists start end_ start_entry end_entry,
       _get_start_end_idx index = Ok (start, end_, start_entry, end_entry)
       /\ (1 <= length start)%nat
       /\ length end_ = length start
       /\ head start = Some 0
       /\ last end_ = Some (Z.of_nat (length index) - 1)
       /\ last end_entry = last index.
Proof.
  intros Hne _. split; [reflexivity|].
  destruct (segmenter_Ok index Hne) as (se & ee & Heq & Hlse & Hs & Hlee & He).
  exists (run_starts index), (run_ends index), se, ee.
  assert (Hlast : run_ends index !! length (breaks index)
                  = Some (Z.of_nat (length index) - 1)).
  { rewrite run_ends_eq. by rewrite list_lookup_middle. }
  assert (Hlen : length (run_ends index) = S (length (breaks index))).
  { rewrite run_ends_eq, length_app. simpl. lia. }
  split_and!; try done.
  - unfold run_starts. simpl. lia.
  - rewrite Hlen. unfold run_starts. simpl. by rewrite length_map.
  - rewrite run_ends_eq. apply last_snoc.
  - rewrite !last_lookup, Hlee, Hlen. simpl.
    rewrite (He _ _ Hlast). f_equal.
    destruct index; [done|]. simpl. lia.
Qed.

Lemma segmenter_needs_non_empty_input_witness :
  ([5] <> [] /\ Sorted Z.le [5])
  /\ _get_start_end_idx [] = Raise IndexError
  /\ exists start end_ start_entry end_entry,
       _get_start_end_idx [5] = Ok (start, end_, start_entry, end_entry)
       /\ (1 <= length start)%nat
       /\ length end_ = length start
       /\ head start = Some 0
       /\ last end_ = Some (Z.of_nat (length [5]) - 1)
       /\ last end_entry = last [5].
Proof.
  assert (H1 : [5] <> []) by discriminate.
  assert (H2 : Sorted Z.le [5]) by (repeat constructor).
  split; [done|].
  exact (segmenter_needs_non_empty_input [5] H1 H2).
Defined.

(** ** The label index resolver *)

Lemma elem_of_where_key (key_array : option (list Z)) (key p : Z) :
  p ∈ where_key key_array key <-> label_at key_array p = Some key.
Proof.
  destruct key_array as [labels|]; simpl; [|by rewrite elem_of_nil].
  rewrite elem_of_np_where, map_fmap, list_lookup_fmap. split.
  - intros [Hp Hl]. apply Z.leb_le in Hp as ->.
    destruct (labels !! Z.to_nat p) as [l|]; [|done].
    simpl in Hl. injection Hl as Hl. by apply Z.eqb_eq in Hl as ->.
  - destruct (0 <=? p) eqn:Hp; [|done]. apply Z.leb_le in Hp.
    intros ->. split; [done|]. simpl. by rewrite Z.eqb_refl.
Qed.

Lemma where_key_sorted (key_array : option (list Z)) (key : Z) :
  StronglySorted Z.lt (where_key key_array key).
Proof.
  destruct key_array; simpl; [apply where_from_sorted|constructor].
Qed.

Lemma where_key_bound (labels : list Z) (key : Z) :
  Forall (fun p => 0 <= p < Z.of_nat (length labels))
         (where_key (Some labels) key).
Proof.
  apply Forall_forall. intros p Hp%elem_of_where_key. simpl in Hp.
  destruct (0 <=? p) eqn:H0; [|done]. apply Z.leb_le in H0.
  apply lookup_lt_Some in Hp. lia.
Qed.

Section Resolver.
Context {num : Type} `{Numeric num}.

Lemma get_preview_index_eq (v : View num) (key : Z) :
  __get_preview_index v key
  = try_except
      (let* slice_list := preview_lookup v in
       __get_reduced_index namespace v key slice_list)
      (Ok (where_key (image_key v) key)).
Proof.
  unfold __get_preview_index, preview_lookup.
  by destruct (preview_slice_list (data_obj v)).
Qed.

(** [get_index] never raises. *)
Lemma get_index_total (v : View num) (key : Z) (full : bool) :
  exists idx, get_index v key full = Ok idx.
Proof.
  destruct full; simpl; [eauto|].
  unfold __get_preview_index, try_except.
  match goal with |- context [match ?b with _ => _ end] => destruct b end; eauto.
Qed.

(** The attribute [self.__get_start_end_idx] is not bound, so for a
    calibration label the reduced resolution always raises. *)
Lemma reduced_index_raises (v : View num) (key : Z) (s : pyslice) :
  key <> 0 -> exists e, __get_reduced_index namespace v key s = Raise e.
Proof.
  intros Hk. unfold __get_reduced_index.
  destruct (np_slice _ s) as [entries|e]; simpl; [|by eexists].
  apply Z.eqb_neq in Hk as ->. by eexists.
Qed.

Lemma get_index_calibration (v : View num) (key : Z) (full : bool) :
  key <> 0 -> get_index v key full = Ok (where_key (image_key v) key).
Proof.
  intros Hk. destruct full; [done|]. simpl.
  rewrite get_preview_index_eq.
  destruct (preview_lookup v) as [s|e]; simpl; [|done].
  by destruct (reduced_index_raises v key s Hk) as [e ->].
Qed.

(** C7: when the preview lookup raises, for whatever reason,
    [get_index(key)] raises nothing and returns what [get_index(key,
    full=True)] returns: the positions labelled [key], ascending. *)
Theorem preview_failure_gives_full_index (v : View num) (key : Z) (e : exn) :
  preview_lookup v = Raise e ->
  get_index v key false = get_index v key true
  /\ get_index v key false = Ok (where_key (image_key v) key)
  /\ StronglySorted Z.lt (where_key (image_key v) key)
  /\ forall p, p ∈ where_key (image_key v) key
               <-> label_at (image_key v) p = Some key.
Proof.
  intros He. split_and!.
  - simpl. rewrite get_preview_index_eq, He. done.
  - simpl. rewrite get_preview_index_eq, He. done.
  - apply where_key_sorted.
  - intros p. apply elem_of_where_key.
Qed.

(** C8: on a label array holding the defined labels 0 to 3, the four
    full-dataset indices are pairwise disjoint and together are all the
    positions of the projection axis. *)
Theorem full_indices_partition_positions (v : View num) (labels : list Z) :
  image_key v = Some labels -> defined_labels labels ->
  exists i0 i1 i2 i3,
    get_index v 0 true = Ok i0 /\ get_index v 1 true = Ok i1
    /\ get_index v 2 true = Ok i2 /\ get_index v 3 true = Ok i3
    /\ i0 ## i1 /\ i0 ## i2 /\ i0 ## i3 /\ i1 ## i2 /\ i1 ## i3 /\ i2 ## i3
    /\ forall p, 0 <= p < Z.of_nat (length labels)
                 <-> p ∈ i0 \/ p ∈ i1 \/ p ∈ i2 \/ p ∈ i3.
Proof.
  intros Hk Hl. simpl. rewrite Hk. do 4 eexists.
  assert (Hdisj : forall a b, a <> b ->
            where_key (Some labels) a ## where_key (Some labels) b).
  { intros a b Hab p Ha%elem_of_where_key Hb%elem_of_where_key. congruence. }
  split_and!; try reflexivity; try (apply Hdisj; lia).
  intros p. rewrite !elem_of_where_key. simpl. split.
  - intros [Hp0 Hp]. apply Z.leb_le in Hp0 as Hp0'. rewrite Hp0'.
    destruct (lookup_lt_is_Some_2 labels (Z.to_nat p)) as [l Hlp]; [lia|].
    pose proof (Forall_lookup_1 _ _ _ _ Hl Hlp) as Hrange. simpl in Hrange.
    rewrite Hlp.
    assert (l = 0 \/ l = 1 \/ l = 2 \/ l = 3) as [-> | [-> | [-> | ->]]] by lia; eauto.
  - destruct (0 <=? p) eqn:Hp0; [|by intros [|[|[|]]]].
    apply Z.leb_le in Hp0.
    intros [Hp|[Hp|[Hp|Hp]]]; apply lookup_lt_Some in Hp; lia.
Qed.
End Resolver.

Lemma preview_failure_gives_full_index_witness :
  preview_lookup view11_no_preview = Raise AttributeError
  /\ get_index view11_no_preview 1 false = Ok [0; 4; 7; 10].
Proof.
  assert (He : preview_lookup view11_no_preview = Raise AttributeError)
    by reflexivity.
  split; [exact He|].
  destruct (preview_failure_gives_full_index view11_no_preview 1 _ He)
    as (_ & -> & _).
  reflexivity.
Defined.

Lemma full_indices_partition_positions_witness :
  image_key view11 = Some labels11 /\ defined_labels labels11
  /\ exists i0 i1 i2 i3,
       get_index view11 0 true = Ok i0 /\ get_index view11 1 true = Ok i1
       /\ get_index view11 2 true = Ok i2 /\ get_index view11 3 true = Ok i3
       /\ i0 ## i1 /\ i0 ## i2 /\ i0 ## i3 /\ i1 ## i2 /\ i1 ## i3 /\ i2 ## i3
       /\ forall p, 0 <= p < Z.of_nat (length labels11)
                    <-> p ∈ i0 \/ p ∈ i1 \/ p ∈ i2 \/ p ∈ i3.
Proof.
  assert (Hk : image_key view11 = Some labels11) by reflexivity.
  assert (Hl : defined_labels labels11) by (repeat constructor; lia).
  split; [exact Hk|]. split; [exact Hl|].
  exact (full_indices_partition_positions view11 labels11 Hk Hl).
Defined.

(** ** The preview window and calibration labels *)

Example view11_constructed :
  ImageKey_init dataset11 labels11 0 IgnoreNone = Ok view11.
Proof. vm_compute. reflexivity. Qed.

Example view11_no_preview_constructed :
  ImageKey_init dataset11_no_preview labels11 0 IgnoreNone
  = Ok view11_no_preview.
Proof. vm_compute. reflexivity. Qed.

Example mangled_segmenter_name :
  mangle "DataWithDarksAndFlats" "__get_start_end_idx"
  = "_DataWithDarksAndFlats__get_start_end_idx"
  /\ hasattr namespace "_DataWithDarksAndFlats__get_start_end_idx" = false
  /\ hasattr namespace "_get_start_end_idx" = true
  /\ hasattr namespace "_DataWithDarksAndFlats__get_reduced_index" = true.
Proof. by vm_compute. Qed.

(** C1: on the labels flat,data,data,data,flat,dark,dark,flat,data,data,flat
    with a preview selecting the logical data positions 1 and 2, the data
    index is windowed to the positions 2 and 3, but [get_index(1)] is every
    flat position, 0, 4, 7 and 10: [__get_reduced_index] looks the
    segmenter up under a name that is not bound, the lookup raises, and
    [__get_preview_index] answers with the full index.  Were the segmenter
    bound under that name, the same body would return the two bracketing
    flat positions 0 and 4. *)
Theorem calibration_index_is_not_windowed :
  get_index view11 0 false = Ok [2; 3]
  /\ get_index view11 1 false = Ok [0; 4; 7; 10]
  /\ get_index view11 2 false = Ok [5; 6]
  /\ __get_reduced_index namespace view11 1 (Slice (Some 1) (Some 3) (Some 1))
     = Raise AttributeError
  /\ __get_reduced_index
       (mangle "DataWithDarksAndFlats" "__get_start_end_idx" :: namespace)
       view11 1 (Slice (Some 1) (Some 3) (Some 1))
     = Ok [0; 4].
Proof. by vm_compute. Qed.

(** ** The slice-list reducer *)

Lemma filter_index_app {A : Type} (P : nat -> bool) (i : nat) (l1 l2 : list A) :
  filter_index P i (l1 ++ l2)
  = filter_index P i l1 ++ filter_index P (i + length l1) l2.
Proof.
  revert i. induction l1 as [|x l1 IH]; intros i; simpl.
  - by rewrite Nat.add_0_r.
  - rewrite IH. replace (S i + length l1)%nat with (i + S (length l1))%nat by lia.
    by destruct (P i).
Qed.

Lemma filter_index_ext {A : Type} (P Q : nat -> bool) (i : nat) (l : list A) :
  (forall j, (i <= j < i + length l)%nat -> P j = Q j) ->
  filter_index P i l = filter_index Q i l.
Proof.
  revert i. induction l as [|x l IH]; intros i HPQ; simpl; [done|].
  rewrite (HPQ i) by (simpl; lia).
  rewrite (IH (S i)); [done|]. intros j Hj. apply HPQ. simpl. lia.
Qed.

Lemma filter_index_true {A : Type} (P : nat -> bool) (i : nat) (l : list A) :
  (forall j, (i <= j < i + length l)%nat -> P j = true) ->
  filter_index P i l = l.
Proof.
  revert i. induction l as [|x l IH]; intros i HP; simpl; [done|].
  rewrite (HP i) by (simpl; lia). f_equal.
  apply IH. intros j Hj. apply HP. simpl. lia.
Qed.

(** Deleting the dimensions of a strictly descending list, one after the
    other, leaves the entries at the other dimensions. *)
Lemma for_each_py_del {A : Type} (ds : list nat) (l : list A) :
  StronglySorted (fun a b => (b < a)%nat) ds ->
  Forall (fun d => (d < length l)%nat) ds ->
  for_each py_del ds l
  = Ok (filter_index (fun i => bool_decide (i ∉ ds)) 0 l).
Proof.
  intros Hs. revert l.
  induction Hs as [|d ds Hs IH Hd]; intros l Hlen; simpl.
  - f_equal. symmetry. apply filter_index_true. by intros j _.
  - apply Forall_cons in Hlen as [Hdl Hlen].
    unfold py_del at 1. apply Nat.ltb_lt in Hdl as Hdl'. rewrite Hdl'. simpl.
    apply Nat.ltb_lt in Hdl'.
    rewrite IH.
    2:{ rewrite length_delete by (apply lookup_lt_is_Some_2; lia).
        eapply Forall_impl; [exact Hd|]. simpl. intros; lia. }
    f_equal.
    destruct (lookup_lt_is_Some_2 l d Hdl) as [x Hx].
    rewrite delete_take_drop.
    rewrite <- (take_drop_middle l d x Hx) at 3.
    rewrite !filter_index_app, !length_take. simpl.
    replace (d `min` length l)%nat with d by lia.
    assert (Hin : bool_decide (d ∉ d :: ds) = false).
    { apply bool_decide_eq_false. intros Hn. apply Hn. left. }
    rewrite Hin. f_equal.
    + apply filter_index_ext. intros j Hj. rewrite length_take in Hj.
      apply bool_decide_ext. rewrite not_elem_of_cons. split; [|tauto].
      intros ?. split; [lia|done].
    + rewrite !filter_index_true; [done| |].
      * intros j Hj. apply bool_decide_eq_true. rewrite not_elem_of_cons.
        split; [lia|]. intros Hjd.
        pose proof (proj1 (Forall_forall _ _) Hd _ Hjd). simpl in *. lia.
      * intros j Hj. apply bool_decide_eq_true. intros Hjd.
        pose proof (proj1 (Forall_forall _ _) Hd _ Hjd). simpl in *. lia.
Qed.

#[local] Instance descending_total : Total descending.
Proof. intros a b. unfold descending. lia. Qed.

#[local] Instance descending_trans : Transitive descending.
Proof. intros a b c. unfold descending. lia. Qed.

Lemma descending_strict (ds : list nat) :
  StronglySorted descending ds -> NoDup ds ->
  StronglySorted (fun a b => (b < a)%nat) ds.
Proof.
  induction 1 as [|d ds Hs IH Hd]; intros Hnd; [constructor|].
  apply NoDup_cons in Hnd as [Hnotin Hnd].
  constructor; [by apply IH|].
  apply Forall_forall. intros d' Hd'.
  pose proof (proj1 (Forall_forall _ _) Hd _ Hd') as Hle.
  unfold descending in Hle.
  assert (d' <> d) by (intros ->; done). lia.
Qed.

(** The dimensions removed from a slice list of length [n], as the loop
    visits them. *)
Lemma removed_dims (n : nat) (dims : list nat) :
  let ds := merge_sort descending
              (elements (list_to_set (seq 0 n) ∖ list_to_set dims : gset nat)) in
  StronglySorted (fun a b => (b < a)%nat) ds
  /\ forall d, d ∈ ds <-> (d < n)%nat /\ d ∉ dims.
Proof.
  simpl. split.
  - apply descending_strict; [apply StronglySorted_merge_sort; apply _|].
    rewrite merge_sort_Permutation. apply NoDup_elements.
  - intros d. rewrite merge_sort_Permutation, elem_of_elements.
    rewrite elem_of_difference, !elem_of_list_to_set, elem_of_seq. 
    split; intros [? ?]; split; (done || lia).
Qed.

Section Reducer.
Context {num : Type} `{Numeric num}.

(** C6: the calibration slice list is the preview slice list with the
    rotation-angle entry replaced by select-all and, when it has more than
    three entries, only the entries of the rotation-angle, detector-x and
    detector-y dimensions kept, in ascending order; with five entries and
    these dimensions at 0, 2 and 3 it is select-all followed by the entries
    2 and 3. *)
Theorem dark_flat_slice_list_reduces_axes (v : View num) (slices : list pyslice) :
  preview_slice_list (data_obj v) = Ok slices ->
  (find_axis_label_dimension (data_obj v) "rotation_angle" < length slices)%nat ->
  let rot := find_axis_label_dimension (data_obj v) "rotation_angle" in
  let detX := find_axis_label_dimension (data_obj v) "detector_x" in
  let detY := find_axis_label_dimension (data_obj v) "detector_y" in
  get_dark_flat_slice_list v
  = Ok (if (3 <? length slices)%nat
        then keep_dims [rot; detX; detY] (<[rot := slice_all]> slices)
        else <[rot := slice_all]> slices)
  /\ forall s0 s1 s2 s3 s4,
       slices = [s0; s1; s2; s3; s4] -> rot = 0%nat -> detX = 2%nat ->
       detY = 3%nat ->
       get_dark_flat_slice_list v = Ok [slice_all; s2; s3].
Proof.
  intros Hp Hrot rot detX detY.
  assert (Heq : get_dark_flat_slice_list v
    = Ok (if (3 <? length slices)%nat
          then keep_dims [rot; detX; detY] (<[rot := slice_all]> slices)
          else <[rot := slice_all]> slices)).
  { unfold get_dark_flat_slice_list. rewrite Hp. simpl.
    unfold py_setitem.
    apply Nat.ltb_lt in Hrot as ->. simpl. fold rot detX detY.
    rewrite length_insert.
    destruct (3 <? length slices)%nat; [|done].
    destruct (removed_dims (length slices) [rot; detX; detY]) as [Hs Hin].
    rewrite for_each_py_del; [|exact Hs|].
    2:{ apply Forall_forall. intros d [Hd _]%Hin. by rewrite length_insert. }
    f_equal. apply filter_index_ext. intros j Hj. rewrite length_insert in Hj.
    apply bool_decide_ext. rewrite Hin. split.
    - intros Hn. destruct (decide (j ∈ [rot; detX; detY])); [done|].
      exfalso. apply Hn. split; [lia|done].
    - intros Hj' [_ Hn]. done. }
  split; [exact Heq|].
  intros s0 s1 s2 s3 s4 -> Hr Hx Hy. rewrite Heq, Hr, Hx, Hy. reflexivity.
Qed.
End Reducer.

Lemma dark_flat_slice_list_reduces_axes_witness :
  preview_slice_list (data_obj view5) = Ok preview5
  /\ get_dark_flat_slice_list view5
     = Ok [slice_all; Slice (Some 0) (Some 3) (Some 1);
           Slice (Some 0) (Some 4) (Some 1)].
Proof.
  assert (Hp : preview_slice_list (data_obj view5) = Ok preview5) by reflexivity.
  assert (Hr : (find_axis_label_dimension (data_obj view5) "rotation_angle"
                < length preview5)%nat) by (vm_compute; lia).
  split; [exact Hp|].
  destruct (dark_flat_slice_list_reduces_axes view5 preview5 Hp Hr) as [_ Hex].
  exact (Hex _ _ _ _ _ eq_refl eq_refl eq_refl eq_refl).
Defined.

(** ** Ignore batches *)

Lemma StronglySorted_lookup_lt (l : list Z) (i j : nat) (x y : Z) :
  StronglySorted Z.lt l -> l !! i = Some x -> l !! j = Some y ->
  (i < j)%nat -> x < y.
Proof.
  intros Hs. revert i j. induction Hs as [|z l Hs IH Hz]; intros i j Hi Hj Hij.
  - done.
  - destruct j as [|j]; [lia|]. destruct i as [|i]; simpl in *.
    + injection Hi as ->.
      apply (proj1 (Forall_forall _ _) Hz). by eapply list_elem_of_lookup_2.
    + eapply IH; eauto. lia.
Qed.

(** Inside a run of strictly ascending positions, neighbours differ by
    exactly one. *)
Lemma run_contiguous (index : list Z) (j : nat) (i_s i_e : Z) :
  index <> [] -> positions index -> StronglySorted Z.lt index ->
  run_starts index !! j = Some i_s -> run_ends index !! j = Some i_e ->
  i_s <= i_e
  /\ exists s, index !! Z.to_nat i_s = Some s
     /\ forall k : nat, Z.of_nat k <= i_e - i_s ->
          index !! Z.to_nat (i_s + Z.of_nat k) = Some (s + Z.of_nat k).
Proof.
  intros Hne Hp Hsorted Hs He.
  pose proof (run_starts_sorted index) as Hss.
  assert (His : 0 <= i_s < Z.of_nat (length index)).
  { apply (proj1 (Forall_forall _ _) (run_starts_bound index Hne)).
    by eapply list_elem_of_lookup_2. }
  assert (Hie : i_e < Z.of_nat (length index)).
  { apply (proj1 (Forall_forall _ _) (run_ends_bound index Hne)).
    by eapply list_elem_of_lookup_2. }
  assert (Hnot : forall i, i_s < i <= i_e -> i ∉ run_starts index).
  { intros i Hi [n Hn]%list_elem_of_lookup.
    destruct (decide (n <= j)%nat) as [Hnj|Hnj].
    - destruct (decide (n = j)) as [->|Hneq]; [rewrite Hs in Hn; injection Hn; lia|].
      pose proof (StronglySorted_lookup_lt _ n j _ _ Hss Hn Hs). lia.
    - destruct (run_ends_lookup index j i_e He) as [Hnext|[Hlast _]].
      + destruct (decide (n = S j)) as [->|Hneq];
          [rewrite Hnext in Hn; injection Hn; lia|].
        pose proof (StronglySorted_lookup_lt _ (S j) n _ _ Hss Hnext Hn). lia.
      + apply lookup_lt_Some in Hn. lia. }
  assert (Hle : i_s <= i_e).
  { destruct (run_ends_lookup index j i_e He) as [Hnext|[_ ->]]; [|lia].
    pose proof (StronglySorted_lookup_lt _ j (S j) _ _ Hss Hs Hnext). lia. }
  split; [done|].
  destruct (lookup_lt_is_Some_2 index (Z.to_nat i_s)) as [s Hsv]; [lia|].
  exists s. split; [done|].
  induction k as [|k IH]; intros Hk.
  - by rewrite Z.add_0_r, Z.add_0_r.
  - specialize (IH ltac:(lia)).
    destruct (lookup_lt_is_Some_2 index (Z.to_nat (i_s + Z.of_nat (S k))))
      as [y Hy]; [lia|].
    rewrite Hy. f_equal.
    assert (Hlt : s + Z.of_nat k < y).
    { eapply (StronglySorted_lookup_lt index); [done|exact IH|exact Hy|lia]. }
    destruct (decide (1 < y - (s + Z.of_nat k))) as [Hgap|Hgap]; [|lia].
    exfalso. apply (Hnot (i_s + Z.of_nat (S k))); [lia|].
    apply elem_of_run_starts. right. exists (s + Z.of_nat k), y.
    replace (i_s + Z.of_nat (S k) - 1) with (i_s + Z.of_nat k) by lia.
    split_and!; try done; [lia|].
    by rewrite (positions_diff_exact index _ _ _ _ Hp IH Hy).
Qed.

Lemma slice_positions_block (len : nat) (s e : Z) :
  0 <= s -> s <= e -> e < Z.of_nat len ->
  slice_positions len (Slice (Some s) (Some (e + 1)) None)
  = Ok (map (fun k => s + Z.of_nat k * 1) (seq 0 (Z.to_nat (e + 1 - s)))).
Proof.
  intros H0 Hse He. unfold slice_positions, slice_indices, py_range. simpl.
  assert (H1 : (s <? 0) = false) by (apply Z.ltb_ge; lia).
  assert (H2 : (e + 1 <? 0) = false) by (apply Z.ltb_ge; lia).
  rewrite H1, H2. simpl. rewrite H1, H2. simpl.
  rewrite !Z.min_l by lia. rewrite Z.div_1_r. do 3 f_equal. lia.
Qed.

Lemma elem_of_block (s e p : Z) :
  p ∈ map (fun k => s + Z.of_nat k * 1) (seq 0 (Z.to_nat (e + 1 - s)))
  <-> s <= p <= e.
Proof.
  rewrite map_fmap, list_elem_of_fmap. split.
  - intros (k & -> & Hk%elem_of_seq). lia.
  - intros Hp. exists (Z.to_nat (p - s)). split; [lia|].
    apply elem_of_seq. lia.
Qed.

Lemma assign_lookup_in (labels : list Z) (ps : list Z) (x p : Z) :
  p ∈ ps -> (Z.to_nat p < length labels)%nat ->
  foldr (fun p l => <[Z.to_nat p := x]> l) labels ps !! Z.to_nat p = Some x.
Proof.
  induction ps as [|q ps IH]; simpl; [by intros ?%elem_of_nil|].
  intros Hp Hlen.
  assert (Hl : forall qs, length (foldr (fun p l => <[Z.to_nat p := x]> l) labels qs)
                          = length labels).
  { induction qs; simpl; [done|]. by rewrite length_insert. }
  destruct (decide (Z.to_nat q = Z.to_nat p)) as [Heq|Hneq].
  - rewrite Heq. apply list_lookup_insert_eq. by rewrite Hl.
  - rewrite list_lookup_insert_ne by done. apply IH; [|done].
    apply elem_of_cons in Hp as [->|Hp]; done.
Qed.

Lemma assign_lookup_out (labels : list Z) (ps : list Z) (x : Z) (n : nat) :
  (forall p, p ∈ ps -> Z.to_nat p <> n) ->
  foldr (fun p l => <[Z.to_nat p := x]> l) labels ps !! n = labels !! n.
Proof.
  induction ps as [|q ps IH]; simpl; [done|]. intros Hn.
  rewrite list_lookup_insert_ne by (apply Hn; left).
  apply IH. intros p Hp. apply Hn. by right.
Qed.

Lemma assign_length (labels : list Z) (ps : list Z) (x : Z) :
  length (foldr (fun p l => <[Z.to_nat p := x]> l) labels ps) = length labels.
Proof. induction ps; simpl; [done|]. by rewrite length_insert. Qed.

Section Ignore.
Context {num : Type} `{Numeric num}.

Lemma get_data_eq (v : View num) (key : Z) :
  __get_data v key = (let* idx := get_index v key false in frames_at v idx).
Proof. reflexivity. Qed.

Lemma ImageKey_init_eq (d : DataObj num) (key : list Z) (proj : nat) :
  (proj < nd_ndim (do_data d))%nat ->
  exists v0,
    image_key v0 = Some key /\ flat_updated v0 = NotUpdated
    /\ forall ignore,
         ImageKey_init d key proj ignore
         = if ignore_truth ignore
           then __ignore_image_key_entries v0 ignore else Ok v0.
Proof.
  intros Hproj. unfold ImageKey_init, _get_image_key_data_shape.
  destruct (get_index_total (base_init d proj (Some key)) 0 false) as [idx0 ->].
  simpl. unfold py_setitem. unfold nd_ndim in Hproj.
  apply Nat.ltb_lt in Hproj as ->. simpl.
  eexists. split_and!; [| |intros ignore; reflexivity]; reflexivity.
Qed.
End Ignore.

(** ** Frames that an extraction does not read *)

Lemma mapM_Forall2 {A B : Type} (f : A -> result B) (l l' : list A) :
  Forall2 (fun x y => f x = f y) l l' -> mapM f l = mapM f l'.
Proof. induction 1 as [|x y l l' Hx _ IH]; simpl; [done|]. by rewrite Hx, IH. Qed.

Lemma mapM_ext_Forall {A B : Type} (f g : A -> result B) (l : list A) :
  Forall (fun x => f x = g x) l -> mapM f l = mapM g l.
Proof. induction 1 as [|x l Hx _ IH]; simpl; [done|]. by rewrite Hx, IH. Qed.

Lemma np_item_agree {A : Type} (a a' : list A) (i : Z) :
  0 <= i -> length a = length a' -> a !! Z.to_nat i = a' !! Z.to_nat i ->
  np_item a i = np_item a' i.
Proof.
  intros Hi Hl Hx. unfold np_item. rewrite <- Hl.
  assert (Hi' : (i <? 0) = false) by (apply Z.ltb_ge; lia).
  by rewrite Hi', Hx.
Qed.

Lemma take_axis_agree {num : Type} (d : nat) (s e : Z) (pos : list Z)
    (a a' : ndarray num) :
  agree_outside d s e a a' ->
  Forall (fun p => 0 <= p /\ ~ (s <= p <= e)) pos ->
  take_axis d pos a' = take_axis d pos a.
Proof.
  intros [Hshape Hrows] Hpos. unfold take_axis, nd_ndim. rewrite <- Hshape.
  destruct (d <? length (nd_shape a))%nat; [|done].
  assert (Hblocks : mapM (fun rows => np_take rows pos) (axis_rows d a)
                    = mapM (fun rows => np_take rows pos) (axis_rows d a')).
  { apply mapM_Forall2. eapply Forall2_impl; [exact Hrows|].
    intros rows rows' [Hl Hsame]. unfold np_take.
    apply mapM_ext_Forall. eapply Forall_impl; [exact Hpos|].
    intros p [Hp Hout]. apply np_item_agree; [done|done|].
    apply Hsame. by rewrite Z2Nat.id. }
  by rewrite Hblocks.
Qed.

Section IgnoreBatch.
Context {num : Type} `{Numeric num}.

Lemma frames_at_agree (w : View num) (s e : Z) (idx : list Z)
    (a' : ndarray num) :
  agree_outside (proj_dim w) s e (data w) a' ->
  Forall (fun p => 0 <= p /\ ~ (s <= p <= e)) idx ->
  frames_at (with_data w a') idx = frames_at w idx.
Proof.
  intros Hag Hidx. unfold frames_at.
  change (proj_dim (with_data w a')) with (proj_dim w).
  change (nDims (with_data w a')) with (nDims w).
  change (data (with_data w a')) with a'.
  change (dark_flat_slice_list (with_data w a')) with (dark_flat_slice_list w).
  change (data_obj (with_data w a')) with (data_obj w).
  rewrite (take_axis_agree _ _ _ _ _ _ Hag Hidx).
  destruct Hag as [Hshape _]. unfold nd_ndim at 1 3. by rewrite Hshape.
Qed.

Lemma set_dark_and_flat_keeps_the_labels (v : View num) :
  image_key (fst (ImageKey_set_dark_and_flat v)) = image_key v
  /\ flat_updated (fst (ImageKey_set_dark_and_flat v)) = flat_updated v.
Proof.
  assert (Hp : forall name label mean (u : View num),
            image_key (fst (publish_mean name label mean u)) = image_key u
            /\ flat_updated (fst (publish_mean name label mean u))
               = flat_updated u).
  { intros name label mean u. unfold publish_mean.
    destruct (get_index u label false) as [idx|]; [|done].
    destruct (length idx =? 0)%nat; [done|]. by destruct (mean u). }
  unfold ImageKey_set_dark_and_flat.
  destruct (get_dark_flat_slice_list v) as [sl|]; [|done].
  destruct (Hp "dark" 2 ImageKey_dark_mean
              (with_dark_flat_slice_list v (Some sl))) as [Hk1 Hf1].
  destruct (publish_mean "dark" 2 ImageKey_dark_mean
              (with_dark_flat_slice_list v (Some sl))) as [v2 [[]|e]];
    [|done].
  simpl in Hk1, Hf1.
  destruct (Hp "flat" 1 ImageKey_flat_mean v2) as [Hk2 Hf2].
  by rewrite Hk2, Hf2.
Qed.

(** C9: constructing an [ImageKey] with the ignore batch [b], counted from
    1 over the runs of flat-labelled frames, sets the label of every frame
    of run [b] to 3 and changes nothing else of the view.  The positions of
    that run are then in no result of [get_index(1, ...)]: on every view
    that carries the new label array, also after [_set_dark_and_flat], the
    flat index is what it was before without the positions of the run.
    [flat()] on such a view extracts the frames at exactly that index, and
    its outcome is the same over any array that differs from the view's
    only at the positions of the run. *)
Theorem ignored_batch_is_relabelled
    (d : DataObj num) (key : list Z) (proj : nat) (b : Z) :
  (proj < nd_ndim (do_data d))%nat ->
  Z.of_nat (length key) <= 2 ^ 63 ->
  where_key (Some key) 1 <> [] ->
  1 <= b <= Z.of_nat (length (run_starts (where_key (Some key) 1))) ->
  exists v0 v s e labels',
    ImageKey_init d key proj IgnoreNone = Ok v0
    /\ ImageKey_init d key proj (IgnoreOne b) = Ok v
    /\ v = with_image_key v0 (Some labels')
    /\ run_spans (where_key (Some key) 1) b s e
    /\ length labels' = length key
    /\ (forall p, s <= p <= e ->
          key !! Z.to_nat p = Some 1 /\ labels' !! Z.to_nat p = Some 3)
    /\ (forall n : nat, ~ (s <= Z.of_nat n <= e) -> labels' !! n = key !! n)
    /\ (forall full, exists idx,
          get_index v 1 full = Ok idx /\ forall p, s <= p <= e -> p ∉ idx)
    /\ (forall p, p ∈ where_key (Some labels') 1
                  <-> p ∈ where_key (Some key) 1 /\ ~ (s <= p <= e))
    /\ image_key (fst (ImageKey_set_dark_and_flat v)) = Some labels'
    /\ flat_updated (fst (ImageKey_set_dark_and_flat v)) = NotUpdated
    /\ forall w : View num,
         image_key w = Some labels' ->
         (forall full, get_index w 1 full = Ok (where_key (Some labels') 1))
         /\ (flat_updated w = NotUpdated ->
             ImageKey_flat w
             = (let* frames := frames_at w (where_key (Some labels') 1) in
                Ok (nd_scale frames (fscale w))))
         /\ forall a', agree_outside (proj_dim w) s e (data w) a' ->
              ImageKey_flat (with_data w a') = ImageKey_flat w.
Proof.
  intros Hproj Hlen Hne Hb.
  set (index := where_key (Some key) 1) in *.
  destruct (ImageKey_init_eq d key proj Hproj) as (v0 & Hk0 & Hf0 & Hinit).
  (* the index is a strictly ascending list of positions *)
  assert (Hbound : Forall (fun p => 0 <= p < Z.of_nat (length key)) index)
    by apply where_key_bound.
  assert (Hpos : positions index).
  { eapply Forall_impl; [exact Hbound|]. simpl. intros; lia. }
  assert (Hsorted : StronglySorted Z.lt index) by apply where_key_sorted.
  (* run b *)
  destruct (segmenter_Ok index Hne) as (se & ee & Hseg & Hlse & Hse & Hlee & Hee).
  assert (Hlre : length (run_ends index) = length (run_starts index)).
  { rewrite run_ends_eq. unfold run_starts. simpl.
    rewrite length_app, length_map. simpl. lia. }
  destruct (lookup_lt_is_Some_2 (run_starts index) (Z.to_nat (b - 1)))
    as [i_s His]; [lia|].
  destruct (lookup_lt_is_Some_2 (run_ends index) (Z.to_nat (b - 1)))
    as [i_e Hie]; [lia|].
  destruct (run_contiguous index _ i_s i_e Hne Hpos Hsorted His Hie)
    as (Hle & s & Hs & Hrun).
  set (e := s + (i_e - i_s)).
  assert (He : index !! Z.to_nat i_e = Some e).
  { specialize (Hrun (Z.to_nat (i_e - i_s)) ltac:(lia)).
    replace (i_s + Z.of_nat (Z.to_nat (i_e - i_s))) with i_e in Hrun by lia.
    rewrite Hrun. f_equal. unfold e. lia. }
  assert (His0 : 0 <= i_s).
  { pose proof (proj1 (Forall_forall _ _) (run_starts_bound index Hne) i_s) as Hi.
    simpl in Hi. apply Hi. by eapply list_elem_of_lookup_2. }
  assert (Hspan : forall p, s <= p <= e
            <-> exists i, i_s <= i <= i_e /\ index !! Z.to_nat i = Some p).
  { intros p. split.
    - intros Hp. exists (i_s + (p - s)). split; [unfold e in Hp; lia|].
      specialize (Hrun (Z.to_nat (p - s)) ltac:(unfold e in Hp; lia)).
      replace (i_s + Z.of_nat (Z.to_nat (p - s))) with (i_s + (p - s)) in Hrun
        by lia.
      rewrite Hrun. f_equal. lia.
    - intros (i & Hi & Hip).
      specialize (Hrun (Z.to_nat (i - i_s)) ltac:(lia)).
      replace (i_s + Z.of_nat (Z.to_nat (i - i_s))) with i in Hrun by lia.
      rewrite Hrun in Hip. injection Hip as <-. unfold e. lia. }
  assert (Hflat : forall p, s <= p <= e ->
            0 <= p < Z.of_nat (length key) /\ key !! Z.to_nat p = Some 1).
  { intros p (i & _ & Hip)%Hspan.
    apply list_elem_of_lookup_2 in Hip.
    pose proof (proj1 (Forall_forall _ _) Hbound _ Hip) as Hrange.
    apply elem_of_where_key in Hip. simpl in *.
    destruct (0 <=? p); [done|done]. }
  assert (Hs0 : 0 <= s /\ e < Z.of_nat (length key) /\ s <= e).
  { pose proof (Hflat s ltac:(unfold e; lia)).
    pose proof (Hflat e ltac:(unfold e; lia)). unfold e in *. lia. }
  (* the relabelled array *)
  set (block := map (fun k => s + Z.of_nat k * 1) (seq 0 (Z.to_nat (e + 1 - s)))).
  set (labels' := foldr (fun p l => <[Z.to_nat p := 3]> l) key block).
  set (v := with_image_key v0 (Some labels')).
  assert (Hv : ImageKey_init d key proj (IgnoreOne b) = Ok v).
  { rewrite Hinit. simpl.
    assert (Hb0 : (b =? 0) = false) by (apply Z.eqb_neq; lia).
    rewrite Hb0. simpl. unfold __ignore_image_key_entries.
    rewrite get_index_calibration by done. rewrite Hk0. simpl.
    change (np_where (map (fun l => l =? 1) key)) with index.
    rewrite Hseg. simpl. unfold ignore_batch.
    rewrite (np_item_Ok se (b - 1) s)
      by (lia || (rewrite (Hse _ _ His); done)).
    cbn [bind].
    rewrite (np_item_Ok ee (b - 1) e)
      by (lia || (rewrite (Hee _ _ Hie); done)).
    cbn [bind]. rewrite Hk0. unfold assign_slice.
    rewrite slice_positions_block by lia. done. }
  assert (Hin : forall p, s <= p <= e -> labels' !! Z.to_nat p = Some 3).
  { intros p Hp. apply assign_lookup_in; [by apply elem_of_block|].
    destruct (Hflat p Hp). lia. }
  assert (Hout : forall n : nat, ~ (s <= Z.of_nat n <= e) ->
            labels' !! n = key !! n).
  { intros n Hn. apply assign_lookup_out.
    intros p Hp%elem_of_block Heq. subst n. lia. }
  assert (Habsent : forall p, s <= p <= e -> p ∉ where_key (Some labels') 1).
  { intros p Hp Hel%elem_of_where_key. simpl in Hel.
    destruct (0 <=? p); [|done]. rewrite (Hin p Hp) in Hel. done. }
  assert (Hkept : forall p, p ∈ where_key (Some labels') 1
            <-> p ∈ index /\ ~ (s <= p <= e)).
  { intros p. unfold index. rewrite !elem_of_where_key. simpl.
    destruct (Z.leb_spec 0 p) as [Hp|Hp]; [|by split; [|intros []]].
    split.
    - intros Hl. assert (Hn : ~ (s <= p <= e)).
      { intros Hrange. rewrite (Hin p Hrange) in Hl. done. }
      split; [|done]. rewrite <- Hl. symmetry. apply Hout.
      by rewrite Z2Nat.id.
    - intros [Hl Hn]. rewrite <- Hl. apply Hout. by rewrite Z2Nat.id. }
  assert (Hread : Forall (fun p => 0 <= p /\ ~ (s <= p <= e))
                         (where_key (Some labels') 1)).
  { apply Forall_forall. intros p Hp. split.
    - pose proof (proj1 (Forall_forall _ _) (where_key_bound labels' 1) p Hp).
      simpl in *. lia.
    - by apply Hkept in Hp as [_ Hn]. }
  destruct (set_dark_and_flat_keeps_the_labels v) as [Hk1 Hf1].
  exists v0, v, s, e, labels'. split_and!.
  - by rewrite Hinit.
  - exact Hv.
  - reflexivity.
  - exists i_s, i_e. by split_and!.
  - apply assign_length.
  - intros p Hp. split; [by apply Hflat|by apply Hin].
  - exact Hout.
  - intros full. exists (where_key (Some labels') 1). split; [|done].
    by rewrite get_index_calibration.
  - exact Hkept.
  - by rewrite Hk1.
  - rewrite Hf1. exact Hf0.
  - intros w Hw.
    assert (Hdata : forall u : View num,
              image_key u = Some labels' ->
              flat_image_key_data u
              = (let* frames := frames_at u (where_key (Some labels') 1) in
                 Ok (nd_scale frames (fscale u)))).
    { intros u Hu. unfold flat_image_key_data. rewrite get_data_eq.
      by rewrite get_index_calibration, Hu. }
    split_and!.
    + intros full. by rewrite get_index_calibration, Hw.
    + intros Hfw. unfold ImageKey_flat. rewrite Hfw. by apply Hdata.
    + intros a' Hag.
      assert (Hsame : flat_image_key_data (with_data w a')
                      = flat_image_key_data w).
      { rewrite (Hdata (with_data w a') Hw), (Hdata w Hw).
        by rewrite (frames_at_agree w s e _ a' Hag Hread). }
      unfold ImageKey_flat.
      change (flat_updated (with_data w a')) with (flat_updated w).
      by rewrite Hsame.
Qed.
End IgnoreBatch.

Lemma ignored_batch_is_relabelled_witness :
  (exists v,
     ImageKey_init dataset11 labels11 0 (IgnoreOne 2) = Ok v
     /\ image_key v = Some [1; 0; 0; 0; 3; 2; 2; 1; 0; 0; 1]
     /\ get_index v 1 false = Ok [0; 7; 10]
     /\ fst (ImageKey_set_dark_and_flat v) = view11_ignored)
  /\ ImageKey_flat view11_ignored
     = Ok (NdArray [3; 1; 1]%nat [0%Q; 7%Q; 10%Q])
  /\ ImageKey_flat (with_data view11_ignored frames11_other)
     = Ok (NdArray [3; 1; 1]%nat [0%Q; 7%Q; 10%Q]).
Proof.
  assert (H1 : (0 < nd_ndim (do_data dataset11))%nat) by (vm_compute; lia).
  assert (H2 : Z.of_nat (length labels11) <= 2 ^ 63) by (vm_compute; discriminate).
  assert (H3 : where_key (Some labels11) 1 <> []) by (vm_compute; discriminate).
  assert (H4 : 1 <= 2 <= Z.of_nat (length (run_starts (where_key (Some labels11) 1))))
    by (vm_compute; split; discriminate).
  assert (Hflat : ImageKey_flat view11_ignored
                  = Ok (NdArray [3; 1; 1]%nat [0%Q; 7%Q; 10%Q]))
    by (vm_compute; reflexivity).
  destruct (ignored_batch_is_relabelled dataset11 labels11 0 2 H1 H2 H3 H4)
    as (v0 & v & s & e & labels' & _ & Hv & Hvl & Hspan & _ & _ & _ & _ & _
        & _ & _ & Hall).
  assert (Hv' : ImageKey_init dataset11 labels11 0 (IgnoreOne 2)
                = Ok (with_image_key view11
                        (Some [1; 0; 0; 0; 3; 2; 2; 1; 0; 0; 1])))
    by (vm_compute; reflexivity).
  assert (Hk : image_key v = Some labels') by (rewrite Hvl; reflexivity).
  assert (Hveq : Ok v = Ok (with_image_key view11
                       (Some [1; 0; 0; 0; 3; 2; 2; 1; 0; 0; 1])))
    by exact (eq_trans (eq_sym Hv) Hv').
  injection Hveq as Hveq.
  assert (Hl : Some labels' = Some [1; 0; 0; 0; 3; 2; 2; 1; 0; 0; 1])
    by exact (eq_trans (eq_sym Hk) (f_equal image_key Hveq)).
  injection Hl as Hl.
  assert (Hse : s = 4 /\ e = 4).
  { destruct Hspan as (i_s & i_e & His & Hie & Hs & He & _).
    vm_compute in His, Hie. injection His as His. injection Hie as Hie.
    rewrite <- His in Hs. rewrite <- Hie in He.
    vm_compute in Hs, He. injection Hs as Hs. injection He as He.
    exact (conj (eq_sym Hs) (eq_sym He)). }
  destruct Hse as [Hs4 He4].
  assert (Hw : image_key view11_ignored = Some labels').
  { refine (eq_trans _ (eq_sym (f_equal Some Hl))). vm_compute. reflexivity. }
  assert (Hag0 : agree_outside 0 4 4 frames11 frames11_other).
  { split; [reflexivity|]. constructor; [|constructor].
    split; [reflexivity|].
    intros n Hn. do 11 (destruct n as [|n]; [reflexivity || lia|]).
    reflexivity. }
  assert (Hag : agree_outside (proj_dim view11_ignored) s e
                  (data view11_ignored) frames11_other).
  { rewrite Hs4, He4.
    exact (Hag0 <: agree_outside (proj_dim view11_ignored) 4 4
                     (data view11_ignored) frames11_other). }
  destruct (Hall view11_ignored Hw) as (_ & _ & Hother).
  split.
  - exists v. split; [exact Hv|].
    split; [exact (eq_trans Hk (f_equal Some Hl))|].
    split.
    + refine (eq_trans (f_equal (fun u => get_index u 1 false) Hveq) _).
      vm_compute. reflexivity.
    + refine (f_equal (fun u => fst (ImageKey_set_dark_and_flat u)) Hveq).
  - split; [exact Hflat|].
    exact (eq_trans (Hother frames11_other Hag) Hflat).
Defined.

(** ** Dark and flat frames *)

Example view11_ready_state :
  dark_flat_slice_list view11_ready = Some [slice_all; slice_all; slice_all]
  /\ meta_data (data_obj view11_ready) !! "dark"
     = Some (NdArray [1; 1]%nat [(11 # 2)%Q])
  /\ meta_data (data_obj view11_ready) !! "flat"
     = Some (NdArray [1; 1]%nat [(21 # 4)%Q]).
Proof. by vm_compute. Qed.

Example view_ext_constructed : NoImageKey_init dataset_ext None 0 = Ok view_ext0.
Proof. by vm_compute. Qed.

Example view_ext_computed :
  snd (NoImageKey_dark view_ext) = Ok (NdArray [1; 1; 1]%nat [1%Q])
  /\ snd (NoImageKey_flat view_ext) = Ok (NdArray [1; 1; 1]%nat [8%Q]).
Proof. by vm_compute. Qed.

Section Corrector.
Context {num : Type} `{Numeric num}.

(** An override whose truth value is true is what [ImageKey.dark],
    [ImageKey.flat] and [NoImageKey.dark] return. *)
Lemma truthy_override_is_returned (v : View num) (frame : ndarray num) :
  nd_truth frame = Ok true ->
  ImageKey_dark (fst (update_dark v frame)) = Ok frame
  /\ ImageKey_flat (fst (update_flat v frame)) = Ok frame
  /\ snd (NoImageKey_dark (fst (update_dark v frame))) = Ok frame.
Proof.
  intros Ht. unfold update_dark, update_flat.
  repeat match goal with
         | |- context [_calc_mean ?a ?b] => destruct (_calc_mean a b)
         end; simpl;
    unfold ImageKey_dark, ImageKey_flat, NoImageKey_dark; simpl;
    rewrite ?Ht; done.
Qed.

(** An override with more than one element makes every accessor raise. *)
Lemma large_override_raises (v : View num) (frame : ndarray num) :
  (1 < length (nd_buf frame))%nat ->
  ImageKey_dark (fst (update_dark v frame)) = Raise ValueError
  /\ ImageKey_flat (fst (update_flat v frame)) = Raise ValueError
  /\ snd (NoImageKey_dark (fst (update_dark v frame))) = Raise ValueError
  /\ snd (NoImageKey_flat (fst (update_flat v frame))) = Raise ValueError.
Proof.
  intros Hlen.
  assert (Ht : nd_truth frame = Raise ValueError).
  { unfold nd_truth. destruct (nd_buf frame) as [|x [|y l]]; simpl in *; (lia || done). }
  unfold update_dark, update_flat.
  repeat match goal with
         | |- context [_calc_mean ?a ?b] => destruct (_calc_mean a b)
         end; simpl;
    unfold ImageKey_dark, ImageKey_flat, NoImageKey_dark, NoImageKey_flat;
    simpl; rewrite ?Ht; done.
Qed.

(** [NoImageKey.flat] never returns an override. *)
Lemma NoImageKey_flat_override (v : View num) (frame : ndarray num) :
  nd_truth frame = Ok true ->
  snd (NoImageKey_flat (fst (update_flat v frame))) = Raise TypeError.
Proof.
  intros Ht. unfold update_flat.
  destruct (_calc_mean _ frame); simpl; unfold NoImageKey_flat; simpl;
    by rewrite Ht.
Qed.
End Corrector.

(** C3: after [update_flat(X)] the External-Reference [flat()] calls the
    stored frame and raises instead of returning it, where its sibling
    [dark()] returns it; an override of more than one element makes the
    truth test of every accessor raise; and an override whose only element
    is zero is taken for no override. *)
Theorem override_is_not_always_returned :
  snd (NoImageKey_flat (fst (update_flat view_ext frame5))) = Raise TypeError
  /\ snd (NoImageKey_dark (fst (update_dark view_ext frame5))) = Ok frame5
  /\ ImageKey_flat (fst (update_flat view11_ready frame5)) = Ok frame5
  /\ ImageKey_dark (fst (update_dark view11_ready stack57)) = Raise ValueError
  /\ ImageKey_flat (fst (update_flat view11_ready stack57)) = Raise ValueError
  /\ snd (NoImageKey_dark (fst (update_dark view_ext stack57)))
     = Raise ValueError
  /\ ImageKey_dark (fst (update_dark view11_ready frame0))
     = Ok (NdArray [2; 1; 1]%nat [5%Q; 6%Q]).
Proof. by vm_compute. Qed.

Lemma slice_positions_all (n : nat) :
  exists pos, slice_positions n slice_all = Ok pos /\ length pos = n.
Proof.
  unfold slice_positions, slice_indices, py_range. simpl.
  eexists. split; [reflexivity|].
  rewrite length_map, length_seq, Z.div_1_r. lia.
Qed.

Section Shapes.
Context {num : Type} `{Numeric num}.

Lemma take_axis_shape (d : nat) (pos : list Z) (a a' : ndarray num) :
  take_axis d pos a = Ok a' ->
  (d < nd_ndim a)%nat /\ nd_shape a' = <[d := length pos]> (nd_shape a).
Proof.
  unfold take_axis. destruct (d <? nd_ndim a)%nat eqn:Hd; [|done].
  apply Nat.ltb_lt in Hd. destruct (mapM _ _); simpl; [|done].
  by intros [= <-].
Qed.

(** Slicing leaves alone the axes it does not reach and the axes it takes
    whole. *)
Lemma apply_slices_shape (sl : list pyslice) (d : nat) (a r : ndarray num) :
  apply_slices d sl a = Ok r ->
  forall j,
    (j < d)%nat \/ ((d <= j)%nat /\ sl !! (j - d)%nat = Some slice_all) ->
    nd_shape r !! j = nd_shape a !! j.
Proof.
  revert d a. induction sl as [|s sl IH]; intros d a; simpl.
  - intros [= <-] j _. done.
  - destruct (nd_shape a !! d) as [n|] eqn:Hn; [|done].
    destruct (slice_positions n s) as [pos|] eqn:Hpos; simpl; [|done].
    destruct (take_axis d pos a) as [a'|] eqn:Ha'; simpl; [|done].
    apply take_axis_shape in Ha' as [Hd Hshape].
    intros Hr j Hj. specialize (IH _ _ Hr j). rewrite Hshape in IH.
    destruct (decide (j = d)) as [->|Hjd].
    + destruct Hj as [?|[_ Hs]]; [lia|].
      rewrite Nat.sub_diag in Hs. injection Hs as ->.
      destruct (slice_positions_all n) as (pos' & Hpos' & Hlen).
      rewrite Hpos in Hpos'. injection Hpos' as <-.
      rewrite IH by (left; lia).
      rewrite list_lookup_insert_eq by done. by rewrite Hlen, Hn.
    + rewrite IH; [by rewrite list_lookup_insert_ne|].
      destruct Hj as [?|[? Hs]]; [left; lia|right]. split; [lia|].
      replace (j - d)%nat with (S (j - S d)) in Hs by lia. done.
Qed.

(** Without an override, and with the cached slice list taking the
    projection axis whole, what [__get_data] returns has one frame for
    every position of the index. *)
Lemma get_data_keeps_every_frame
    (v : View num) (key : Z) (idx : list Z) (sl : list pyslice)
    (frames : ndarray num) :
  __get_data v key = Ok frames ->
  get_index v key false = Ok idx ->
  dark_flat_slice_list v = Some sl ->
  sl !! proj_dim v = Some slice_all ->
  nd_ndim (data v) <> 2%nat ->
  nd_shape frames !! proj_dim v = Some (length idx).
Proof.
  intros Hget Hidx Hsl Hall Hdim. rewrite get_data_eq, Hidx in Hget.
  simpl in Hget. unfold frames_at in Hget.
  destruct (negb (proj_dim v <? nDims v)%nat); [done|].
  destruct (negb (nDims v <=? nd_ndim (data v))%nat); [done|].
  destruct (take_axis (proj_dim v) idx (data v)) as [d0|] eqn:Hd0; [|done].
  simpl in Hget. rewrite Hsl in Hget.
  apply take_axis_shape in Hd0 as [Hproj Hshape].
  assert (Hnd : (nd_ndim d0 =? 2)%nat = false).
  { apply Nat.eqb_neq. unfold nd_ndim in *. by rewrite Hshape, length_insert. }
  rewrite Hnd in Hget. simpl in Hget.
  rewrite (apply_slices_shape sl 0 d0 frames Hget (proj_dim v)).
  - rewrite Hshape. by apply list_lookup_insert_eq.
  - right. split; [lia|]. by rewrite Nat.sub_0_r.
Qed.
End Shapes.

Section Updates.
Context {num : Type} `{Numeric num}.

(** C4: for a frame of two or more dimensions (one frame, or a stack of
    frames), [update_dark(frame)] (resp. [update_flat(frame)]) stores the
    frame as the override, resets the dark (resp. flat) scale factor to 1
    and writes the mean-reduced frame under the key "dark" (resp. "flat"):
    the float32 average over the projection axis when the frame has more
    than two dimensions, the frame itself otherwise.  The reduced value
    exists whenever the projection axis is one of the axes of the frame. *)
Theorem update_stores_override_and_publishes_mean
    (v : View num) (frame : ndarray num) :
  (2 <= nd_ndim frame)%nat ->
  dark_updated (fst (update_dark v frame)) = Updated frame
  /\ dscale (fst (update_dark v frame)) = num_one
  /\ flat_updated (fst (update_flat v frame)) = Updated frame
  /\ fscale (fst (update_flat v frame)) = num_one
  /\ _calc_mean v frame = calc_mean_as_specified v frame
  /\ (nd_ndim frame = 2%nat -> calc_mean_as_specified v frame = Ok frame)
  /\ ((2 < nd_ndim frame)%nat ->
      calc_mean_as_specified v frame = nd_mean32 (proj_dim v) frame)
  /\ ((proj_dim v < nd_ndim frame)%nat ->
      exists m, calc_mean_as_specified v frame = Ok m)
  /\ (forall m, calc_mean_as_specified v frame = Ok m ->
        snd (update_dark v frame) = Ok tt
        /\ meta_data (data_obj (fst (update_dark v frame))) !! "dark" = Some m
        /\ snd (update_flat v frame) = Ok tt
        /\ meta_data (data_obj (fst (update_flat v frame))) !! "flat" = Some m).
Proof.
  intros Hdim.
  assert (Hspec : _calc_mean v frame = calc_mean_as_specified v frame).
  { unfold _calc_mean, calc_mean_as_specified.
    destruct (nd_ndim frame =? 2)%nat eqn:H2.
    - apply Nat.eqb_eq in H2. by rewrite H2.
    - apply Nat.eqb_neq in H2.
      assert (Hlt : (2 <? nd_ndim frame)%nat = true) by (apply Nat.ltb_lt; lia).
      by rewrite Hlt. }
  assert (Hd : _calc_mean (with_dscale (with_dark_updated v (Updated frame)) num_one)
                 frame = calc_mean_as_specified v frame) by exact Hspec.
  assert (Hf : _calc_mean (with_fscale (with_flat_updated v (Updated frame)) num_one)
                 frame = calc_mean_as_specified v frame) by exact Hspec.
  unfold update_dark, update_flat. rewrite Hd, Hf. split_and!.
  - by destruct (calc_mean_as_specified v frame).
  - by destruct (calc_mean_as_specified v frame).
  - by destruct (calc_mean_as_specified v frame).
  - by destruct (calc_mean_as_specified v frame).
  - exact Hspec.
  - intros H2. unfold calc_mean_as_specified. by rewrite H2.
  - intros H2. unfold calc_mean_as_specified.
    apply Nat.ltb_lt in H2. by rewrite H2.
  - intros Hproj. unfold calc_mean_as_specified, nd_mean32.
    destruct (2 <? nd_ndim frame)%nat; [|by eexists].
    apply Nat.ltb_lt in Hproj. rewrite Hproj. by eexists.
  - intros m ->. simpl. by rewrite !lookup_insert_eq.
Qed.

(** C2, as the code has it: without an override [flat()] (resp. [dark()])
    is the frames of label 1 (resp. 2), taken at the positions of
    [get_index] and through the cached slice list, times the flat (resp.
    dark) scale factor, with no averaging and no cast: the result has the
    shape of the extracted frames, one frame for every position of the
    index when the slice list takes the projection axis whole.  The
    average over the projection axis is taken by [flat_mean()] and
    [dark_mean()].  After [set_flat_scale(s)], [flat()] is the unscaled
    frames times [float(s)]. *)
Theorem flat_and_dark_scale_the_extracted_frames (v : View num) :
  flat_updated v = NotUpdated -> dark_updated v = NotUpdated ->
  ImageKey_flat v
  = (let* idx := get_index v 1 false in
     let* frames := frames_at v idx in
     Ok (nd_scale frames (fscale v)))
  /\ ImageKey_dark v
     = (let* idx := get_index v 2 false in
        let* frames := frames_at v idx in
        Ok (nd_scale frames (dscale v)))
  /\ (forall r, ImageKey_flat v = Ok r ->
        exists frames, __get_data v 1 = Ok frames
                       /\ nd_shape r = nd_shape frames)
  /\ (forall r, ImageKey_dark v = Ok r ->
        exists frames, __get_data v 2 = Ok frames
                       /\ nd_shape r = nd_shape frames)
  /\ (forall r idx sl,
        ImageKey_flat v = Ok r -> get_index v 1 false = Ok idx ->
        dark_flat_slice_list v = Some sl ->
        sl !! proj_dim v = Some slice_all -> nd_ndim (data v) <> 2%nat ->
        nd_shape r !! proj_dim v = Some (length idx))
  /\ (forall s, ImageKey_flat (set_flat_scale v s)
                = (let* frames := __get_data v 1 in
                   Ok (nd_scale frames (num_float s))))
  /\ (forall s, ImageKey_dark (set_dark_scale v s)
                = (let* frames := __get_data v 2 in
                   Ok (nd_scale frames (num_float s))))
  /\ ImageKey_flat_mean v
     = (let* frames := ImageKey_flat v in _calc_mean v frames)
  /\ ImageKey_dark_mean v
     = (let* frames := ImageKey_dark v in _calc_mean v frames).
Proof.
  intros Hf Hd. unfold ImageKey_flat, ImageKey_dark. rewrite Hf, Hd.
  split_and!.
  - unfold flat_image_key_data. rewrite get_data_eq.
    by destruct (get_index v 1 false).
  - unfold dark_image_key_data. rewrite get_data_eq.
    by destruct (get_index v 2 false).
  - unfold flat_image_key_data. intros r Hr.
    destruct (__get_data v 1) as [frames|]; [|done].
    injection Hr as <-. by exists frames.
  - unfold dark_image_key_data. intros r Hr.
    destruct (__get_data v 2) as [frames|]; [|done].
    injection Hr as <-. by exists frames.
  - unfold flat_image_key_data. intros r idx sl Hr Hidx Hsl Hall Hdim.
    destruct (__get_data v 1) as [frames|] eqn:Hget; [|done].
    injection Hr as <-. simpl.
    by apply (get_data_keeps_every_frame v 1 idx sl frames).
  - intros s. simpl. by rewrite Hf.
  - intros s. simpl. by rewrite Hd.
  - unfold ImageKey_flat_mean, ImageKey_flat. by rewrite Hf.
  - unfold ImageKey_dark_mean, ImageKey_dark. by rewrite Hd.
Qed.
End Updates.

Lemma flat_and_dark_scale_the_extracted_frames_witness :
  (flat_updated view11_ready = NotUpdated
   /\ dark_updated view11_ready = NotUpdated)
  /\ ImageKey_flat (set_flat_scale view11_ready (2 # 1)%Q)
     = Ok (NdArray [4; 1; 1]%nat [0%Q; 8%Q; 14%Q; 20%Q]).
Proof.
  assert (Hf : flat_updated view11_ready = NotUpdated)
    by (vm_compute; reflexivity).
  assert (Hd : dark_updated view11_ready = NotUpdated)
    by (vm_compute; reflexivity).
  assert (Hv : (let* frames := __get_data view11_ready 1 in
                Ok (nd_scale frames (num_float (2 # 1)%Q)))
               = Ok (NdArray [4; 1; 1]%nat [0%Q; 8%Q; 14%Q; 20%Q]))
    by (vm_compute; reflexivity).
  split; [exact (conj Hf Hd)|].
  pose proof (flat_and_dark_scale_the_extracted_frames view11_ready Hf Hd)
    as (_ & _ & _ & _ & _ & Hs & _).
  exact (eq_trans (Hs (2 # 1)%Q) Hv).
Defined.

Lemma update_stores_override_and_publishes_mean_witness :
  (2 <= nd_ndim stack57)%nat
  /\ dark_updated (fst (update_dark view11_ready stack57)) = Updated stack57
  /\ dscale (fst (update_dark view11_ready stack57)) = 1%Q
  /\ meta_data (data_obj (fst (update_dark view11_ready stack57))) !! "dark"
     = Some (NdArray [1; 1]%nat [6%Q]).
Proof.
  assert (Hdim : (2 <= nd_ndim stack57)%nat) by (vm_compute; lia).
  assert (Hm : calc_mean_as_specified view11_ready stack57
               = Ok (NdArray [1; 1]%nat [6%Q])) by (vm_compute; reflexivity).
  destruct (update_stores_override_and_publishes_mean view11_ready stack57 Hdim)
    as (Hu & Hs & _ & _ & _ & _ & _ & _ & Hw).
  destruct (Hw _ Hm) as (_ & Hmeta & _).
  exact (conj Hdim (conj Hu (conj Hs Hmeta))).
Defined.

(** C2 as stated fails: with four flat frames and no override, [flat()]
    returns the four frames, not their average. *)
Lemma flat_is_not_averaged :
  ImageKey_flat view11_ready = Ok (NdArray [4; 1; 1]%nat [0%Q; 4%Q; 7%Q; 10%Q])
  /\ calibration_as_specified view11_ready 1 (fscale view11_ready)
     = Ok (NdArray [1; 1]%nat [(21 # 4)%Q])
  /\ ImageKey_flat view11_ready
     <> calibration_as_specified view11_ready 1 (fscale view11_ready).
Proof. by vm_compute. Qed.

(** * Further properties of the code *)

(** ** Slices of one-dimensional arrays *)

Lemma slice_indices_bounds (n : nat) (s : pyslice) (start stop step : Z) :
  slice_indices (Z.of_nat n) s = Ok (start, stop, step) ->
  step = default 1 (sl_step s)
  /\ ((0 < step /\ 0 <= start <= Z.of_nat n /\ 0 <= stop <= Z.of_nat n)
      \/ (step < 0 /\ -1 <= start <= Z.of_nat n - 1
          /\ -1 <= stop <= Z.of_nat n - 1)).
Proof.
  unfold slice_indices.
  destruct (Z.eqb_spec (default 1 (sl_step s)) 0) as [|Hstep]; [done|].
  intros [= <- <- <-]. split; [done|].
  destruct (Z.ltb_spec (default 1 (sl_step s)) 0) as [Hneg|Hpos].
  - right. split; [done|].
    destruct (sl_start s) as [x|], (sl_stop s) as [y|];
      repeat match goal with
             | |- context [?a <? ?b] => destruct (Z.ltb_spec a b)
             end; lia.
  - left. split; [lia|].
    destruct (sl_start s) as [x|], (sl_stop s) as [y|];
      repeat match goal with
             | |- context [?a <? ?b] => destruct (Z.ltb_spec a b)
             end; lia.
Qed.

Lemma py_range_count (start stop step : Z) :
  step <> 0 ->
  let count := if 0 <? step then (stop - start + step - 1) / step
               else (start - stop - step - 1) / (- step) in
  (0 < step -> count * step <= stop - start + step - 1)
  /\ (step < 0 -> count * (- step) <= start - stop - step - 1).
Proof.
  intros Hstep. simpl. split; intros Hs.
  - assert (Hb : (0 <? step) = true) by (apply Z.ltb_lt; lia). rewrite Hb.
    rewrite Z.mul_comm. apply Z.mul_div_le. lia.
  - assert (Hb : (0 <? step) = false) by (apply Z.ltb_ge; lia). rewrite Hb.
    rewrite Z.mul_comm. apply Z.mul_div_le. lia.
Qed.

(** A slice only ever selects positions inside the array, and no more of
    them than the array has. *)
Lemma slice_positions_in_range (n : nat) (s : pyslice) (pos : list Z) :
  slice_positions n s = Ok pos ->
  Forall (fun p => 0 <= p < Z.of_nat n) pos /\ (length pos <= n)%nat.
Proof.
  unfold slice_positions.
  destruct (slice_indices (Z.of_nat n) s) as [[[start stop] step]|] eqn:Hi;
    simpl; [|done].
  intros [= <-].
  apply slice_indices_bounds in Hi as [_ Hb].
  assert (Hstep : step <> 0) by lia.
  destruct (py_range_count start stop step Hstep) as [Hup Hdown].
  unfold py_range.
  set (count := if 0 <? step then (stop - start + step - 1) / step
                else (start - stop - step - 1) / (- step)) in *.
  split.
  - rewrite map_fmap. apply Forall_fmap, Forall_forall.
    intros k Hk%elem_of_seq. simpl.
    destruct Hb as [(Hs & Hst & Hsp)|(Hs & Hst & Hsp)].
    + specialize (Hup Hs). nia.
    + specialize (Hdown Hs). nia.
  - rewrite length_map, length_seq.
    destruct Hb as [(Hs & Hst & Hsp)|(Hs & Hst & Hsp)].
    + specialize (Hup Hs). nia.
    + specialize (Hdown Hs). nia.
Qed.

Lemma slice_positions_step (n : nat) (s : pyslice) :
  (exists pos, slice_positions n s = Ok pos) <-> sl_step s <> Some 0.
Proof.
  unfold slice_positions, slice_indices.
  destruct (Z.eqb_spec (default 1 (sl_step s)) 0) as [H0|H0]; simpl.
  - split; [by intros [? ?]|]. intros Hs. exfalso. apply Hs.
    destruct (sl_step s) as [x|]; simpl in H0; [by subst|done].
  - split; [|by eexists]. intros _ Hs. by rewrite Hs in H0.
Qed.

Lemma slice_positions_ascending (n : nat) (s : pyslice) (pos : list Z) :
  slice_positions n s = Ok pos -> 0 < default 1 (sl_step s) ->
  StronglySorted Z.lt pos.
Proof.
  unfold slice_positions.
  destruct (slice_indices (Z.of_nat n) s) as [[[start stop] step]|] eqn:Hi;
    simpl; [|done].
  intros [= <-] Hpos. apply slice_indices_bounds in Hi as [Hst _].
  rewrite <- Hst in Hpos. clear Hst. unfold py_range. generalize (Z.to_nat (if 0 <? step
    then (stop - start + step - 1) / step
    else (start - stop - step - 1) / - step)). intros c.
  generalize 0%nat. induction c as [|c IH]; intros a; simpl; constructor.
  - apply IH.
  - rewrite map_fmap. apply Forall_fmap, Forall_forall.
    intros k Hk%elem_of_seq. simpl. nia.
Qed.

Lemma np_take_elem_of {A : Type} (a : list A) (idx : list Z) (vals : list A) :
  np_take a idx = Ok vals -> forall x, x ∈ vals -> x ∈ a.
Proof.
  unfold np_take. revert vals. induction idx as [|i idx IH]; intros vals; simpl.
  - intros [= <-] x Hx. by apply elem_of_nil in Hx.
  - destruct (np_item a i) as [y|] eqn:Hy; simpl; [|done].
    destruct (mapM (np_item a) idx) as [ys|]; simpl; [|done].
    intros [= <-] x [->|Hx]%elem_of_cons; [|by eapply IH].
    unfold np_item in Hy.
    destruct ((- Z.of_nat (length a) <=? i) && (i <? Z.of_nat (length a)));
      [|done].
    destruct (a !! _) eqn:Hl; [|done]. injection Hy as <-.
    by eapply list_elem_of_lookup_2.
Qed.

Lemma np_take_ascending (a : list Z) (idx vals : list Z) :
  StronglySorted Z.lt a -> StronglySorted Z.lt idx ->
  Forall (fun i => 0 <= i) idx ->
  np_take a idx = Ok vals -> StronglySorted Z.lt vals.
Proof.
  intros Ha Hs. revert vals. unfold np_take.
  induction Hs as [|i idx Hs IH Hi]; intros vals Hnn; simpl.
  - intros [= <-]. constructor.
  - apply Forall_cons in Hnn as [Hi0 Hnn].
    destruct (np_item a i) as [y|] eqn:Hy; simpl; [|done].
    destruct (mapM (np_item a) idx) as [ys|] eqn:Hys; simpl; [|done].
    intros [= <-]. constructor; [by apply IH|].
    apply Forall_forall. intros z Hz.
    apply list_elem_of_lookup in Hz as [k Hk].
    assert (Hlen : forall l ws, mapM (np_item a) l = Ok ws ->
              length ws = length l
              /\ forall k j w, l !! k = Some j -> ws !! k = Some w ->
                   np_item a j = Ok w).
    { clear. induction l as [|j l IHl]; intros ws; simpl.
      - intros [= <-]. split; [done|]. by intros [|?] ? ? ?.
      - destruct (np_item a j) as [w|] eqn:Hw; simpl; [|done].
        destruct (mapM (np_item a) l) as [ws'|]; simpl; [|done].
        intros [= <-]. destruct (IHl ws' eq_refl) as [Hl Hall].
        split; [simpl; by rewrite Hl|].
        intros [|k] j' w'; simpl; [by intros [= <-] [= <-]|apply Hall]. }
    destruct (Hlen _ _ Hys) as [Hl Hall].
    destruct (lookup_lt_is_Some_2 idx k) as [j Hj].
    { rewrite <- Hl. by eapply lookup_lt_Some. }
    specialize (Hall _ _ _ Hj Hk).
    pose proof (proj1 (Forall_forall _ _) Hi j
                  (list_elem_of_lookup_2 _ _ _ Hj)) as Hij.
    pose proof (proj1 (Forall_forall _ _) Hnn j
                  (list_elem_of_lookup_2 _ _ _ Hj)) as Hj0.
    simpl in *.
    assert (Hget : forall q w, 0 <= q -> np_item a q = Ok w ->
              a !! Z.to_nat q = Some w).
    { intros q w Hq. unfold np_item.
      destruct ((- Z.of_nat (length a) <=? q) && (q <? Z.of_nat (length a)));
        [|done].
      assert (Hq' : (q <? 0) = false) by (apply Z.ltb_ge; lia). rewrite Hq'.
      destruct (a !! Z.to_nat q); [|done]. by intros [= <-]. }
    eapply (StronglySorted_lookup_lt a (Z.to_nat i) (Z.to_nat j));
      [done|by apply Hget|by apply Hget|lia].
Qed.

Lemma np_slice_Ok {A : Type} (a : list A) (s : pyslice) :
  sl_step s <> Some 0 ->
  exists pos vals,
    slice_positions (length a) s = Ok pos /\ np_slice a s = Ok vals
    /\ length vals = length pos /\ (length vals <= length a)%nat.
Proof.
  intros Hs. apply (slice_positions_step (length a)) in Hs as [pos Hpos].
  destruct (slice_positions_in_range _ _ _ Hpos) as [Hrange Hlen].
  destruct (np_take_Ok a pos Hrange) as (vals & Hvals & Hl & _).
  exists pos, vals. unfold np_slice. rewrite Hpos. simpl.
  split_and!; (done || lia).
Qed.

Lemma np_slice_inv {A : Type} (a : list A) (s : pyslice) (vals : list A) :
  np_slice a s = Ok vals ->
  (forall x, x ∈ vals -> x ∈ a) /\ (length vals <= length a)%nat.
Proof.
  unfold np_slice.
  destruct (slice_positions (length a) s) as [pos|] eqn:Hpos; simpl; [|done].
  intros Htake. split; [by eapply np_take_elem_of|].
  destruct (slice_positions_in_range _ _ _ Hpos) as [Hrange Hlen].
  destruct (np_take_Ok a pos Hrange) as (vals' & Hvals & Hl & _).
  rewrite Htake in Hvals. injection Hvals as <-. lia.
Qed.

(** ** More on the label index resolver *)

Section ResolverMore.
Context {num : Type} `{Numeric num}.

Lemma get_index_inv
    (v : View num) (key : Z) (full : bool) :
  exists idx,
    get_index v key full = Ok idx
    /\ (forall p, p ∈ idx -> label_at (image_key v) p = Some key)
    /\ (length idx <= length (where_key (image_key v) key))%nat.
Proof.
  assert (Hfull : exists idx,
            Ok (where_key (image_key v) key) = Ok idx
            /\ (forall p, p ∈ idx -> label_at (image_key v) p = Some key)
            /\ (length idx <= length (where_key (image_key v) key))%nat).
  { eexists. split_and!; [done| |done]. intros p. apply elem_of_where_key. }
  destruct (decide (key = 0)) as [->|Hk].
  - destruct full; simpl; [done|].
    rewrite get_preview_index_eq.
    destruct (preview_lookup v) as [s|e]; simpl; [|done].
    unfold __get_reduced_index.
    destruct (np_slice (where_key (image_key v) 0) s) as [entries|e] eqn:Hs;
      simpl; [|done].
    apply np_slice_inv in Hs as [Hsub Hlen].
    exists entries. split_and!; [done| |done].
    intros p Hp. by apply elem_of_where_key, Hsub.
  - by rewrite get_index_calibration.
Qed.

(** X1: whatever the label, the mode and the preview, [get_index] returns,
    and every position it returns carries the label asked for; it never
    returns more positions than the label has frames. *)
Theorem get_index_positions_carry_the_label
    (v : View num) (key : Z) (full : bool) :
  exists idx,
    get_index v key full = Ok idx
    /\ (forall p, p ∈ idx -> label_at (image_key v) p = Some key)
    /\ (length idx <= length (where_key (image_key v) key))%nat.
Proof.
  assert (Hfull : exists idx,
            Ok (where_key (image_key v) key) = Ok idx
            /\ (forall p, p ∈ idx -> label_at (image_key v) p = Some key)
            /\ (length idx <= length (where_key (image_key v) key))%nat).
  { eexists. split_and!; [done| |done]. intros p. apply elem_of_where_key. }
  destruct (decide (key = 0)) as [->|Hk].
  - destruct full; simpl; [done|].
    rewrite get_preview_index_eq.
    destruct (preview_lookup v) as [s|e]; simpl; [|done].
    unfold __get_reduced_index.
    destruct (np_slice (where_key (image_key v) 0) s) as [entries|e] eqn:Hs;
      simpl; [|done].
    apply np_slice_inv in Hs as [Hsub Hlen].
    exists entries. split_and!; [done| |done].
    intros p Hp. by apply elem_of_where_key, Hsub.
  - by rewrite get_index_calibration.
Qed.

(** X2: with a preview whose slice for the projection axis has a step other
    than 0, [get_index(0)] is that slice of the full data index: it holds
    the data position found at each position the slice selects, and is
    strictly ascending when the step is positive. *)
Theorem data_index_is_the_preview_window (v : View num) (s : pyslice) :
  preview_lookup v = Ok s -> sl_step s <> Some 0 ->
  exists idx pos,
    get_index v 0 false = Ok idx
    /\ slice_positions (length (where_key (image_key v) 0)) s = Ok pos
    /\ length idx = length pos
    /\ (forall j p, pos !! j = Some p ->
          idx !! j = where_key (image_key v) 0 !! Z.to_nat p)
    /\ (0 < default 1 (sl_step s) -> StronglySorted Z.lt idx).
Proof.
  intros Hlook Hstep. simpl. rewrite get_preview_index_eq, Hlook. simpl.
  unfold __get_reduced_index.
  set (full := where_key (image_key v) 0).
  destruct (proj2 (slice_positions_step (length full) s) Hstep) as [pos Hpos].
  destruct (slice_positions_in_range _ _ _ Hpos) as [Hrange _].
  destruct (np_take_Ok full pos Hrange) as (idx & Hidx & Hl & Hget).
  assert (Hs : np_slice full s = Ok idx).
  { unfold np_slice. rewrite Hpos. done. }
  rewrite Hs. simpl. exists idx, pos. split_and!; try done.
  intros Hpositive.
  eapply (np_take_ascending full pos idx); try done.
  - apply where_key_sorted.
  - by eapply slice_positions_ascending.
  - eapply Forall_impl; [exact Hrange|]. simpl. intros; lia.
Qed.

(** X3: a preview slice with step 0 cannot be applied; the error is
    swallowed and [get_index] answers with the full index of the label. *)
Theorem zero_step_preview_gives_full_index
    (v : View num) (s : pyslice) (key : Z) :
  preview_lookup v = Ok s -> sl_step s = Some 0 ->
  get_index v key false = get_index v key true.
Proof.
  intros Hlook Hstep. simpl. rewrite get_preview_index_eq, Hlook. simpl.
  unfold __get_reduced_index, np_slice, slice_positions, slice_indices.
  rewrite Hstep. done.
Qed.

(** X4: for every label other than 0 the preview plays no part:
    [get_index(key)] is [get_index(key, full=True)], the index of every
    frame of that label. *)
Theorem calibration_index_ignores_the_preview (v : View num) (key : Z) :
  key <> 0 ->
  get_index v key false = get_index v key true
  /\ get_index v key false = Ok (where_key (image_key v) key).
Proof.
  intros Hk. by rewrite !get_index_calibration.
Qed.
End ResolverMore.

Lemma data_index_is_the_preview_window_witness :
  (preview_lookup view11 = Ok (Slice (Some 1) (Some 3) (Some 1))
   /\ sl_step (Slice (Some 1) (Some 3) (Some 1)) <> Some 0)
  /\ get_index view11 0 false = Ok [2; 3].
Proof.
  assert (H1 : preview_lookup view11 = Ok (Slice (Some 1) (Some 3) (Some 1)))
    by reflexivity.
  assert (H2 : sl_step (Slice (Some 1) (Some 3) (Some 1)) <> Some 0)
    by discriminate.
  split; [exact (conj H1 H2)|].
  destruct (data_index_is_the_preview_window view11 _ H1 H2)
    as (idx & pos & Hidx & _).
  rewrite Hidx. vm_compute in Hidx. injection Hidx as <-. reflexivity.
Defined.

Lemma zero_step_preview_gives_full_index_witness :
  (preview_lookup view11_zero_step = Ok (Slice (Some 1) (Some 3) (Some 0))
   /\ sl_step (Slice (Some 1) (Some 3) (Some 0)) = Some 0)
  /\ get_index view11_zero_step 0 false = get_index view11_zero_step 0 true.
Proof.
  assert (H1 : preview_lookup view11_zero_step
               = Ok (Slice (Some 1) (Some 3) (Some 0))) by reflexivity.
  assert (H2 : sl_step (Slice (Some 1) (Some 3) (Some 0)) = Some 0)
    by reflexivity.
  split; [exact (conj H1 H2)|].
  exact (zero_step_preview_gives_full_index view11_zero_step _ 0 H1 H2).
Defined.

Lemma calibration_index_ignores_the_preview_witness :
  (2 <> 0) /\ get_index view11 2 false = Ok [5; 6].
Proof.
  assert (H2 : 2 <> 0) by discriminate.
  split; [exact H2|].
  destruct (calibration_index_ignores_the_preview view11 2 H2) as [_ ->].
  reflexivity.
Defined.

(** ** More on the constructor and the ignore batches *)

Lemma np_item_IndexError {A : Type} (a : list A) (i : Z) :
  ~ (- Z.of_nat (length a) <= i < Z.of_nat (length a)) ->
  np_item a i = Raise IndexError.
Proof.
  intros Hi. unfold np_item.
  destruct (Z.leb_spec (- Z.of_nat (length a)) i),
           (Z.ltb_spec i (Z.of_nat (length a))); simpl; (done || lia).
Qed.

Lemma np_item_wrap {A : Type} (a : list A) (i : Z) :
  - Z.of_nat (length a) <= i < 0 ->
  np_item a i = np_item a (i + Z.of_nat (length a)).
Proof.
  intros Hi. unfold np_item.
  destruct (Z.leb_spec (- Z.of_nat (length a)) i); [|lia].
  destruct (Z.ltb_spec i (Z.of_nat (length a))); [|lia].
  destruct (Z.leb_spec (- Z.of_nat (length a)) (i + Z.of_nat (length a))); [|lia].
  destruct (Z.ltb_spec (i + Z.of_nat (length a)) (Z.of_nat (length a))); [|lia].
  destruct (Z.ltb_spec i 0); [|lia].
  destruct (Z.ltb_spec (i + Z.of_nat (length a)) 0); [lia|]. done.
Qed.

Lemma run_spans_unique (index : list Z) (b s e s' e' : Z) :
  run_spans index b s e -> run_spans index b s' e' -> s = s' /\ e = e'.
Proof.
  intros (i_s & i_e & H1 & H2 & H3 & H4 & _) (j_s & j_e & G1 & G2 & G3 & G4 & _).
  rewrite H1 in G1. injection G1 as <-. rewrite H2 in G2. injection G2 as <-.
  rewrite H3 in G3. rewrite H4 in G4. by injection G3; injection G4.
Qed.

(** The run a batch number names, with the values the segmenter returns
    for it. *)
Lemma batch_run (key : list Z) (b : Z) (st en se ee : list Z) :
  Z.of_nat (length key) <= 2 ^ 63 ->
  _get_start_end_idx (where_key (Some key) 1) = Ok (st, en, se, ee) ->
  1 <= b <= Z.of_nat (length (run_starts (where_key (Some key) 1))) ->
  exists s e,
    se !! Z.to_nat (b - 1) = Some s /\ ee !! Z.to_nat (b - 1) = Some e
    /\ run_spans (where_key (Some key) 1) b s e
    /\ 0 <= s /\ s <= e /\ e < Z.of_nat (length key).
Proof.
  intros Hlen Hseg Hb.
  set (index := where_key (Some key) 1) in *.
  assert (Hne : index <> []).
  { intros Hnil. rewrite Hnil in Hseg. done. }
  assert (Hbound : Forall (fun p => 0 <= p < Z.of_nat (length key)) index)
    by apply where_key_bound.
  assert (Hpos : positions index).
  { eapply Forall_impl; [exact Hbound|]. simpl. intros; lia. }
  assert (Hsorted : StronglySorted Z.lt index) by apply where_key_sorted.
  destruct (segmenter_Ok index Hne) as (se' & ee' & Hseg' & Hlse & Hse & Hlee & Hee).
  rewrite Hseg in Hseg'. injection Hseg' as -> -> <- <-.
  assert (Hlre : length (run_ends index) = length (run_starts index)).
  { rewrite run_ends_eq. unfold run_starts. simpl.
    rewrite length_app, length_map. simpl. lia. }
  destruct (lookup_lt_is_Some_2 (run_starts index) (Z.to_nat (b - 1)))
    as [i_s His]; [lia|].
  destruct (lookup_lt_is_Some_2 (run_ends index) (Z.to_nat (b - 1)))
    as [i_e Hie]; [lia|].
  destruct (run_contiguous index _ i_s i_e Hne Hpos Hsorted His Hie)
    as (Hle & s & Hs & Hrun).
  set (e := s + (i_e - i_s)).
  assert (He : index !! Z.to_nat i_e = Some e).
  { specialize (Hrun (Z.to_nat (i_e - i_s)) ltac:(lia)).
    replace (i_s + Z.of_nat (Z.to_nat (i_e - i_s))) with i_e in Hrun by lia.
    rewrite Hrun. f_equal. unfold e. lia. }
  assert (Hspan : forall p, s <= p <= e
            <-> exists i, i_s <= i <= i_e /\ index !! Z.to_nat i = Some p).
  { intros p. split.
    - intros Hp. exists (i_s + (p - s)). split; [unfold e in Hp; lia|].
      specialize (Hrun (Z.to_nat (p - s)) ltac:(unfold e in Hp; lia)).
      replace (i_s + Z.of_nat (Z.to_nat (p - s))) with (i_s + (p - s)) in Hrun
        by lia.
      rewrite Hrun. f_equal. lia.
    - intros (i & Hi & Hip).
      specialize (Hrun (Z.to_nat (i - i_s)) ltac:(lia)).
      replace (i_s + Z.of_nat (Z.to_nat (i - i_s))) with i in Hrun by lia.
      rewrite Hrun in Hip. injection Hip as <-. unfold e. lia. }
  pose proof (proj1 (Forall_forall _ _) Hbound s
                (list_elem_of_lookup_2 _ _ _ Hs)) as Hsb.
  pose proof (proj1 (Forall_forall _ _) Hbound e
                (list_elem_of_lookup_2 _ _ _ He)) as Heb.
  simpl in Hsb, Heb.
  exists s, e. split_and!; try lia.
  - by rewrite (Hse _ _ His).
  - by rewrite (Hee _ _ Hie).
  - exists i_s, i_e. by split_and!.
Qed.

Lemma run_spans_flat (key : list Z) (b s e p : Z) :
  run_spans (where_key (Some key) 1) b s e -> s <= p <= e ->
  0 <= p < Z.of_nat (length key) /\ key !! Z.to_nat p = Some 1.
Proof.
  intros (i_s & i_e & _ & _ & _ & _ & Hspan) (i & _ & Hip)%Hspan.
  apply list_elem_of_lookup_2 in Hip.
  pose proof (proj1 (Forall_forall _ _) (where_key_bound key 1) _ Hip) as Hr.
  apply elem_of_where_key in Hip. simpl in *.
  destruct (0 <=? p); done.
Qed.

Section ConstructorMore.
Context {num : Type} `{Numeric num}.

Lemma with_image_key_id (v : View num) : with_image_key v (image_key v) = v.
Proof. by destruct v. Qed.

Lemma ignore_batch_inv (st en : list Z) (v v' : View num) (b : Z) :
  ignore_batch st en v b = Ok v' -> exists k, v' = with_image_key v k.
Proof.
  unfold ignore_batch.
  destruct (np_item st (b - 1)) as [s|]; [|done]. cbn [bind].
  destruct (np_item en (b - 1)) as [e|]; [|done]. cbn [bind].
  destruct (image_key v) as [labels|]; [|done].
  destruct (assign_slice labels s (e + 1) 3) as [labels'|]; [|done].
  cbn [bind]. intros [= <-]. by eexists.
Qed.

Lemma for_each_ignore_inv (st en bs : list Z) (v v' : View num) :
  for_each (ignore_batch st en) bs v = Ok v' -> exists k, v' = with_image_key v k.
Proof.
  revert v. induction bs as [|b bs IH]; intros v; simpl.
  - intros [= <-]. exists (image_key v). by rewrite with_image_key_id.
  - destruct (ignore_batch st en v b) as [v1|] eqn:Hb; simpl; [|done].
    apply ignore_batch_inv in Hb as [k ->].
    intros [k' ->]%IH. by exists k'.
Qed.

(** What the constructor returns is the base view with the logical shape
    and, possibly, another label array. *)
Lemma ImageKey_init_inv (d : DataObj num) (key : list Z) (proj : nat)
    (ignore : ignore_arg) (v : View num) :
  ImageKey_init d key proj ignore = Ok v ->
  exists idx k,
    get_index (base_init d proj (Some key)) 0 false = Ok idx
    /\ (proj < nd_ndim (do_data d))%nat
    /\ v = with_image_key
             (with_shape (base_init d proj (Some key))
                (<[proj := length idx]> (nd_shape (do_data d)))) k.
Proof.
  unfold ImageKey_init, _get_image_key_data_shape.
  destruct (get_index (base_init d proj (Some key)) 0 false) as [idx|] eqn:Hidx;
    simpl; [|done].
  unfold py_setitem. simpl.
  destruct (Nat.ltb_spec proj (length (nd_shape (do_data d)))) as [Hp|Hp];
    simpl; [|done].
  intros Hv. exists idx.
  destruct (ignore_truth ignore).
  - unfold __ignore_image_key_entries in Hv.
    destruct (get_index _ 1 false); simpl in Hv; [|done].
    destruct (_get_start_end_idx _) as [[[[st en] se] ee]|]; simpl in Hv; [|done].
    assert (exists k, v = with_image_key
              (with_shape (base_init d proj (Some key))
                 (<[proj := length idx]> (nd_shape (do_data d)))) k) as [k ->].
    { destruct ignore as [|b|bs]; [done| |].
      - exact (for_each_ignore_inv se ee [b] _ _ Hv).
      - exact (for_each_ignore_inv se ee bs _ _ Hv). }
    by exists k.
  - injection Hv as <-. exists (Some key). done.
Qed.

(** X5: a constructed [ImageKey] reports the shape of the data with the
    length of the projection axis replaced by the number of data frames
    that [get_index(0)] finds at construction; this is at most the number
    of frames labelled 0, and the projection axis is one of the axes of the
    data. *)
Theorem constructed_view_has_the_logical_shape
    (d : DataObj num) (key : list Z) (proj : nat) (ignore : ignore_arg)
    (v : View num) :
  ImageKey_init d key proj ignore = Ok v ->
  (proj < nd_ndim (do_data d))%nat
  /\ nDims v = nd_ndim (do_data d)
  /\ length (shape v) = nd_ndim (do_data d)
  /\ (forall j, j <> proj -> shape v !! j = nd_shape (do_data d) !! j)
  /\ exists idx,
       get_index (with_image_key v (Some key)) 0 false = Ok idx
       /\ shape v !! proj = Some (length idx)
       /\ (length idx <= length (where_key (Some key) 0))%nat.
Proof.
  intros (idx & k & Hidx & Hproj & ->)%ImageKey_init_inv. simpl.
  split_and!; try done.
  - by rewrite length_insert.
  - by rewrite length_insert.
  - intros j Hj. by rewrite list_lookup_insert_ne.
  - exists idx. split_and!.
    + exact Hidx.
    + by apply list_lookup_insert_eq.
    + destruct (get_index_inv (base_init d proj (Some key)) 0 false)
        as (idx' & Hidx' & _ & Hlen).
      rewrite Hidx in Hidx'. by injection Hidx' as <-.
Qed.

(** X6: a projection axis outside the axes of the data makes both
    constructors of a labelled view raise [IndexError]; [NoImageKey]
    without a label array does not look at it and takes the shape of the
    data. *)
Theorem constructor_checks_the_projection_axis
    (d : DataObj num) (key : list Z) (proj : nat) (ignore : ignore_arg) :
  (nd_ndim (do_data d) <= proj)%nat ->
  ImageKey_init d key proj ignore = Raise IndexError
  /\ NoImageKey_init d (Some key) proj = Raise IndexError
  /\ exists v, NoImageKey_init d None proj = Ok v
               /\ shape v = nd_shape (do_data d).
Proof.
  intros Hproj. unfold nd_ndim in Hproj.
  assert (Hshape : forall v : View num,
            data v = do_data d -> proj_dim v = proj ->
            _get_image_key_data_shape v = Raise IndexError).
  { intros v Hd Hp. unfold _get_image_key_data_shape.
    destruct (get_index_total v 0 false) as [idx ->]. simpl.
    unfold py_setitem. rewrite Hd, Hp.
    by destruct (Nat.ltb_spec proj (length (nd_shape (do_data d)))); [lia|]. }
  split_and!.
  - unfold ImageKey_init. by rewrite Hshape.
  - unfold NoImageKey_init. simpl. by rewrite Hshape.
  - eexists. split; reflexivity.
Qed.

Lemma get_data_needs_the_slice_list (v : View num) (key : Z) :
  dark_flat_slice_list v = None -> exists e, __get_data v key = Raise e.
Proof.
  intros Hnone. rewrite get_data_eq.
  destruct (get_index v key false) as [idx|]; simpl; [|by eexists].
  unfold frames_at.
  destruct (negb (proj_dim v <? nDims v)%nat); [by eexists|].
  destruct (negb (nDims v <=? nd_ndim (data v))%nat); [by eexists|].
  destruct (take_axis (proj_dim v) idx (data v)); simpl; [|by eexists].
  rewrite Hnone. by eexists.
Qed.

(** X7: a freshly constructed [ImageKey] has no cached slice list, so
    [dark()], [flat()] and the two means raise until [_set_dark_and_flat]
    has run. *)
Theorem fresh_view_cannot_serve_dark_and_flat
    (d : DataObj num) (key : list Z) (proj : nat) (ignore : ignore_arg)
    (v : View num) :
  ImageKey_init d key proj ignore = Ok v ->
  dark_flat_slice_list v = None
  /\ (exists e, ImageKey_dark v = Raise e)
  /\ (exists e, ImageKey_flat v = Raise e)
  /\ (exists e, ImageKey_dark_mean v = Raise e)
  /\ (exists e, ImageKey_flat_mean v = Raise e).
Proof.
  intros (idx & k & _ & _ & ->)%ImageKey_init_inv.
  set (v := with_image_key _ k).
  assert (Hnone : dark_flat_slice_list v = None) by reflexivity.
  assert (Hd : exists e, ImageKey_dark v = Raise e).
  { unfold ImageKey_dark, dark_image_key_data. simpl.
    destruct (get_data_needs_the_slice_list v 2 Hnone) as [e ->]. by eexists. }
  assert (Hf : exists e, ImageKey_flat v = Raise e).
  { unfold ImageKey_flat, flat_image_key_data. simpl.
    destruct (get_data_needs_the_slice_list v 1 Hnone) as [e ->]. by eexists. }
  split_and!; try done.
  - destruct Hd as [e He]. exists e. unfold ImageKey_dark_mean. by rewrite He.
  - destruct Hf as [e He]. exists e. unfold ImageKey_flat_mean. by rewrite He.
Qed.
End ConstructorMore.

Lemma constructed_view_has_the_logical_shape_witness :
  ImageKey_init dataset11 labels11 0 (IgnoreOne 2)
  = Ok (with_image_key view11 (Some [1; 0; 0; 0; 3; 2; 2; 1; 0; 0; 1]))
  /\ shape (with_image_key view11 (Some [1; 0; 0; 0; 3; 2; 2; 1; 0; 0; 1])) !! 1%nat
     = nd_shape (do_data dataset11) !! 1%nat.
Proof.
  assert (Hv : ImageKey_init dataset11 labels11 0 (IgnoreOne 2)
               = Ok (with_image_key view11
                       (Some [1; 0; 0; 0; 3; 2; 2; 1; 0; 0; 1])))
    by (vm_compute; reflexivity).
  split; [exact Hv|].
  destruct (constructed_view_has_the_logical_shape _ _ _ _ _ Hv)
    as (_ & _ & _ & Hother & _).
  exact (Hother 1%nat ltac:(discriminate)).
Defined.

Lemma constructor_checks_the_projection_axis_witness :
  (nd_ndim (do_data dataset11) <= 3)%nat
  /\ ImageKey_init dataset11 labels11 3 IgnoreNone = Raise IndexError.
Proof.
  assert (Hp : (nd_ndim (do_data dataset11) <= 3)%nat) by (vm_compute; lia).
  split; [exact Hp|].
  exact (proj1 (constructor_checks_the_projection_axis
                  dataset11 labels11 3 IgnoreNone Hp)).
Defined.

Lemma fresh_view_cannot_serve_dark_and_flat_witness :
  ImageKey_init dataset11 labels11 0 IgnoreNone = Ok view11
  /\ exists e, ImageKey_flat view11 = Raise e.
Proof.
  assert (Hv : ImageKey_init dataset11 labels11 0 IgnoreNone = Ok view11)
    by (vm_compute; reflexivity).
  split; [exact Hv|].
  exact (proj1 (proj2 (proj2 (fresh_view_cannot_serve_dark_and_flat
                                _ _ _ _ _ Hv)))).
Defined.

Section IgnoreMore.
Context {num : Type} `{Numeric num}.

(** The loop of [__ignore_image_key_entries], started on the labels [cur]. *)
Lemma ignore_loop (v0 : View num) (key st en se ee : list Z) (bs cur : list Z) :
  Z.of_nat (length key) <= 2 ^ 63 ->
  _get_start_end_idx (where_key (Some key) 1) = Ok (st, en, se, ee) ->
  Forall (fun b => 1 <= b
                   <= Z.of_nat (length (run_starts (where_key (Some key) 1))))
         bs ->
  length cur = length key ->
  exists out,
    for_each (ignore_batch se ee) bs (with_image_key v0 (Some cur))
    = Ok (with_image_key v0 (Some out))
    /\ length out = length key
    /\ (forall n : nat,
          in_ignored_run (where_key (Some key) 1) bs (Z.of_nat n)
          \/ cur !! n = Some 3 ->
          out !! n = Some 3)
    /\ (forall n : nat,
          ~ in_ignored_run (where_key (Some key) 1) bs (Z.of_nat n) ->
          out !! n = cur !! n).
Proof.
  intros Hlen Hseg Hbs. revert cur.
  induction Hbs as [|b bs Hb Hbs IH]; intros cur Hcur.
  - exists cur. split_and!; try done.
    intros n [(b & s & e & Hin & _)|Hn]; [by apply elem_of_nil in Hin|done].
  - destruct (batch_run key b st en se ee Hlen Hseg Hb)
      as (s & e & Hs & He & Hspan & Hs0 & Hse & Hek).
    set (block := map (fun k => s + Z.of_nat k * 1)
                      (seq 0 (Z.to_nat (e + 1 - s)))).
    set (cur' := foldr (fun p l => <[Z.to_nat p := 3]> l) cur block).
    assert (Hcur' : length cur' = length key)
      by (unfold cur'; by rewrite assign_length).
    destruct (IH cur' Hcur') as (out & Hout & Hlout & Hin & Hnot).
    exists out.
    assert (Hstep : ignore_batch se ee (with_image_key v0 (Some cur)) b
                    = Ok (with_image_key v0 (Some cur'))).
    { unfold ignore_batch.
      rewrite (np_item_Ok se (b - 1) s) by (lia || done). cbn [bind].
      rewrite (np_item_Ok ee (b - 1) e) by (lia || done). cbn [bind].
      simpl image_key. unfold assign_slice.
      rewrite slice_positions_block by lia. done. }
    assert (Hblock : forall n : nat, s <= Z.of_nat n <= e ->
              cur' !! n = Some 3).
    { intros n Hn. rewrite <- (Nat2Z.id n).
      apply assign_lookup_in; [by apply elem_of_block|lia]. }
    assert (Hrest : forall n : nat, ~ (s <= Z.of_nat n <= e) ->
              cur' !! n = cur !! n).
    { intros n Hn. apply assign_lookup_out.
      intros p Hp%elem_of_block Heq. subst n. lia. }
    split_and!; try done.
    + simpl. rewrite Hstep. simpl. exact Hout.
    + intros n Hn. apply Hin.
      destruct (decide (s <= Z.of_nat n <= e)) as [Hblk|Hblk];
        [right; by apply Hblock|].
      destruct Hn as [(b' & s' & e' & Hb' & Hspan' & Hn)|Hn].
      * apply elem_of_cons in Hb' as [->|Hb'].
        -- destruct (run_spans_unique _ _ _ _ _ _ Hspan Hspan') as [<- <-].
           done.
        -- left. by exists b', s', e'.
      * right. by rewrite Hrest.
    + intros n Hn. rewrite Hnot, Hrest; [done| |].
      * intros Hblk. apply Hn. exists b, s, e. split; [left|split; done].
      * intros (b' & s' & e' & Hb' & Hrest'). apply Hn.
        exists b', s', e'. split; [by right|done].
Qed.

(** X8: constructing an [ImageKey] with a list of ignore batches, each
    counted from 1 over the runs of flat frames as they are before any
    relabelling, sets the label of every frame of every named run to 3 and
    leaves every other label, and every other part of the view, as it is
    without [ignore]; naming a run twice, or in another order, changes
    nothing. *)
Theorem ignored_batches_are_relabelled
    (d : DataObj num) (key : list Z) (proj : nat) (bs : list Z) :
  (proj < nd_ndim (do_data d))%nat ->
  Z.of_nat (length key) <= 2 ^ 63 ->
  where_key (Some key) 1 <> [] ->
  bs <> [] ->
  Forall (fun b => 1 <= b
                   <= Z.of_nat (length (run_starts (where_key (Some key) 1))))
         bs ->
  exists v0 labels',
    ImageKey_init d key proj IgnoreNone = Ok v0
    /\ ImageKey_init d key proj (IgnoreList bs)
       = Ok (with_image_key v0 (Some labels'))
    /\ length labels' = length key
    /\ (forall p, in_ignored_run (where_key (Some key) 1) bs p ->
          key !! Z.to_nat p = Some 1 /\ labels' !! Z.to_nat p = Some 3)
    /\ (forall n : nat,
          ~ in_ignored_run (where_key (Some key) 1) bs (Z.of_nat n) ->
          labels' !! n = key !! n).
Proof.
  intros Hproj Hlen Hne Hnil Hbs.
  destruct (ImageKey_init_eq d key proj Hproj) as (v0 & Hk0 & Hf0 & Hinit).
  destruct (segmenter_Ok _ Hne) as (se & ee & Hseg & _).
  destruct (ignore_loop v0 key _ _ se ee bs key Hlen Hseg Hbs eq_refl)
    as (out & Hout & Hlout & Hin & Hnot).
  exists v0, out. split_and!; [by rewrite Hinit| |done| |done].
  - rewrite Hinit.
    destruct bs as [|b bs]; [done|]. cbn [ignore_truth length Nat.eqb negb].
    unfold __ignore_image_key_entries.
    rewrite get_index_calibration by done. rewrite Hk0. cbn [bind].
    rewrite Hseg. cbn [bind].
    rewrite <- Hout. f_equal. rewrite <- Hk0. by rewrite with_image_key_id.
  - intros p (b & s & e & Hb & Hspan & Hp).
    destruct (run_spans_flat key b s e p Hspan Hp) as [Hrange Hflat].
    split; [done|].
    apply Hin. left. exists b, s, e.
    rewrite Z2Nat.id by lia. done.
Qed.

(** X9: with [ignore] given, the constructor raises [IndexError] when
    there is no flat frame at all, and when a batch number lies beyond the
    number of runs of flat frames in either direction. *)
Theorem ignore_batch_out_of_range
    (d : DataObj num) (key : list Z) (proj : nat) (b : Z) :
  (proj < nd_ndim (do_data d))%nat ->
  b <> 0 ->
  where_key (Some key) 1 = []
  \/ ~ (- Z.of_nat (length (run_starts (where_key (Some key) 1))) <= b - 1
        < Z.of_nat (length (run_starts (where_key (Some key) 1)))) ->
  ImageKey_init d key proj (IgnoreOne b) = Raise IndexError
  /\ ImageKey_init d key proj (IgnoreList [b]) = Raise IndexError.
Proof.
  intros Hproj Hb Hbad.
  destruct (ImageKey_init_eq d key proj Hproj) as (v0 & Hk0 & Hf0 & Hinit).
  rewrite !Hinit. simpl.
  assert (Hb0 : (b =? 0) = false) by (by apply Z.eqb_neq). rewrite Hb0.
  cbn [negb]. unfold __ignore_image_key_entries.
  rewrite get_index_calibration by done. rewrite Hk0. cbn [bind].
  destruct (decide (where_key (Some key) 1 = [])) as [Hnil|Hne].
  { rewrite Hnil. done. }
  destruct Hbad as [Hnil|Hrange]; [done|].
  destruct (segmenter_Ok _ Hne) as (se & ee & Hseg & Hlse & _).
  rewrite Hseg. cbn [bind for_each]. unfold ignore_batch.
  rewrite (np_item_IndexError se (b - 1)) by (by rewrite Hlse). done.
Qed.

(** X10: batch numbers are read as Python indices, so they wrap: with [n]
    runs of flat frames, the batch [b - n] in a list names the same run as
    the batch [b]; the batch 0 names the last run. *)
Theorem ignore_batch_numbers_wrap
    (d : DataObj num) (key : list Z) (proj : nat) (b : Z) :
  1 <= b <= Z.of_nat (length (run_starts (where_key (Some key) 1))) ->
  ImageKey_init d key proj
    (IgnoreList [b - Z.of_nat (length (run_starts (where_key (Some key) 1)))])
  = ImageKey_init d key proj (IgnoreList [b]).
Proof.
  intros Hb. unfold ImageKey_init.
  destruct (_get_image_key_data_shape _) as [sh|]; [|done].
  cbn [bind ignore_truth length Nat.eqb negb].
  unfold __ignore_image_key_entries.
  rewrite get_index_calibration by done. cbn [bind].
  simpl image_key.
  destruct (decide (where_key (Some key) 1 = [])) as [Hnil|Hne].
  { rewrite Hnil. done. }
  destruct (segmenter_Ok _ Hne) as (se & ee & Hseg & Hlse & _ & Hlee & _).
  assert (Hlre : length (run_ends (where_key (Some key) 1))
                 = length (run_starts (where_key (Some key) 1))).
  { rewrite run_ends_eq. unfold run_starts. simpl.
    rewrite length_app, length_map. simpl. lia. }
  rewrite Hseg. cbn [bind for_each]. unfold ignore_batch.
  set (n := Z.of_nat (length (run_starts (where_key (Some key) 1)))) in *.
  rewrite (np_item_wrap se (b - n - 1)) by (rewrite Hlse; lia).
  rewrite (np_item_wrap ee (b - n - 1)) by (rewrite Hlee, Hlre; lia).
  rewrite Hlse, Hlee, Hlre. fold n.
  by replace (b - n - 1 + n) with (b - 1) by lia.
Qed.
End IgnoreMore.

Lemma ignored_batches_are_relabelled_witness :
  exists v0 labels',
    ImageKey_init dataset11 labels11 0 IgnoreNone = Ok v0
    /\ ImageKey_init dataset11 labels11 0 (IgnoreList [1; 3])
       = Ok (with_image_key v0 (Some labels'))
    /\ length labels' = length labels11.
Proof.
  assert (H1 : (0 < nd_ndim (do_data dataset11))%nat) by (vm_compute; lia).
  assert (H2 : Z.of_nat (length labels11) <= 2 ^ 63)
    by (vm_compute; discriminate).
  assert (H3 : where_key (Some labels11) 1 <> []) by (vm_compute; discriminate).
  assert (H4 : [1; 3] <> []) by discriminate.
  assert (H5 : Forall (fun b => 1 <= b
             <= Z.of_nat (length (run_starts (where_key (Some labels11) 1))))
             [1; 3]) by (repeat constructor; vm_compute; discriminate).
  destruct (ignored_batches_are_relabelled dataset11 labels11 0 [1; 3]
              H1 H2 H3 H4 H5) as (v0 & labels' & Hv0 & Hv & Hl & _).
  by exists v0, labels'.
Defined.

Lemma ignore_batch_out_of_range_witness :
  ImageKey_init dataset11 labels11 0 (IgnoreOne 5) = Raise IndexError.
Proof.
  assert (H1 : (0 < nd_ndim (do_data dataset11))%nat) by (vm_compute; lia).
  assert (H2 : 5 <> 0) by discriminate.
  assert (H3 : where_key (Some labels11) 1 = []
    \/ ~ (- Z.of_nat (length (run_starts (where_key (Some labels11) 1)))
          <= 5 - 1
          < Z.of_nat (length (run_starts (where_key (Some labels11) 1))))).
  { right. vm_compute. intros [_ Hlt]. discriminate Hlt. }
  exact (proj1 (ignore_batch_out_of_range dataset11 labels11 0 5 H1 H2 H3)).
Defined.

Lemma ignore_batch_numbers_wrap_witness :
  ImageKey_init dataset11 labels11 0 (IgnoreList [0])
  = ImageKey_init dataset11 labels11 0 (IgnoreList [4]).
Proof.
  assert (H1 : 1 <= 4
               <= Z.of_nat (length (run_starts (where_key (Some labels11) 1))))
    by (vm_compute; split; discriminate).
  exact (ignore_batch_numbers_wrap dataset11 labels11 0 4 H1).
Defined.

Example ignore_zero_in_a_list_is_the_last_run :
  (let* v := ImageKey_init dataset11 labels11 0 (IgnoreList [0]) in
   Ok (image_key v))
  = Ok (Some [1; 0; 0; 0; 1; 2; 2; 1; 0; 0; 3]).
Proof. by vm_compute. Qed.

(** ** The External-Reference accessors and the label array *)

Section Borrow.
Context {num : Type} `{Numeric num}.

(** X11: [NoImageKey.dark()] and [NoImageKey.flat()] may put the label
    array of the reference in place of the view's own while they compute;
    when they return a value, the view is exactly as it was before the
    call, provided its label array was the original one. *)
Theorem external_accessors_restore_the_view (v : View num) :
  image_key v = orig_image_key v ->
  (forall r, snd (NoImageKey_dark v) = Ok r -> fst (NoImageKey_dark v) = v)
  /\ (forall r, snd (NoImageKey_flat v) = Ok r -> fst (NoImageKey_flat v) = v).
Proof.
  intros Horig.
  assert (Hback : forall labels,
            with_image_key (with_image_key v (Some labels))
              (orig_image_key (with_image_key v (Some labels))) = v).
  { intros labels. simpl. rewrite <- Horig. by destruct v. }
  split; intros r.
  - unfold NoImageKey_dark, NoImageKey_dark_computed.
    destruct (dark_updated v) as [|frame];
      [|destruct (nd_truth frame) as [[|]|]; [done| |done]];
      (destruct (dark_image_key v) as [|labels]; [done|];
       destruct (dark_image_key_data _); [|done]; intros _; apply Hback).
  - unfold NoImageKey_flat, NoImageKey_flat_computed.
    destruct (flat_updated v) as [|frame];
      [|destruct (nd_truth frame) as [[|]|]; [done| |done]];
      (destruct (flat_image_key v) as [|labels]; [done|];
       destruct (flat_image_key_data _); [|done]; intros _; apply Hback).
Qed.

(** X12: there is no cleanup on failure: when the computation over a
    labelled reference raises, the view is left with the label array of
    the reference in place of its own, and is otherwise unchanged. *)
Theorem external_accessor_failure_keeps_the_borrowed_labels
    (v : View num) (labels : list Z) (e : exn) :
  dark_updated v = NotUpdated -> dark_image_key v = Key labels ->
  snd (NoImageKey_dark v) = Raise e ->
  fst (NoImageKey_dark v) = with_image_key v (Some labels).
Proof.
  intros Hu Hk. unfold NoImageKey_dark, NoImageKey_dark_computed.
  rewrite Hu, Hk. by destruct (dark_image_key_data _).
Qed.
End Borrow.

Lemma external_accessors_restore_the_view_witness :
  image_key view_ext_keyed_ready = orig_image_key view_ext_keyed_ready
  /\ dark_image_key view_ext_keyed_ready = Key [2; 0; 0]
  /\ snd (NoImageKey_dark view_ext_keyed_ready)
     = Ok (NdArray [1; 1; 1]%nat [10%Q])
  /\ fst (NoImageKey_dark view_ext_keyed_ready) = view_ext_keyed_ready.
Proof.
  assert (Ho : image_key view_ext_keyed_ready
               = orig_image_key view_ext_keyed_ready) by reflexivity.
  assert (Hr : snd (NoImageKey_dark view_ext_keyed_ready)
               = Ok (NdArray [1; 1; 1]%nat [10%Q])) by (vm_compute; reflexivity).
  split; [exact Ho|]. split; [reflexivity|]. split; [exact Hr|].
  exact (proj1 (external_accessors_restore_the_view view_ext_keyed_ready Ho)
           _ Hr).
Defined.

Lemma external_accessor_failure_keeps_the_borrowed_labels_witness :
  snd (NoImageKey_dark view_ext_keyed) = Raise TypeError
  /\ image_key (fst (NoImageKey_dark view_ext_keyed)) = Some [2; 0; 0]
  /\ orig_image_key view_ext_keyed = None.
Proof.
  assert (Hu : dark_updated view_ext_keyed = NotUpdated) by reflexivity.
  assert (Hk : dark_image_key view_ext_keyed = Key [2; 0; 0]) by reflexivity.
  assert (He : snd (NoImageKey_dark view_ext_keyed) = Raise TypeError)
    by (vm_compute; reflexivity).
  split; [exact He|]. split; [|reflexivity].
  exact (f_equal image_key
           (external_accessor_failure_keeps_the_borrowed_labels
              view_ext_keyed [2; 0; 0] TypeError Hu Hk He)).
Defined.

(** ** More on the slice-list reducer and the setup *)

Lemma filter_index_length {A : Type} (dims : list nat) (i : nat) (l : list A) :
  length (filter_index (fun j => bool_decide (j ∈ dims)) i l)
  = length (filter (fun j => j ∈ dims) (seq i (length l))).
Proof.
  revert i. induction l as [|x l IH]; intros i; simpl; [done|].
  rewrite filter_cons. destruct (decide (i ∈ dims)) as [Hi|Hi].
  - rewrite bool_decide_eq_true_2 by done. simpl. by rewrite IH.
  - rewrite bool_decide_eq_false_2 by done. by rewrite IH.
Qed.

Lemma keep_dims_length {A : Type} (dims : list nat) (l : list A) :
  (length (keep_dims dims l) <= length dims)%nat
  /\ (NoDup dims -> Forall (fun d => (d < length l)%nat) dims ->
      length (keep_dims dims l) = length dims).
Proof.
  unfold keep_dims. rewrite filter_index_length.
  assert (Hnd : NoDup (filter (fun j => j ∈ dims) (seq 0 (length l)))).
  { apply NoDup_filter, NoDup_seq. }
  split.
  - apply submseteq_length, NoDup_submseteq; [done|].
    by intros x [Hx _]%list_elem_of_filter.
  - intros Hdims Hin. apply Permutation_length, NoDup_Permutation; [done..|].
    intros x. rewrite list_elem_of_filter, elem_of_seq. split; [tauto|].
    intros Hx. split; [done|].
    pose proof (proj1 (Forall_forall _ _) Hin x Hx). simpl in *. lia.
Qed.

Lemma elem_of_filter_index {A : Type} (P : nat -> bool) (i j : nat)
    (l : list A) (x : A) :
  l !! j = Some x -> P (i + j)%nat = true -> x ∈ filter_index P i l.
Proof.
  revert i j. induction l as [|y l IH]; intros i j; [done|].
  destruct j as [|j]; simpl.
  - intros [= ->]. rewrite Nat.add_0_r. intros ->. left.
  - intros Hx HP. replace (i + S j)%nat with (S i + j)%nat in HP by lia.
    destruct (P i); [right|]; by eapply IH.
Qed.

Section ReducerMore.
Context {num : Type} `{Numeric num}.

(** When the preview gives a list and the rotation axis lies inside it,
    the reducer returns. *)
Lemma get_dark_flat_slice_list_Ok (v : View num) (slices : list pyslice) :
  preview_slice_list (data_obj v) = Ok slices ->
  (find_axis_label_dimension (data_obj v) "rotation_angle" < length slices)%nat ->
  get_dark_flat_slice_list v
  = Ok (if (3 <? length slices)%nat
        then keep_dims [find_axis_label_dimension (data_obj v) "rotation_angle";
                        find_axis_label_dimension (data_obj v) "detector_x";
                        find_axis_label_dimension (data_obj v) "detector_y"]
               (<[find_axis_label_dimension (data_obj v) "rotation_angle"
                  := slice_all]> slices)
        else <[find_axis_label_dimension (data_obj v) "rotation_angle"
               := slice_all]> slices).
Proof.
  intros Hp Hrot.
  set (rot := find_axis_label_dimension (data_obj v) "rotation_angle") in *.
  set (detX := find_axis_label_dimension (data_obj v) "detector_x").
  set (detY := find_axis_label_dimension (data_obj v) "detector_y").
  unfold get_dark_flat_slice_list. rewrite Hp. cbn [bind].
  unfold py_setitem. fold rot detX detY.
  destruct (Nat.ltb_spec rot (length slices)) as [_|]; [|lia]. cbn [bind].
  rewrite length_insert.
  destruct (3 <? length slices)%nat; [|done].
  destruct (removed_dims (length slices) [rot; detX; detY]) as [Hs Hin].
  rewrite for_each_py_del; [|exact Hs|].
  2:{ apply Forall_forall. intros d [Hd _]%Hin. by rewrite length_insert. }
  f_equal. apply filter_index_ext. intros j Hj. rewrite length_insert in Hj.
  apply bool_decide_ext. rewrite Hin. split.
  - intros Hn. destruct (decide (j ∈ [rot; detX; detY])); [done|].
    exfalso. apply Hn. split; [lia|done].
  - intros Hj' [_ Hn]. done.
Qed.

Lemma get_dark_flat_slice_list_IndexError (v : View num) (slices : list pyslice) :
  preview_slice_list (data_obj v) = Ok slices ->
  (length slices
   <= find_axis_label_dimension (data_obj v) "rotation_angle")%nat ->
  get_dark_flat_slice_list v = Raise IndexError.
Proof.
  intros Hp Hge. unfold get_dark_flat_slice_list. rewrite Hp. cbn [bind].
  unfold py_setitem.
  by destruct (Nat.ltb_spec
                 (find_axis_label_dimension (data_obj v) "rotation_angle")
                 (length slices)); [lia|].
Qed.

(** X13: the reducer raises in two cases only: the exception of the
    preview lookup, which it does not catch, and [IndexError] when the
    rotation-angle dimension lies outside the preview slice list.  The
    setup [_set_dark_and_flat] passes either on and changes nothing. *)
Theorem slice_list_reducer_errors (v : View num) (e : exn) :
  (get_dark_flat_slice_list v = Raise e
   <-> preview_slice_list (data_obj v) = Raise e
       \/ exists slices,
            preview_slice_list (data_obj v) = Ok slices
            /\ (length slices
                <= find_axis_label_dimension (data_obj v) "rotation_angle")%nat
            /\ e = IndexError)
  /\ (get_dark_flat_slice_list v = Raise e ->
      ImageKey_set_dark_and_flat v = (v, Raise e)).
Proof.
  split.
  - destruct (preview_slice_list (data_obj v)) as [slices|e'] eqn:Hp.
    + destruct (Nat.ltb_spec
                  (find_axis_label_dimension (data_obj v) "rotation_angle")
                  (length slices)) as [Hlt|Hge].
      * rewrite (get_dark_flat_slice_list_Ok v slices Hp Hlt). split; [done|].
        intros [?|(sl & [= <-] & ? & _)]; [done|lia].
      * rewrite (get_dark_flat_slice_list_IndexError v slices Hp Hge). split.
        -- intros [= <-]. right. by exists slices.
        -- intros [?|(sl & _ & _ & ->)]; done.
    + assert (Hr : get_dark_flat_slice_list v = Raise e').
      { unfold get_dark_flat_slice_list. by rewrite Hp. }
      rewrite Hr. split.
      * intros [= <-]. by left.
      * intros [[= <-]|(sl & ? & _)]; done.
  - intros Hr. unfold ImageKey_set_dark_and_flat. by rewrite Hr.
Qed.

(** X14: whenever the reducer returns, its list holds a select-all entry
    (the one of the rotation axis); a preview list of at most three entries
    keeps its length, a longer one is cut down to at most three entries,
    and to exactly three when the rotation, detector-x and detector-y
    dimensions are distinct and inside the list. *)
Theorem reduced_slice_list_length
    (v : View num) (slices reduced : list pyslice) :
  preview_slice_list (data_obj v) = Ok slices ->
  get_dark_flat_slice_list v = Ok reduced ->
  let rot := find_axis_label_dimension (data_obj v) "rotation_angle" in
  let detX := find_axis_label_dimension (data_obj v) "detector_x" in
  let detY := find_axis_label_dimension (data_obj v) "detector_y" in
  slice_all ∈ reduced
  /\ ((length slices <= 3)%nat -> length reduced = length slices)
  /\ ((3 < length slices)%nat ->
      (length reduced <= 3)%nat
      /\ (NoDup [rot; detX; detY] ->
          (detX < length slices)%nat -> (detY < length slices)%nat ->
          length reduced = 3%nat)).
Proof.
  intros Hp Hr rot detX detY.
  assert (Hrot : (rot < length slices)%nat).
  { destruct (Nat.ltb_spec rot (length slices)) as [|Hge]; [done|].
    rewrite (get_dark_flat_slice_list_IndexError v slices Hp Hge) in Hr.
    done. }
  rewrite (get_dark_flat_slice_list_Ok v slices Hp Hrot) in Hr.
  fold rot detX detY in Hr.
  assert (Hat : <[rot := slice_all]> slices !! rot = Some slice_all)
    by (by apply list_lookup_insert_eq).
  destruct (Nat.ltb_spec 3 (length slices)) as [Hlong|Hshort];
    injection Hr as <-.
  - split_and!.
    + eapply (elem_of_filter_index _ 0 rot); [exact Hat|].
      apply bool_decide_eq_true. simpl. left.
    + lia.
    + intros _.
      destruct (keep_dims_length [rot; detX; detY]
                  (<[rot := slice_all]> slices)) as [Hle Heq].
      split; [exact Hle|]. intros Hnd HX HY. apply Heq; [done|].
      rewrite length_insert. by repeat constructor.
  - split_and!.
    + by eapply list_elem_of_lookup_2.
    + intros _. by rewrite length_insert.
    + lia.
Qed.
End ReducerMore.

Lemma reduced_slice_list_length_witness :
  preview_slice_list (data_obj view5) = Ok preview5
  /\ get_dark_flat_slice_list view5
     = Ok [slice_all; Slice (Some 0) (Some 3) (Some 1);
           Slice (Some 0) (Some 4) (Some 1)]
  /\ slice_all ∈ [slice_all; Slice (Some 0) (Some 3) (Some 1);
                  Slice (Some 0) (Some 4) (Some 1)].
Proof.
  assert (Hp : preview_slice_list (data_obj view5) = Ok preview5) by reflexivity.
  assert (Hr : get_dark_flat_slice_list view5
               = Ok [slice_all; Slice (Some 0) (Some 3) (Some 1);
                     Slice (Some 0) (Some 4) (Some 1)])
    by (vm_compute; reflexivity).
  split; [exact Hp|]. split; [exact Hr|].
  exact (proj1 (reduced_slice_list_length view5 preview5 _ Hp Hr)).
Defined.

Section SetupMore.
Context {num : Type} `{Numeric num}.

Lemma publish_mean_eq (name : string) (label : Z)
    (mean : View num -> result (ndarray num)) (v : View num) :
  label <> 0 ->
  publish_mean name label mean v
  = match where_key (image_key v) label with
    | [] => (v, Ok tt)
    | _ :: _ =>
        match mean v with
        | Ok m => (with_data_obj v (set_meta_data (data_obj v) name m), Ok tt)
        | Raise e => (v, Raise e)
        end
    end.
Proof.
  intros Hl. unfold publish_mean. rewrite get_index_calibration by done.
  by destruct (where_key (image_key v) label).
Qed.

(** X15: when [ImageKey._set_dark_and_flat] returns, the reduced slice
    list is cached and nothing else of the view has changed but the
    metadata store; for a label that has no frame the store keeps what it
    held under that key, and for a label that has frames it holds what
    [dark_mean()] (resp. [flat_mean()]) returns on the view afterwards. *)
Theorem setup_caches_the_slice_list_and_publishes_the_means
    (v v' : View num) :
  ImageKey_set_dark_and_flat v = (v', Ok tt) ->
  exists reduced store,
    get_dark_flat_slice_list v = Ok reduced
    /\ v' = with_data_obj (with_dark_flat_slice_list v (Some reduced))
              (mkDataObj (do_data (data_obj v))
                 (preview_slice_list (data_obj v))
                 (find_axis_label_dimension (data_obj v)) store)
    /\ (where_key (image_key v) 2 = [] ->
        store !! "dark" = meta_data (data_obj v) !! "dark")
    /\ (where_key (image_key v) 2 <> [] ->
        exists m, ImageKey_dark_mean v' = Ok m /\ store !! "dark" = Some m)
    /\ (where_key (image_key v) 1 = [] ->
        store !! "flat" = meta_data (data_obj v) !! "flat")
    /\ (where_key (image_key v) 1 <> [] ->
        exists m, ImageKey_flat_mean v' = Ok m /\ store !! "flat" = Some m).
Proof.
  unfold ImageKey_set_dark_and_flat.
  destruct (get_dark_flat_slice_list v) as [reduced|]; [|done].
  set (v1 := with_dark_flat_slice_list v (Some reduced)).
  rewrite (publish_mean_eq "dark" 2 _ v1) by done.
  change (image_key v1) with (image_key v).
  destruct (where_key (image_key v) 2) as [|p2 idx2] eqn:H2.
  - (* no dark frame *)
    rewrite (publish_mean_eq "flat" 1 _ v1) by done.
    change (image_key v1) with (image_key v).
    destruct (where_key (image_key v) 1) as [|p1 idx1] eqn:H1.
    + intros [= <-]. exists reduced, (meta_data (data_obj v)).
      split_and!; try done. unfold v1. by destruct v as [[]].
    + destruct (ImageKey_flat_mean v1) as [mf|] eqn:Hmf; [|done].
      intros [= <-]. exists reduced, (<["flat" := mf]> (meta_data (data_obj v))).
      split_and!; try done.
      * intros _. by rewrite lookup_insert_ne.
      * intros _. exists mf. split; [exact Hmf|]. by rewrite lookup_insert_eq.
  - (* some dark frame *)
    destruct (ImageKey_dark_mean v1) as [md|] eqn:Hmd; [|done].
    set (v2 := with_data_obj v1 (set_meta_data (data_obj v1) "dark" md)).
    rewrite (publish_mean_eq "flat" 1 _ v2) by done.
    change (image_key v2) with (image_key v).
    destruct (where_key (image_key v) 1) as [|p1 idx1] eqn:H1.
    + intros [= <-]. exists reduced, (<["dark" := md]> (meta_data (data_obj v))).
      split_and!; try done.
      * intros _. exists md. split; [exact Hmd|]. by rewrite lookup_insert_eq.
      * intros _. by rewrite lookup_insert_ne.
    + destruct (ImageKey_flat_mean v2) as [mf|] eqn:Hmf; [|done].
      intros [= <-].
      exists reduced,
        (<["flat" := mf]> (<["dark" := md]> (meta_data (data_obj v)))).
      split_and!; try done.
      * intros _. exists md. split; [exact Hmd|].
        rewrite lookup_insert_ne by done. by rewrite lookup_insert_eq.
      * intros _. exists mf. split; [exact Hmf|].
        by rewrite lookup_insert_eq.
Qed.

(** X16: an override whose truth value is true is returned as it is
    whatever scale factor is set afterwards, and what [update_flat] (resp.
    [update_dark]) has written to the metadata store is what [flat_mean()]
    (resp. [dark_mean()]) returns from then on. *)
Theorem override_bypasses_the_scale_factor
    (v : View num) (frame m : ndarray num) (s : num) :
  nd_truth frame = Ok true -> _calc_mean v frame = Ok m ->
  ImageKey_flat (set_flat_scale (fst (update_flat v frame)) s) = Ok frame
  /\ ImageKey_flat_mean (set_flat_scale (fst (update_flat v frame)) s) = Ok m
  /\ meta_data (data_obj (fst (update_flat v frame))) !! "flat" = Some m
  /\ ImageKey_dark (set_dark_scale (fst (update_dark v frame)) s) = Ok frame
  /\ ImageKey_dark_mean (set_dark_scale (fst (update_dark v frame)) s) = Ok m
  /\ meta_data (data_obj (fst (update_dark v frame))) !! "dark" = Some m.
Proof.
  intros Ht Hm.
  assert (Hd : _calc_mean (with_dscale (with_dark_updated v (Updated frame)) num_one)
                 frame = Ok m) by exact Hm.
  assert (Hf : _calc_mean (with_fscale (with_flat_updated v (Updated frame)) num_one)
                 frame = Ok m) by exact Hm.
  unfold update_dark, update_flat. rewrite Hd, Hf.
  unfold ImageKey_flat_mean, ImageKey_dark_mean, ImageKey_flat, ImageKey_dark.
  cbn [fst flat_updated dark_updated set_flat_scale set_dark_scale
       with_fscale with_dscale with_data_obj with_flat_updated
       with_dark_updated].
  rewrite Ht. cbn [bind].
  split_and!.
  - done.
  - exact Hm.
  - simpl. by rewrite lookup_insert_eq.
  - done.
  - exact Hm.
  - simpl. by rewrite lookup_insert_eq.
Qed.
End SetupMore.

Lemma setup_caches_the_slice_list_and_publishes_the_means_witness :
  ImageKey_set_dark_and_flat view11 = (view11_ready, Ok tt)
  /\ exists reduced, get_dark_flat_slice_list view11 = Ok reduced.
Proof.
  assert (Hs : ImageKey_set_dark_and_flat view11 = (view11_ready, Ok tt))
    by (vm_compute; reflexivity).
  split; [exact Hs|].
  destruct (setup_caches_the_slice_list_and_publishes_the_means
              view11 view11_ready Hs) as (reduced & store & Hr & _).
  by exists reduced.
Defined.

Lemma override_bypasses_the_scale_factor_witness :
  (nd_truth frame5 = Ok true /\ _calc_mean view11_ready frame5 = Ok frame5)
  /\ ImageKey_flat
       (set_flat_scale (fst (update_flat view11_ready frame5)) (2 # 1)%Q)
     = Ok frame5.
Proof.
  assert (Ht : nd_truth frame5 = Ok true) by reflexivity.
  assert (Hm : _calc_mean view11_ready frame5 = Ok frame5) by reflexivity.
  split; [exact (conj Ht Hm)|].
  exact (proj1 (override_bypasses_the_scale_factor
                  view11_ready frame5 frame5 (2 # 1)%Q Ht Hm)).
Defined.

(** ** Logical indexing *)

Lemma np_item_Ok_inv {A : Type} (a : list A) (i : Z) (x : A) :
  0 <= i -> np_item a i = Ok x -> a !! Z.to_nat i = Some x.
Proof.
  intros Hi. unfold np_item.
  destruct ((- Z.of_nat (length a) <=? i) && (i <? Z.of_nat (length a)));
    [|done].
  assert (Hi' : (i <? 0) = false) by (apply Z.ltb_ge; lia). rewrite Hi'.
  destruct (a !! Z.to_nat i); [|done]. by intros [= <-].
Qed.

Lemma np_slice_all {A : Type} (a : list A) : np_slice a slice_all = Ok a.
Proof.
  destruct (np_slice_Ok a slice_all) as (pos & vals & Hpos & Hvals & Hl & _);
    [done|].
  rewrite Hvals. f_equal.
  assert (Hp : pos = map (fun k => 0 + Z.of_nat k * 1) (seq 0 (length a))).
  { unfold slice_positions, slice_indices, py_range in Hpos. simpl in Hpos.
    injection Hpos as <-. rewrite Z.div_1_r. do 2 f_equal. lia. }
  destruct (slice_positions_in_range _ _ _ Hpos) as [Hrange _].
  destruct (np_take_Ok a pos Hrange) as (vals' & Hvals' & Hl' & Hget).
  unfold np_slice in Hvals. rewrite Hpos in Hvals. simpl in Hvals.
  rewrite Hvals in Hvals'. injection Hvals' as <-.
  apply list_eq. intros j.
  destruct (decide (j < length a)%nat) as [Hj|Hj].
  - rewrite (Hget j (Z.of_nat j)); [by rewrite Nat2Z.id|].
    rewrite Hp, map_fmap, list_lookup_fmap, lookup_seq_lt by done.
    simpl. f_equal. lia.
  - rewrite !lookup_ge_None_2; [done|lia|].
    rewrite Hl', Hp, length_map, length_seq. lia.
Qed.

(** The pieces of an array *)

Lemma mapM_Ok_inv {A B : Type} (f : A -> result B) (l : list A) (ys : list B) :
  mapM f l = Ok ys -> Forall2 (fun x y => f x = Ok y) l ys.
Proof.
  revert ys. induction l as [|x l IH]; intros ys; simpl.
  - intros [= <-]. constructor.
  - destruct (f x) as [y|] eqn:Hy; simpl; [|done].
    destruct (mapM f l) as [ys'|]; simpl; [|done].
    intros [= <-]. constructor; [done|by apply IH].
Qed.

Lemma concat_chunks {A : Type} (size count : nat) (l : list A) :
  concat (chunks size count l) = take (count * size) l.
Proof.
  revert l. induction count as [|count IH]; intros l; simpl; [done|].
  by rewrite IH, take_take_drop.
Qed.

Lemma length_chunks {A : Type} (size count : nat) (l : list A) :
  length (chunks size count l) = count.
Proof.
  revert l. induction count as [|count IH]; intros l; simpl; [done|].
  by rewrite IH.
Qed.

Lemma chunks_bound {A : Type} (size count : nat) (l : list A) :
  Forall (fun c => (length c <= size)%nat) (chunks size count l).
Proof.
  revert l. induction count as [|count IH]; intros l; simpl; constructor.
  - rewrite length_take. lia.
  - apply IH.
Qed.

Lemma length_concat_bound {A : Type} (size : nat) (ls : list (list A)) :
  Forall (fun c => (length c <= size)%nat) ls ->
  (length (concat ls) <= length ls * size)%nat.
Proof.
  induction 1 as [|c ls Hc _ IH]; simpl; [lia|].
  rewrite length_app. lia.
Qed.

Lemma product_split (sh : list nat) (d n : nat) :
  sh !! d = Some n ->
  product sh = (product (take d sh) * (n * product (drop (S d) sh)))%nat.
Proof.
  unfold product. revert d. induction sh as [|m sh IH]; intros [|d]; simpl;
    try done.
  - intros [= ->]. rewrite drop_0. lia.
  - intros Hd. rewrite (IH _ Hd). simpl. lia.
Qed.

Section IndexingMore.
Context {num : Type} `{Numeric num}.

Lemma apply_index_shape (index : list index_entry) (d : nat)
    (a r : ndarray num) :
  apply_index d index a = Ok r ->
  length (nd_shape r) = length (nd_shape a)
  /\ forall j,
       ((j < d)%nat -> nd_shape r !! j = nd_shape a !! j)
       /\ forall pos, (d <= j)%nat -> index !! (j - d)%nat = Some (IList pos) ->
            nd_shape r !! j = Some (length pos).
Proof.
  revert d a. induction index as [|entry index IH]; intros d a; simpl.
  - intros [= <-]. split; [done|]. intros j. split; [done|]. by intros pos _ ?.
  - destruct (nd_shape a !! d) as [n|] eqn:Hn; [|done].
    destruct (match entry with
              | ISlice s => slice_positions n s
              | IList pos => Ok pos
              end) as [pos|] eqn:Hpos; simpl; [|done].
    destruct (take_axis d pos a) as [a'|] eqn:Ha'; simpl; [|done].
    apply take_axis_shape in Ha' as [Hd Hshape].
    intros Hr. destruct (IH _ _ Hr) as [Hlen Hall].
    rewrite Hshape, length_insert in Hlen. split; [done|].
    intros j. destruct (Hall j) as [Hbefore Hlist]. rewrite Hshape in Hbefore.
    split.
    + intros Hj. rewrite Hbefore by lia. by rewrite list_lookup_insert_ne by lia.
    + intros pos' Hj Hentry.
      destruct (decide (j = d)) as [->|Hjd].
      * rewrite Nat.sub_diag in Hentry. injection Hentry as ->.
        injection Hpos as <-.
        rewrite Hbefore by lia. by apply list_lookup_insert_eq.
      * apply Hlist; [lia|].
        replace (j - d)%nat with (S (j - S d)) in Hentry by lia. done.
Qed.

Lemma axis_rows_length (d : nat) (a : ndarray num) :
  length (axis_rows d a) = product (take d (nd_shape a)).
Proof. unfold axis_rows. by rewrite length_map, length_chunks. Qed.

Lemma axis_rows_elem (d n : nat) (a : ndarray num) (rows : list (list num)) :
  nd_shape a !! d = Some n -> rows ∈ axis_rows d a ->
  length rows = n /\ Forall (fun r => (length r <= axis_inner d a)%nat) rows.
Proof.
  intros Hn. unfold axis_rows, axis_len. rewrite Hn. simpl.
  intros (blk & -> & _)%list_elem_of_fmap_1.
  split; [apply length_chunks|apply chunks_bound].
Qed.

(** Taking positions along an axis reads the sub-arrays at those positions,
    in order. *)
Lemma take_axis_reads (d : nat) (pos : list Z) (a t : ndarray num) :
  Forall (fun p => 0 <= p) pos ->
  take_axis d pos a = Ok t -> reads_at d pos a t.
Proof.
  intros Hpos. unfold take_axis. destruct (d <? nd_ndim a)%nat; [|done].
  destruct (mapM _ (axis_rows d a)) as [blocks|] eqn:Hb; simpl; [|done].
  intros [= <-]. split; [done|]. exists blocks. split; [done|].
  apply mapM_Ok_inv in Hb. eapply Forall2_impl; [exact Hb|].
  intros rows block Ht. unfold np_take in Ht. apply mapM_Ok_inv in Ht.
  split; [symmetry; by eapply Forall2_length|].
  intros j p Hj.
  destruct (Forall2_lookup_l _ _ _ _ _ Ht Hj) as (y & Hy & Hitem).
  rewrite Hy. symmetry. apply np_item_Ok_inv; [|done].
  by eapply Forall_lookup_1.
Qed.

(** The buffer that [take_axis] builds has no more elements than its shape
    has indices. *)
Lemma take_axis_fits (d : nat) (pos : list Z) (a t : ndarray num) :
  take_axis d pos a = Ok t ->
  (length (nd_buf t) <= product (nd_shape t))%nat.
Proof.
  unfold take_axis. destruct (Nat.ltb_spec d (nd_ndim a)) as [Hd|]; [|done].
  destruct (mapM _ (axis_rows d a)) as [blocks|] eqn:Hb; simpl; [|done].
  intros [= <-]. simpl.
  apply mapM_Ok_inv in Hb.
  destruct (lookup_lt_is_Some_2 (nd_shape a) d Hd) as [n Hn].
  rewrite (product_split _ d (length pos)) by (by apply list_lookup_insert_eq).
  rewrite take_insert_ge, drop_insert_lt by lia.
  rewrite <- axis_rows_length.
  assert (Hrows : Forall (fun rows =>
             Forall (fun r => (length r <= axis_inner d a)%nat) rows)
             (axis_rows d a)).
  { apply Forall_forall. intros rows Hrows.
    by destruct (axis_rows_elem d n a rows Hn Hrows). }
  fold (axis_inner d a).
  induction Hb as [|rows block rowss blocks Ht _ IH]; simpl; [lia|].
  apply Forall_cons in Hrows as [Hrow Hrows].
  rewrite length_app. specialize (IH Hrows).
  assert (Hblock : (length (concat block) <= length pos * axis_inner d a)%nat).
  { assert (Hl : length block = length pos).
    { unfold np_take in Ht. apply mapM_Ok_inv in Ht.
      symmetry. by eapply Forall2_length. }
    rewrite <- Hl. apply length_concat_bound.
    apply Forall_forall. intros r Hr.
    apply (proj1 (Forall_forall _ _) Hrow).
    by eapply np_take_elem_of. }
  lia.
Qed.

(** Select-all along an axis gives the array back. *)
Lemma take_axis_all (d n : nat) (pos : list Z) (a : ndarray num) :
  nd_shape a !! d = Some n ->
  (length (nd_buf a) <= product (nd_shape a))%nat ->
  slice_positions n slice_all = Ok pos ->
  take_axis d pos a = Ok a.
Proof.
  intros Hn Hfit Hpos. unfold take_axis.
  assert (Hd : (d <? nd_ndim a)%nat = true).
  { apply Nat.ltb_lt. by eapply lookup_lt_Some. }
  rewrite Hd.
  rewrite (mapM_Ok _ _ (fun rows => rows)); cycle 1.
  { apply Forall_forall. intros rows Hrows.
    destruct (axis_rows_elem d n a rows Hn Hrows) as [Hl _].
    pose proof (np_slice_all rows) as Hs. unfold np_slice in Hs.
    rewrite Hl, Hpos in Hs. exact Hs. }
  rewrite map_id. simpl. f_equal.
  assert (Hlen : length pos = n).
  { destruct (slice_positions_all n) as (pos' & Hpos' & Hl).
    rewrite Hpos in Hpos'. by injection Hpos' as ->. }
  rewrite Hlen, (list_insert_id _ _ _ Hn).
  assert (Hbuf : concat (map (fun b => concat b) (axis_rows d a)) = nd_buf a).
  { unfold axis_rows, axis_len. rewrite Hn. simpl.
    rewrite map_map.
    rewrite (map_ext_Forall _ (fun blk => blk)).
    - rewrite map_id, concat_chunks. apply take_ge.
      rewrite (product_split _ _ _ Hn) in Hfit. unfold axis_inner. lia.
    - eapply Forall_impl; [apply chunks_bound|].
      intros blk Hblk. simpl in Hblk. rewrite concat_chunks. by apply take_ge. }
  rewrite Hbuf. by destruct a.
Qed.

Lemma apply_slices_all (sl : list pyslice) (d : nat) (a r : ndarray num) :
  Forall (fun s => s = slice_all) sl ->
  (length (nd_buf a) <= product (nd_shape a))%nat ->
  apply_slices d sl a = Ok r -> r = a.
Proof.
  intros Hsl. revert d a. induction Hsl as [|s sl -> _ IH]; intros d a Hfit.
  - simpl. by intros [= <-].
  - cbn [apply_slices]. destruct (nd_shape a !! d) as [n|] eqn:Hn; [|done].
    destruct (slice_positions n slice_all) as [pos|] eqn:Hpos; cbn [bind];
      [|done].
    rewrite (take_axis_all d n pos a Hn Hfit Hpos). cbn [bind]. by apply IH.
Qed.

(** An index tuple of slices around one list of positions: the slices
    before it, the positions, the slices after it. *)
Lemma apply_index_slices (sl : list pyslice) (d : nat) (a : ndarray num) :
  apply_index d (map ISlice sl) a = apply_slices d sl a.
Proof.
  revert d a. induction sl as [|s sl IH]; intros d a; simpl; [done|].
  destruct (nd_shape a !! d) as [n|]; [|done].
  destruct (slice_positions n s) as [pos|]; simpl; [|done].
  destruct (take_axis d pos a) as [a'|]; simpl; [|done]. apply IH.
Qed.

Lemma apply_index_app (sl : list pyslice) (rest : list index_entry) (d : nat)
    (a : ndarray num) :
  apply_index d (map ISlice sl ++ rest) a
  = (let* b := apply_slices d sl a in
     apply_index (d + length sl) rest b).
Proof.
  revert d a. induction sl as [|s sl IH]; intros d a; simpl.
  - by rewrite Nat.add_0_r.
  - destruct (nd_shape a !! d) as [n|]; [|done].
    destruct (slice_positions n s) as [pos|]; simpl; [|done].
    destruct (take_axis d pos a) as [a'|]; simpl; [|done].
    by rewrite IH, Nat.add_succ_r.
Qed.

(** X17: indexing an [ImageKey] with a tuple of slices reads the array at
    the physical positions that the slice for the projection axis selects
    in the full data index, every one of them a frame labelled 0; a preview
    plays no part, and the result has as many frames as positions selected.
    The result is the array sliced before the projection axis, then the
    sub-arrays at exactly those positions, in their order, then sliced
    after the projection axis.  When every slice is select-all and the
    buffer of the array has one element per index, the result is every
    data frame: the sub-arrays of the array at the full data index. *)
Theorem logical_indexing_reads_data_frames
    (v : View num) (idx : list pyslice) (r : ndarray num) :
  _getitem_imagekey v idx = Ok r ->
  exists s pos,
    idx !! proj_dim v = Some s
    /\ np_slice (where_key (image_key v) 0) s = Ok pos
    /\ (forall p, p ∈ pos -> label_at (image_key v) p = Some 0)
    /\ nd_shape r !! proj_dim v = Some (length pos)
    /\ nd_ndim r = nd_ndim (data v)
    /\ (s = slice_all -> pos = where_key (image_key v) 0)
    /\ (exists before taken,
          nd_getitem (data v) (take (proj_dim v) idx) = Ok before
          /\ take_axis (proj_dim v) pos before = Ok taken
          /\ reads_at (proj_dim v) pos before taken
          /\ apply_slices (S (proj_dim v)) (drop (S (proj_dim v)) idx) taken
             = Ok r)
    /\ (nd_wf (data v) -> Forall (fun s' => s' = slice_all) idx ->
        take_axis (proj_dim v) (where_key (image_key v) 0) (data v) = Ok r
        /\ reads_at (proj_dim v) (where_key (image_key v) 0) (data v) r).
Proof.
  unfold _getitem_imagekey. cbn [get_index bind].
  destruct (np_item idx (Z.of_nat (proj_dim v))) as [s|] eqn:Hs; [|done].
  cbn [bind].
  destruct (np_slice (where_key (image_key v) 0) s) as [pos|] eqn:Hpos; [|done].
  cbn [bind]. unfold py_setitem.
  destruct (Nat.ltb_spec (proj_dim v) (length (map ISlice idx))) as [Hlt|];
    [|done].
  cbn [bind]. intros Hr.
  apply np_item_Ok_inv in Hs; [|lia]. rewrite Nat2Z.id in Hs.
  destruct (apply_index_shape _ _ _ _ Hr) as [Hlen Hall].
  assert (Hlabel : forall p, p ∈ pos -> label_at (image_key v) p = Some 0).
  { intros p Hp. apply elem_of_where_key.
    by apply (proj1 (np_slice_inv _ _ _ Hpos)). }
  assert (Hnonneg : Forall (fun p => 0 <= p) pos).
  { apply Forall_forall. intros p Hp%Hlabel. unfold label_at in Hp.
    destruct (image_key v); [|done].
    destruct (Z.leb_spec 0 p); [done|done]. }
  assert (Hselect : s = slice_all -> pos = where_key (image_key v) 0).
  { intros ->. rewrite np_slice_all in Hpos. by injection Hpos. }
  (* the index tuple: slices, the positions, slices *)
  assert (Hparts : exists before taken,
             apply_slices 0 (take (proj_dim v) idx) (data v) = Ok before
             /\ take_axis (proj_dim v) pos before = Ok taken
             /\ apply_slices (S (proj_dim v)) (drop (S (proj_dim v)) idx) taken
                = Ok r).
  { rewrite insert_take_drop in Hr by done.
    rewrite firstn_map, skipn_map, apply_index_app in Hr.
    destruct (apply_slices 0 (take (proj_dim v) idx) (data v))
      as [before|] eqn:Hbefore; [|done].
    cbn [bind] in Hr. rewrite length_map in Hlt.
    rewrite length_take, Nat.min_l in Hr by lia.
    cbn [apply_index Nat.add] in Hr.
    destruct (nd_shape before !! proj_dim v) as [n|]; [|done].
    cbn [bind] in Hr.
    destruct (take_axis (proj_dim v) pos before) as [taken|] eqn:Htaken;
      [|done].
    cbn [bind] in Hr. rewrite apply_index_slices in Hr.
    by exists before, taken. }
  destruct Hparts as (before & taken & Hbefore & Htaken & Hafter).
  exists s, pos. split_and!; try done.
  - apply (proj2 (Hall (proj_dim v)) pos); [lia|].
    rewrite Nat.sub_0_r. by apply list_lookup_insert_eq.
  - exists before, taken. split_and!; try done.
    by apply take_axis_reads.
  - intros Hwf Hsl.
    assert (Hs' : s = slice_all) by exact (Forall_lookup_1 _ _ _ _ Hsl Hs).
    rewrite <- (Hselect Hs').
    assert (Hb : before = data v).
    { apply (apply_slices_all _ _ _ _ (Forall_take _ _ _ Hsl)) in Hbefore;
        [done|]. unfold nd_wf in Hwf. lia. }
    assert (Hrt : r = taken).
    { apply (apply_slices_all _ _ _ _ (Forall_drop _ _ _ Hsl)) in Hafter;
        [done|]. by eapply take_axis_fits. }
    rewrite Hrt, <- Hb. split; [done|]. by apply take_axis_reads.
Qed.
End IndexingMore.

Lemma logical_indexing_reads_data_frames_witness :
  _getitem_imagekey view11 [slice_all; slice_all; slice_all]
  = Ok (NdArray [5; 1; 1]%nat [1%Q; 2%Q; 3%Q; 8%Q; 9%Q])
  /\ take_axis 0 [1; 2; 3; 8; 9] frames11
     = Ok (NdArray [5; 1; 1]%nat [1%Q; 2%Q; 3%Q; 8%Q; 9%Q])
  /\ exists s pos,
       [slice_all; slice_all; slice_all] !! proj_dim view11 = Some s
       /\ np_slice (where_key (image_key view11) 0) s = Ok pos.
Proof.
  assert (Hr : _getitem_imagekey view11 [slice_all; slice_all; slice_all]
               = Ok (NdArray [5; 1; 1]%nat [1%Q; 2%Q; 3%Q; 8%Q; 9%Q]))
    by (vm_compute; reflexivity).
  assert (Hwf : nd_wf (data view11)) by (vm_compute; reflexivity).
  assert (Hsl : Forall (fun s' => s' = slice_all)
                       [slice_all; slice_all; slice_all])
    by (repeat constructor).
  destruct (logical_indexing_reads_data_frames view11 _ _ Hr)
    as (s & pos & Hs & Hpos & _ & _ & _ & _ & _ & Hevery).
  destruct (Hevery Hwf Hsl) as [Htake _].
  split; [exact Hr|]. split.
  - exact (Htake <: take_axis 0 [1; 2; 3; 8; 9] frames11
                    = Ok (NdArray [5; 1; 1]%nat [1%Q; 2%Q; 3%Q; 8%Q; 9%Q])).
  - exists s, pos. exact (conj Hs Hpos).
Defined.

(** ** Runs of ascending positions *)

(** X18: on a non-empty, strictly ascending sequence of positions, as
    [np.where] returns it, every run the segmenter reports is a block of
    consecutive integers from its start value to its end value, and the
    next run starts at least two positions after the end of the run
    before. *)
Theorem runs_of_ascending_positions_are_blocks (index : list Z) :
  index <> [] -> positions index -> StronglySorted Z.lt index ->
  exists start end_ start_entry end_entry,
    _get_start_end_idx index = Ok (start, end_, start_entry, end_entry)
    /\ (forall j i_s i_e s e,
          start !! j = Some i_s -> end_ !! j = Some i_e ->
          start_entry !! j = Some s -> end_entry !! j = Some e ->
          i_s <= i_e /\ e - s = i_e - i_s
          /\ forall i, i_s <= i <= i_e ->
               index !! Z.to_nat i = Some (s + (i - i_s)))
    /\ (forall j e s',
          end_entry !! j = Some e -> start_entry !! S j = Some s' ->
          e + 1 < s').
Proof.
  intros Hne Hp Hsorted.
  destruct (segmenter_Ok index Hne) as (se & ee & Heq & Hlse & Hs & Hlee & He).
  exists (run_starts index), (run_ends index), se, ee.
  split; [done|]. split.
  - intros j i_s i_e s e His Hie Hsv Hev.
    destruct (run_contiguous index j i_s i_e Hne Hp Hsorted His Hie)
      as (Hle & s0 & Hs0 & Hrun).
    rewrite (Hs _ _ His), Hs0 in Hsv. injection Hsv as ->.
    assert (Hblock : forall i, i_s <= i <= i_e ->
              index !! Z.to_nat i = Some (s + (i - i_s))).
    { intros i Hi. specialize (Hrun (Z.to_nat (i - i_s)) ltac:(lia)).
      replace (i_s + Z.of_nat (Z.to_nat (i - i_s))) with i in Hrun by lia.
      rewrite Hrun. f_equal. lia. }
    split_and!; [done| |done].
    rewrite (He _ _ Hie), (Hblock i_e) in Hev by lia.
    injection Hev as <-. lia.
  - intros j e s' Hev Hsv.
    assert (Hlre : length (run_ends index) = length (run_starts index)).
    { rewrite run_ends_eq. unfold run_starts. simpl.
      rewrite length_app, length_map. simpl. lia. }
    destruct (lookup_lt_is_Some_2 (run_ends index) j) as [i_e Hie].
    { rewrite <- Hlee. by eapply lookup_lt_Some. }
    destruct (lookup_lt_is_Some_2 (run_starts index) (S j)) as [i_s' His'].
    { rewrite <- Hlse. by eapply lookup_lt_Some. }
    destruct (run_ends_lookup index j i_e Hie) as [Hnext|[Hlast _]].
    2:{ apply lookup_lt_Some in His'. lia. }
    rewrite Hnext in His'. injection His' as <-.
    assert (Hin : i_e + 1 ∈ run_starts index)
      by (by eapply list_elem_of_lookup_2).
    assert (Hie0 : 0 <= i_e).
    { pose proof (proj1 (Forall_forall _ _) (run_ends_bound index Hne) i_e
                    (list_elem_of_lookup_2 _ _ _ Hie)) as Hb.
      simpl in Hb. lia. }
    apply elem_of_run_starts in Hin as [?|(x & y & _ & Hx & Hy & Hgap)]; [lia|].
    replace (i_e + 1 - 1) with i_e in Hx by lia.
    rewrite (positions_diff_exact index _ _ x y Hp Hx Hy) in Hgap.
    rewrite (He _ _ Hie), Hx in Hev. injection Hev as <-.
    rewrite (Hs _ _ Hnext), Hy in Hsv. injection Hsv as <-. lia.
Qed.

Lemma runs_of_ascending_positions_are_blocks_witness :
  ([0; 1; 2; 5; 6; 9] <> [] /\ positions [0; 1; 2; 5; 6; 9]
   /\ StronglySorted Z.lt [0; 1; 2; 5; 6; 9])
  /\ exists start end_ start_entry end_entry,
       _get_start_end_idx [0; 1; 2; 5; 6; 9]
       = Ok (start, end_, start_entry, end_entry).
Proof.
  assert (H1 : [0; 1; 2; 5; 6; 9] <> []) by discriminate.
  assert (H2 : positions [0; 1; 2; 5; 6; 9]) by (repeat constructor; lia).
  assert (H3 : StronglySorted Z.lt [0; 1; 2; 5; 6; 9])
    by (repeat constructor; lia).
  split; [done|].
  destruct (runs_of_ascending_positions_are_blocks _ H1 H2 H3)
    as (start & end_ & se & ee & Heq & _).
  by exists start, end_, se, ee.
Defined.

(** ** The padding of the reconstruction *)

(** X19: for a sinogram of [width] columns and an integer centre of
    rotation, both pad widths computed by [reconstruct] are at least 50,
    one of them is exactly 50, and in the padded sinogram the centre of
    rotation sits exactly in the middle. *)
Theorem padding_centres_the_rotation_axis (width ctr : Z) :
  50 <= fst (reconstruct_pad width ctr)
  /\ 50 <= snd (reconstruct_pad width ctr)
  /\ (fst (reconstruct_pad width ctr) = 50
      \/ snd (reconstruct_pad width ctr) = 50)
  /\ 2 * (fst (reconstruct_pad width ctr) + ctr)
     = width + fst (reconstruct_pad width ctr) + snd (reconstruct_pad width ctr).
Proof.
  unfold reconstruct_pad.
  destruct (Z.ltb_spec width (2 * ctr)); simpl; lia.
Qed.

(** ** The truth value of an override *)

Section OverrideTruth.
Context {num : Type} `{Numeric num}.

(** X20: the accessors test the override by its truth value, so an
    override of more than one element makes [dark()] and [flat()] of both
    variants raise [ValueError], whatever else the view holds. *)
Theorem override_of_several_elements_raises
    (v : View num) (frame : ndarray num) :
  (1 < length (nd_buf frame))%nat ->
  ImageKey_dark (fst (update_dark v frame)) = Raise ValueError
  /\ ImageKey_flat (fst (update_flat v frame)) = Raise ValueError
  /\ snd (NoImageKey_dark (fst (update_dark v frame))) = Raise ValueError
  /\ snd (NoImageKey_flat (fst (update_flat v frame))) = Raise ValueError
  /\ ImageKey_dark_mean (fst (update_dark v frame)) = Raise ValueError
  /\ ImageKey_flat_mean (fst (update_flat v frame)) = Raise ValueError.
Proof.
  intros Hlen.
  destruct (large_override_raises v frame Hlen) as (Hd & Hf & Hnd & Hnf).
  unfold ImageKey_dark_mean, ImageKey_flat_mean. rewrite Hd, Hf. done.
Qed.

(** X21: an override whose truth value is false (no element, or a single
    element equal to zero) is taken for no override: [dark()] and [flat()]
    of an [ImageKey] compute the frames from the label array, with the
    scale factor 1 that the update has set. *)
Theorem falsy_override_is_ignored (v : View num) (frame : ndarray num) :
  nd_truth frame = Ok false ->
  ImageKey_dark (fst (update_dark v frame))
  = (let* frames := __get_data v 2 in Ok (nd_scale frames num_one))
  /\ ImageKey_flat (fst (update_flat v frame))
     = (let* frames := __get_data v 1 in Ok (nd_scale frames num_one)).
Proof.
  intros Ht. unfold update_dark, update_flat.
  repeat match goal with
         | |- context [_calc_mean ?a ?b] => destruct (_calc_mean a b)
         end; cbn [fst];
    unfold ImageKey_dark, ImageKey_flat; simpl; rewrite Ht; done.
Qed.
End OverrideTruth.

Lemma override_of_several_elements_raises_witness :
  (1 < length (nd_buf stack57))%nat
  /\ ImageKey_flat (fst (update_flat view11_ready stack57)) = Raise ValueError.
Proof.
  assert (Hl : (1 < length (nd_buf stack57))%nat) by (vm_compute; lia).
  split; [exact Hl|].
  exact (proj1 (proj2 (override_of_several_elements_raises
                         view11_ready stack57 Hl))).
Defined.

Lemma falsy_override_is_ignored_witness :
  nd_truth frame0 = Ok false
  /\ ImageKey_dark (fst (update_dark view11_ready frame0))
     = Ok (NdArray [2; 1; 1]%nat [5%Q; 6%Q]).
Proof.
  assert (Ht : nd_truth frame0 = Ok false) by reflexivity.
  assert (Hv : (let* frames := __get_data view11_ready 2 in
                Ok (nd_scale frames num_one))
               = Ok (NdArray [2; 1; 1]%nat [5%Q; 6%Q]))
    by (vm_compute; reflexivity).
  split; [exact Ht|].
  exact (eq_trans (proj1 (falsy_override_is_ignored view11_ready frame0 Ht)) Hv).
Defined.
